(** * Risk scoring, data fusion and anomaly detection of the plume
      back-tracing backend

    Shallow embedding of [backend/services/ml_pipeline.py] and
    [backend/services/data_fusion.py], of the coordinating loop of
    [backend/services/data_ingestion.py] and of the helpers of the routes
    in [backend/api/routes].  What the code obtains from outside (the
    scikit-learn estimators, the clock, the formatting of floats, the
    answers of the remote services) is a variable of the section that
    embeds its caller.

    Numbers.  The Python code computes with floats.  The formulas are
    embedded over the exact rationals [Q]: every arithmetic operation is the
    real-number operation the source writes, comparisons are the source's
    comparisons, and equalities between scores are stated up to [==]
    (equality of rationals as numbers).  Where the rounding of a float
    could decide a property, the property is stated in the form that the
    rounded computation has as well: a bound that is not strict, an order
    between two results rather than their difference.

    Dictionaries.  A Python dict keyed by arbitrary strings (the air domain,
    the threshold and weight tables, the columns of a frame) is a
    [gmap string _].  A dict with a fixed set of keys is a record; a key
    that the code reads with [.get] or tests with [in] is an option field,
    [None] standing for the absent key.  A value that is present has the
    type the code computes with: the inputs are well typed, as the callers
    of the core are required to ensure. *)

From Stdlib Require Import QArith Qround Qabs Qminmax Lqa ZArith Lia.
From stdpp Require Import gmap strings list fin_maps.

Local Open Scope Q_scope.

(** ** Python's numeric built-ins on rationals *)

Module Py.

(** [a > b], [a >= b], [a < b] *)
Definition gt (a b : Q) : bool := negb (Qle_bool a b).
Definition ge (a b : Q) : bool := Qle_bool b a.
Definition lt (a b : Q) : bool := negb (Qle_bool b a).

(** [max(a, b)] keeps its first argument unless the second is strictly
    greater; [min(a, b)] keeps it unless the second is strictly smaller. *)
Definition max (a b : Q) : Q := if gt b a then b else a.
Definition min (a b : Q) : Q := if lt b a then b else a.

(** Nearest integer, ties to the even one. *)
Definition round_half_even (x : Q) : Z :=
  let f := Qfloor x in
  match Qcompare (x - inject_Z f) (1 # 2) with
  | Lt => f
  | Gt => (f + 1)%Z
  | Eq => if Z.even f then f else (f + 1)%Z
  end.

(** [round(x, 1)]: the nearest multiple of one tenth. *)
Definition round1 (x : Q) : Q := inject_Z (round_half_even (x * 10)) / 10.

(** Truthiness of a number: zero is falsy. *)
Definition truthy (x : Q) : bool := negb (Qeq_bool x 0).

(** [l[-n:]]; note that [l[-0:]] is the whole list. *)
Definition slice_last {A} (n : nat) (l : list A) : list A :=
  match n with
  | O => l
  | _ => drop (length l - n) l
  end.

(** [sum(l)] *)
Definition sum (l : list Q) : Q := foldr Qplus 0 l.

(** [float(n)] for a natural number *)
Definition of_nat (n : nat) : Q := inject_Z (Z.of_nat n).

End Py.

(** ** Data model *)

(** One entry of the air domain: [{"value": .., "unit": .., "threshold": ..,
    "source": ..}].  [fm_value = None] is an entry without "value", which
    the exposure score ([.get("value") is not None]) and the duration score
    (["value" in data]) both pass over; a stored value is a number. *)
Record FusedMetric := {
  fm_value : option Q;
  fm_unit : string;
  fm_threshold : option Q;
  fm_source : string
}.

Record WaterMetrics := {
  quality_score : option Q;
  turbidity : option Q;
  water_status : string;
  water_source : string
}.

Record LandMetrics := {
  deforestation_risk : option Q;
  trend : string;
  land_source : string
}.

(** [{"air": .., "water": .., "land": ..}]; each domain may be absent. *)
Record MetricsBundle := {
  air : option (gmap string FusedMetric);
  water : option WaterMetrics;
  land : option LandMetrics
}.

(** [{"coverage": .., "age_hours": .., "valid_sources": ..,
    "total_sources": ..}]; the scorer reads the first two with [.get]. *)
Record DataQuality := {
  coverage : option Q;
  age_hours : option Q;
  valid_sources : option nat;
  total_sources : option nat
}.

Inductive Verdict := UNSAFE | MODERATE | SAFE.

Record RiskResult := {
  risk_score : Q;
  exposure_score : Q;
  duration_score : Q;
  uncertainty_penalty : Q;
  verdict : Verdict;
  confidence : Q;
  model_version : string
}.

(** [metrics.get("air", {})] and [metrics.get("water", {})] *)
Definition get_air (metrics : MetricsBundle) : gmap string FusedMetric :=
  default ∅ (air metrics).

Definition empty_water : WaterMetrics :=
  {| quality_score := None; turbidity := None;
     water_status := EmptyString; water_source := EmptyString |}.

Definition get_water (metrics : MetricsBundle) : WaterMetrics :=
  default empty_water (water metrics).

(** ** RiskScorer *)

Module RiskScorer.

(** WHO Air Quality Guidelines (2021), in μg/m³ *)
Definition WHO_THRESHOLDS : gmap string Q :=
  <["pm25_annual" := 15]> (
  <["pm25_24h" := 45]> (
  <["pm10_annual" := 45]> (
  <["pm10_24h" := 45]> (
  <["no2_annual" := 25]> (
  <["no2_24h" := 200]> (
  <["so2_24h" := 40]> (
  <["o3_8h" := 100]> ∅))))))).

(** [self.WHO_THRESHOLDS[key]] for a key of the table *)
Definition who (key : string) : Q := default 0 (WHO_THRESHOLDS !! key).

(** One of the three blocks of [_calculate_exposure_score]:
    [if p in air and air[p].get("value") is not None: ...] *)
Definition exceedance_block (air : gmap string FusedMetric)
    (pollutant threshold_key : string) (max_exceedance : Q) : Q :=
  match air !! pollutant with
  | Some entry =>
      match fm_value entry with
      | Some value =>
          let threshold := who threshold_key in
          let exceedance :=
            if Py.gt threshold 0 then value / threshold else 0 in
          Py.max max_exceedance exceedance
      | None => max_exceedance
      end
  | None => max_exceedance
  end.

Definition _calculate_exposure_score (metrics : MetricsBundle) : Q :=
  let max_exceedance := 0 in
  let air := get_air metrics in
  (* PM2.5 *)
  let max_exceedance := exceedance_block air "pm25" "pm25_24h" max_exceedance in
  (* NO2 *)
  let max_exceedance := exceedance_block air "no2" "no2_24h" max_exceedance in
  (* SO2 *)
  let max_exceedance := exceedance_block air "so2" "so2_24h" max_exceedance in
  (* Water quality *)
  let water := get_water metrics in
  let max_exceedance :=
    match quality_score water with
    | Some score =>
        let water_risk := (100 - score) / 100 in
        Py.max max_exceedance water_risk
    | None => max_exceedance
    end in
  Py.min 100 (max_exceedance * 50).

(** The inner loop over [air.items()] of one day: [true] when the loop
    leaves through [high_exposure_days += 1; break]. *)
Fixpoint day_exceeds (items : list (string * FusedMetric)) : bool :=
  match items with
  | [] => false
  | (pollutant, data) :: rest =>
      match fm_value data with
      | Some value =>
          match WHO_THRESHOLDS !! (pollutant +:+ "_24h") with
          | Some threshold =>
              if Py.gt value threshold then true else day_exceeds rest
          | None => day_exceeds rest
          end
      | None => day_exceeds rest
      end
  end.

(** The outer loop over the examined days, threading the counter. *)
Fixpoint count_days (days : list MetricsBundle) (high_exposure_days : nat)
    : nat :=
  match days with
  | [] => high_exposure_days
  | day_data :: rest =>
      let air := get_air day_data in
      count_days rest
        (if day_exceeds (map_to_list air)
         then S high_exposure_days else high_exposure_days)
  end.

Definition _calculate_duration_score
    (historical_trend : option (list MetricsBundle)) : Q :=
  match historical_trend with
  | None => 50
  | Some [] => 50
  | Some trend =>
      if (length trend <? 7)%nat then 50
      else
        let total_days := Nat.min 30 (length trend) in
        let high_exposure_days :=
          count_days (Py.slice_last total_days trend) 0 in
        (Py.of_nat high_exposure_days / Py.of_nat total_days) * 100
  end.

Definition _calculate_uncertainty_penalty (data_quality : DataQuality) : Q :=
  let penalty := 0 in
  (* Data age penalty *)
  let age_hours := default 0 (age_hours data_quality) in
  let penalty :=
    if Py.gt age_hours 24
    then penalty + Py.min 20 ((age_hours - 24) / 24 * 20)
    else penalty in
  (* Coverage penalty *)
  let coverage := default 1 (coverage data_quality) in
  let penalty :=
    if Py.lt coverage (1 # 2)
    then penalty + (1 - coverage) * 30
    else penalty in
  Py.min 100 penalty.

Definition _calculate_confidence (data_quality : DataQuality)
    (metrics : MetricsBundle) : Q :=
  let confidence := 100 in
  (* Reduce confidence for old data *)
  let age_hours := default 0 (age_hours data_quality) in
  let confidence :=
    if Py.gt age_hours 24
    then confidence - Py.min 30 ((age_hours - 24) / 24 * 30)
    else confidence in
  (* Reduce confidence for sparse data *)
  let coverage := default 1 (coverage data_quality) in
  let confidence := confidence * coverage in
  (* Reduce confidence if missing critical metrics *)
  let air := get_air metrics in
  let confidence :=
    if (size air <? 2)%nat then confidence * (7 # 10) else confidence in
  Py.max 0 (Py.min 100 confidence).

(** The verdict step of [calculate_risk_score], applied to the clamped
    score before it is rounded. *)
Definition verdict_of (risk_score : Q) : Verdict :=
  if Py.ge risk_score 67 then UNSAFE
  else if Py.ge risk_score 34 then MODERATE
  else SAFE.

Definition default_data_quality : DataQuality :=
  {| coverage := Some 1; age_hours := Some 0;
     valid_sources := None; total_sources := None |}.

(** The clamped composite of step 4, before rounding. *)
Definition composite_score (metrics : MetricsBundle)
    (historical_trend : option (list MetricsBundle))
    (data_quality : DataQuality) : Q :=
  let exposure_score := _calculate_exposure_score metrics in
  let duration_score := _calculate_duration_score historical_trend in
  let uncertainty_penalty := _calculate_uncertainty_penalty data_quality in
  let risk_score :=
    (6 # 10) * exposure_score + (3 # 10) * duration_score
    + (1 # 10) * uncertainty_penalty in
  Py.max 0 (Py.min 100 risk_score).

Definition calculate_risk_score (metrics : MetricsBundle)
    (historical_trend : option (list MetricsBundle))
    (data_quality : option DataQuality) : RiskResult :=
  let data_quality := default default_data_quality data_quality in
  (* 1. - 3. *)
  let exposure_score := _calculate_exposure_score metrics in
  let duration_score := _calculate_duration_score historical_trend in
  let uncertainty_penalty := _calculate_uncertainty_penalty data_quality in
  (* 4. Combined risk score, between 0 and 100 *)
  let risk_score := composite_score metrics historical_trend data_quality in
  (* 5. Determine verdict *)
  let verdict := verdict_of risk_score in
  (* 6. Calculate confidence *)
  let confidence := _calculate_confidence data_quality metrics in
  {| risk_score := Py.round1 risk_score;
     exposure_score := Py.round1 exposure_score;
     duration_score := Py.round1 duration_score;
     uncertainty_penalty := Py.round1 uncertainty_penalty;
     verdict := verdict;
     confidence := Py.round1 confidence;
     model_version := "1.0.0" |}.

End RiskScorer.

(** ** DataFusionService *)

(** One OpenAQ measurement: [meas.get("parameter")], [meas.get("value")]. *)
Record Measurement := {
  parameter : option string;
  meas_value : option Q
}.

(** [sources["openaq"]]: [{"measurements": [...]}] *)
Record OpenAQData := {
  measurements : option (list Measurement)
}.

(** One Sentinel-5P band: [{"value": column density in mol/m², ...}] *)
Record SatelliteBand := {
  band_value : option Q
}.

(** [sources["sentinel5p"]]: the keys "no2" and "so2" may be absent *)
Record Sentinel5PData := {
  s5p_no2 : option SatelliteBand;
  s5p_so2 : option SatelliteBand
}.

Record Sources := {
  openaq : option OpenAQData;
  sentinel5p : option Sentinel5PData
}.

Record RawData := {
  sources : option Sources
}.

Module DataFusionService.

(** Source weights (sum to 1.0) *)
Definition weights : gmap string Q :=
  <["satellite" := 4 # 10]> (
  <["ground_sensor" := 5 # 10]> (
  <["weather" := 1 # 10]> ∅)).

(** [self.weights[key]] for a key of the table *)
Definition weight (key : string) : Q := default 0 (weights !! key).

(** [np.average(values, weights=w)]: sum of the weighted values over the
    sum of the weights. *)
Definition np_average (values ws : list Q) : Q :=
  Py.sum (zip_with Qmult values ws) / Py.sum ws.

(** The loop [for meas in measurements] that appends the readings of one
    parameter to the value and weight lists. *)
Fixpoint from_openaq (param : string) (measurements : list Measurement)
    (values ws : list Q) : list Q * list Q :=
  match measurements with
  | [] => (values, ws)
  | meas :: rest =>
      match parameter meas, meas_value meas with
      | Some p, Some v =>
          if String.eqb p param
          then from_openaq param rest
                 (values ++ [v]) (ws ++ [weight "ground_sensor"])
          else from_openaq param rest values ws
      | _, _ => from_openaq param rest values ws
      end
  end.

(** [if key in sentinel_data and sentinel_data[key].get("value")]: the
    column density is appended, converted by
    [mol * 1e6 * molar_mass / 6.022e23 * 1e12], when it is truthy. *)
Definition from_sentinel (band : option SatelliteBand) (molar_mass : Q)
    (values ws : list Q) : list Q * list Q :=
  match band with
  | Some b =>
      match band_value b with
      | Some mol =>
          if Py.truthy mol
          then
            let ug :=
              mol * 1000000 * molar_mass
              / inject_Z (6022 * 10 ^ 20) * inject_Z (10 ^ 12) in
            (values ++ [ug], ws ++ [weight "satellite"])
          else (values, ws)
      | None => (values, ws)
      end
  | None => (values, ws)
  end.

(** The provenance expression of the NO2 and SO2 blocks. *)
Definition provenance (values : list Q) (measurements : list Measurement)
    : string :=
  if (1 <? length values)%nat then "Fused (OpenAQ + Sentinel-5P)"
  else match measurements with
       | _ :: _ => "OpenAQ"
       | [] => "Sentinel-5P"
       end.

Definition empty_sentinel : Sentinel5PData :=
  {| s5p_no2 := None; s5p_so2 := None |}.

Definition _fuse_air_quality (sources : Sources)
    : gmap string FusedMetric :=
  let metrics : gmap string FusedMetric := ∅ in
  (* Extract ground sensor data (OpenAQ) *)
  let measurements :=
    default [] (openaq_data ← openaq sources; measurements openaq_data) in
  (* Extract satellite data (Sentinel-5P) *)
  let sentinel_data := default empty_sentinel (sentinel5p sources) in
  (* Fuse PM2.5 *)
  let '(pm25_values, pm25_weights) :=
    from_openaq "pm25" measurements [] [] in
  let metrics :=
    match pm25_values with
    | _ :: _ =>
        let fused_pm25 := np_average pm25_values pm25_weights in
        <["pm25" := {| fm_value := Some fused_pm25; fm_unit := "μg/m³";
                       fm_threshold := Some 45; fm_source := "OpenAQ" |}]>
          metrics
    | [] => metrics
    end in
  (* Fuse NO2 *)
  let '(no2_values, no2_weights) :=
    from_openaq "no2" measurements [] [] in
  let '(no2_values, no2_weights) :=
    from_sentinel (s5p_no2 sentinel_data) (4601 # 100)
      no2_values no2_weights in
  let metrics :=
    match no2_values with
    | _ :: _ =>
        let fused_no2 := np_average no2_values no2_weights in
        <["no2" := {| fm_value := Some fused_no2; fm_unit := "μg/m³";
                      fm_threshold := Some 200;
                      fm_source := provenance no2_values measurements |}]>
          metrics
    | [] => metrics
    end in
  (* Fuse SO2 *)
  let '(so2_values, so2_weights) :=
    from_openaq "so2" measurements [] [] in
  let '(so2_values, so2_weights) :=
    from_sentinel (s5p_so2 sentinel_data) (6407 # 100)
      so2_values so2_weights in
  let metrics :=
    match so2_values with
    | _ :: _ =>
        let fused_so2 := np_average so2_values so2_weights in
        <["so2" := {| fm_value := Some fused_so2; fm_unit := "μg/m³";
                      fm_threshold := Some 40;
                      fm_source := provenance so2_values measurements |}]>
          metrics
    | [] => metrics
    end in
  metrics.

Definition _fuse_water_quality (sources : Sources) : WaterMetrics :=
  {| quality_score := Some 75; turbidity := None;
     water_status := "Data not available"; water_source := "Placeholder" |}.

Definition _fuse_land_metrics (sources : Sources) : LandMetrics :=
  {| deforestation_risk := Some 25; trend := "stable";
     land_source := "Placeholder" |}.

Definition empty_sources : Sources :=
  {| openaq := None; sentinel5p := None |}.

(** [lat] and [lng] are accepted and not used. *)
Definition fuse_data (raw_data : RawData) (lat lng : Q) : MetricsBundle :=
  let sources := default empty_sources (sources raw_data) in
  let air_metrics := _fuse_air_quality sources in
  let water_metrics := _fuse_water_quality sources in
  let land_metrics := _fuse_land_metrics sources in
  {| air := Some air_metrics;
     water := Some water_metrics;
     land := Some land_metrics |}.

End DataFusionService.

(** ** AnomalyDetector *)

(** A pandas DataFrame as the detector reads it: the number of rows, the
    numeric columns by name, and the "timestamp" column already parsed into
    (hour, day of week) pairs when it is present. *)
Record DataFrame := {
  df_len : nat;
  df_columns : gmap string (list Q);
  df_timestamp : option (list (Q * Q))
}.

(** The dict handed to [predict]. *)
Record Sample := {
  sample_values : gmap string Q;
  sample_timestamp : option (Q * Q)
}.

(** [pd.DataFrame([current_data])]: a frame of one row. *)
Definition DataFrame_of_row (current_data : Sample) : DataFrame :=
  {| df_len := 1;
     df_columns := (λ v, [v]) <$> sample_values current_data;
     df_timestamp := (λ t, [t]) <$> sample_timestamp current_data |}.

(** The dict returned by [predict]; "note" and "threshold" are keys that
    only some of the returned dicts carry. *)
Record AnomalyResult := {
  anomaly_score : Q;
  is_anomaly : bool;
  anomaly_confidence : Q;
  note : option string;
  anomaly_threshold : option Q
}.

Module AnomalyDetector.

(** The feature matrix, kept as the list of its columns, so that
    [features.shape[1]] is the length of the list. *)
Definition _extract_features (df : DataFrame) : list (list Q) :=
  (* Pollution metrics *)
  let features_list :=
    omap (λ col, df_columns df !! col) ["pm25"; "pm10"; "no2"; "so2"; "o3"] in
  (* Temporal features *)
  match df_timestamp df with
  | Some ts =>
      features_list ++ [ (λ t, fst t / 24) <$> ts; (λ t, snd t / 7) <$> ts ]
  | None => features_list
  end.

Definition neutral (msg : string) : AnomalyResult :=
  {| anomaly_score := 0; is_anomaly := false; anomaly_confidence := 0;
     note := Some msg; anomaly_threshold := None |}.

Definition not_fitted_note : string :=
  "Model not fitted - insufficient historical data".

Section Sklearn.

(** scikit-learn's [StandardScaler] and [IsolationForest] are taken as
    given: their states and the five methods the detector calls.  Each of
    the calls may raise (a frame without feature columns, a sample whose
    columns differ from those of the training frame, ...): a result [None],
    or the flag [false] of [forest_fit], is an exception.  Neither [fit] nor
    [predict] has a [try], so the exception goes through to the caller.
    The two fitting methods work in place and give the state they leave
    behind, also when they raise. *)
Variables StandardScaler IsolationForest : Type.
Variable scaler_fit_transform :
  StandardScaler → list (list Q) → StandardScaler * option (list (list Q)).
Variable scaler_transform :
  StandardScaler → list (list Q) → option (list (list Q)).
Variable forest_fit : IsolationForest → list (list Q) → IsolationForest * bool.
Variable score_samples : IsolationForest → list (list Q) → option (list Q).
Variable forest_predict : IsolationForest → list (list Q) → option (list Z).

Record t := {
  model : IsolationForest;
  scaler : StandardScaler;
  fitted : bool
}.

(** [__init__]: a fresh forest and scaler, not fitted. *)
Definition init (forest0 : IsolationForest) (scaler0 : StandardScaler) : t :=
  {| model := forest0; scaler := scaler0; fitted := false |}.

(** [fit]: the detector after the call, and whether the call returned
    ([false]: it raised).  [self.fitted = True] is the last statement, so a
    call of scikit-learn that raises leaves the flag as it was. *)
Definition fit (self : t) (historical_data : DataFrame) : t * bool :=
  if (df_len historical_data <? 10)%nat
  then ({| model := model self; scaler := scaler self; fitted := false |},
        true)
  else
    let features := _extract_features historical_data in
    match scaler_fit_transform (scaler self) features with
    | (scaler', None) =>
        ({| model := model self; scaler := scaler';
            fitted := fitted self |}, false)
    | (scaler', Some features_scaled) =>
        match forest_fit (model self) features_scaled with
        | (model', false) =>
            ({| model := model'; scaler := scaler';
                fitted := fitted self |}, false)
        | (model', true) =>
            ({| model := model'; scaler := scaler'; fitted := true |}, true)
        end
    end.

(** [predict]: the dict it returns; [None] when it raises.  [[0]] on an
    empty array raises as well. *)
Definition predict (self : t) (current_data : Sample)
    : option AnomalyResult :=
  if negb (fitted self) then Some (neutral not_fitted_note)
  else
    let df := DataFrame_of_row current_data in
    let features := _extract_features df in
    if (length features =? 0)%nat
    then Some (neutral "No features available")
    else
      features_scaled ← scaler_transform (scaler self) features;
      anomaly_score ← score_samples (model self) features_scaled ≫= head;
      label ← forest_predict (model self) features_scaled ≫= head;
      let is_anomaly := (label =? -1)%Z in
      Some {| anomaly_score := anomaly_score;
              is_anomaly := is_anomaly;
              anomaly_confidence := Qabs anomaly_score;
              note := None;
              anomaly_threshold := Some (- (1 # 2)) |}.

(** The detector as a state machine driven by calls, and what each call
    gives its caller: the dict of a [predict], nothing for a [fit] that
    returned, or an exception. *)
Inductive call :=
| Fit (historical_data : DataFrame)
| Predict (current_data : Sample).

Inductive output :=
| Result (r : AnomalyResult)
| Done
| Raised.

Definition step (self : t) (c : call) : t * output :=
  match c with
  | Fit historical_data =>
      let '(self', returned) := fit self historical_data in
      (self', if returned then Done else Raised)
  | Predict current_data =>
      (self, from_option Result Raised (predict self current_data))
  end.

Fixpoint run (self : t) (calls : list call) : t * list output :=
  match calls with
  | [] => (self, [])
  | c :: rest =>
      let '(self', out) := step self c in
      let '(final, outs) := run self' rest in
      (final, out :: outs)
  end.

End Sklearn.

End AnomalyDetector.

(** ** The specification's formulas and the predicates of the statements

    [exposure_score] and [duration_score] follow the wording of the
    specification; they are what the code is compared with. *)

Module Spec.

Import RiskScorer.

(** Maximum of a non-empty list of ratios; 0 for the empty list, where the
    specification names no value. *)
Definition max_ratio (l : list Q) : Q :=
  match l with
  | [] => 0
  | x :: rest => foldr Qmax x rest
  end.

(** "for every pollutant in the air domain ... an exceedance ratio =
    value / threshold", the threshold being the WHO 24h guideline of the
    pollutant; a pollutant without value or without threshold is left
    out. *)
Definition air_ratio (item : string * FusedMetric) : option Q :=
  value ← fm_value item.2;
  threshold ← WHO_THRESHOLDS !! (item.1 +:+ "_24h");
  if Py.gt threshold 0 then Some (value / threshold) else None.

Definition water_ratio (metrics : MetricsBundle) : list Q :=
  match quality_score (get_water metrics) with
  | Some score => [(100 - score) / 100]
  | None => []
  end.

Definition exposure_score (metrics : MetricsBundle) : Q :=
  Qmin 100
    (max_ratio (omap air_ratio (map_to_list (get_air metrics))
                ++ water_ratio metrics) * 50).

(** The ratios the scorer looks at: PM2.5, NO2 and SO2 against their WHO
    24h guidelines, and the water quality score. *)
Definition scored_ratio (metrics : MetricsBundle) (pollutant : string)
    (threshold : Q) : list Q :=
  match get_air metrics !! pollutant ≫= fm_value with
  | Some value => [value / threshold]
  | None => []
  end.

Definition scored_ratios (metrics : MetricsBundle) : list Q :=
  scored_ratio metrics "pm25" 45 ++ scored_ratio metrics "no2" 200
  ++ scored_ratio metrics "so2" 40 ++ water_ratio metrics.

(** "a day counts as high exposure if any air pollutant value exceeds its
    WHO 24h threshold" *)
Definition exceeds_who (pollutant : string) (data : FusedMetric) : Prop :=
  match fm_value data, WHO_THRESHOLDS !! (pollutant +:+ "_24h") with
  | Some value, Some threshold => threshold < value
  | _, _ => False
  end.

#[global] Instance Qlt_decision (a b : Q) : Decision (a < b) :=
  match Qlt_le_dec a b with
  | left H => left H
  | right H => right (Qle_not_lt _ _ H)
  end.

#[global] Instance exceeds_who_dec pollutant data :
  Decision (exceeds_who pollutant data).
Proof.
  unfold exceeds_who.
  destruct (fm_value data); [|apply _].
  destruct (WHO_THRESHOLDS !! _); apply _.
Defined.

Definition high_exposure (day : MetricsBundle) : Prop :=
  map_Exists exceeds_who (get_air day).

(** "duration score = percentage of examined days flagged high-exposure",
    over the most recent min(30, length) entries; 50 below 7 entries. *)
Definition duration_score (historical_trend : option (list MetricsBundle))
    : Q :=
  let trend := default [] historical_trend in
  if decide (length trend < 7)%nat then 50
  else
    let examined := Nat.min 30 (length trend) in
    let recent := drop (length trend - examined) trend in
    100 * Py.of_nat (length (filter high_exposure recent))
    / Py.of_nat examined.

(** The verdict thresholds as a relation between a score and a verdict. *)
Definition verdict_for (score : Q) (v : Verdict) : Prop :=
  match v with
  | UNSAFE => 67 <= score
  | MODERATE => 34 <= score ∧ score < 67
  | SAFE => score < 34
  end.

(** The sources that [fuse_data] reads from the raw data. *)
Definition sources_of (raw_data : RawData) : Sources :=
  default DataFusionService.empty_sources (sources raw_data).

Definition measurements_of (src : Sources) : list Measurement :=
  default [] (data ← openaq src; measurements data).

(** The Sentinel-5P band that is averaged into a pollutant: NO2 and SO2
    have one, no other pollutant has. *)
Definition band_of (src : Sources) (pollutant : string)
    : option SatelliteBand :=
  s ← sentinel5p src;
  if decide (pollutant = "no2") then s5p_no2 s
  else if decide (pollutant = "so2") then s5p_so2 s
  else None.

(** No reading that enters the average of the pollutant is negative: no
    ground measurement of the pollutant that carries a value, and not the
    column density of its band.  Measurements of other pollutants, or
    without a parameter, are not looked at. *)
Definition readings_nonneg (raw_data : RawData) (pollutant : string)
    : Prop :=
  (∀ meas v, meas ∈ measurements_of (sources_of raw_data) →
             parameter meas = Some pollutant →
             meas_value meas = Some v → 0 <= v) ∧
  (∀ band v, band_of (sources_of raw_data) pollutant = Some band →
             band_value band = Some v → 0 <= v).

(** The same raw data without the readings whose value is missing. *)
Definition has_value (meas : Measurement) : bool :=
  match meas_value meas with Some _ => true | None => false end.

Definition present (band : SatelliteBand) : option SatelliteBand :=
  match band_value band with Some _ => Some band | None => None end.

Definition drop_missing (raw_data : RawData) : RawData :=
  {| sources :=
       (λ src,
          {| openaq :=
               (λ data, {| measurements :=
                             List.filter has_value <$> measurements data |})
               <$> openaq src;
             sentinel5p :=
               (λ s, {| s5p_no2 := s5p_no2 s ≫= present;
                        s5p_so2 := s5p_so2 s ≫= present |})
               <$> sentinel5p src |})
       <$> sources raw_data |}.

(** The value of the fused metric of a pollutant, when there is one. *)
Definition fused_value (raw_data : RawData) (pollutant : string)
    : option Q :=
  get_air (DataFusionService.fuse_data raw_data 0 0) !! pollutant
  ≫= fm_value.

(** Non-negative lists of numbers and non-negative fused entries. *)
Definition nonneg (l : list Q) : Prop := Forall (λ x, 0 <= x) l.

Definition value_nonneg (e : FusedMetric) : Prop :=
  ∃ v, fm_value e = Some v ∧ 0 <= v.

End Spec.

(** ** Concrete inputs used by the examples *)

Module Examples.

Definition metric (value threshold : Q) (source : string) : FusedMetric :=
  {| fm_value := Some value; fm_unit := "μg/m³";
     fm_threshold := Some threshold; fm_source := source |}.

Definition air_only (entries : gmap string FusedMetric) : MetricsBundle :=
  {| air := Some entries; water := None; land := None |}.

(** PM2.5 alone, at the given concentration. *)
Definition only_pm25 (value : Q) : MetricsBundle :=
  air_only {[ "pm25" := metric value 45 "OpenAQ" ]}.

(** PM10 alone at twice its WHO 24h guideline of 45 μg/m³. *)
Definition only_pm10 : MetricsBundle :=
  air_only {[ "pm10" := metric 90 45 "OpenAQ" ]}.

(** Two bundles with the same PM2.5, NO2 and SO2 entries and no water
    domain, and different other pollutants. *)
Definition bundle_a : MetricsBundle :=
  air_only (<["pm25" := metric 50 45 "OpenAQ"]>
            (<["no2" := metric 30 200 "OpenAQ"]>
             {[ "pm10" := metric 1000 45 "OpenAQ" ]})).

Definition bundle_b : MetricsBundle :=
  air_only (<["pm25" := metric 50 45 "OpenAQ"]>
            (<["no2" := metric 30 200 "OpenAQ"]>
             (<["o3" := metric 300 100 "OpenAQ"]>
              {[ "co" := metric 9 4 "OpenAQ" ]}))).

(** No air domain and a water quality score outside 0..100. *)
Definition only_water (score : Q) : MetricsBundle :=
  {| air := None;
     water := Some {| quality_score := Some score; turbidity := None;
                      water_status := "ok"; water_source := "Sentinel-2" |};
     land := None |}.

(** Data three days old from sources that all answered. *)
Definition three_days_old : DataQuality :=
  {| coverage := Some 1; age_hours := Some 72;
     valid_sources := Some 3%nat; total_sources := Some 3%nat |}.

Definition measurement (param : string) (value : Q) : Measurement :=
  {| parameter := Some param; meas_value := Some value |}.

Definition ground_only (ms : list Measurement) : RawData :=
  {| sources :=
       Some {| openaq := Some {| measurements := Some ms |};
               sentinel5p := None |} |}.

(** Ground readings, one of them without a value. *)
Definition ground_with_gap : RawData :=
  ground_only [measurement "pm25" 40;
               {| parameter := Some "pm25"; meas_value := None |};
               measurement "no2" 10].

(** A ground PM2.5 reading beside a negative reading of PM10, which the
    fusion does not average. *)
Definition pm25_beside_negative_pm10 : RawData :=
  ground_only [measurement "pm25" 40; measurement "pm10" (-3)].

(** One ground PM2.5 reading and a Sentinel-5P NO2 column density. *)
Definition ground_pm25_satellite_no2 : RawData :=
  {| sources :=
       Some {| openaq :=
                 Some {| measurements := Some [measurement "pm25" 12] |};
               sentinel5p :=
                 Some {| s5p_no2 := Some {| band_value := Some (1 # 10000) |};
                         s5p_so2 := None |} |} |}.

(** A history frame of nine rows. *)
Definition nine_rows : DataFrame :=
  {| df_len := 9;
     df_columns := {[ "pm25" := [10; 12; 11; 9; 14; 13; 10; 12; 11] ]};
     df_timestamp := None |}.

Definition sample_pm25 : Sample :=
  {| sample_values := {[ "pm25" := 500 ]}; sample_timestamp := None |}.

(** Stand-ins for the scikit-learn methods, over trivial states; the
    scaler refuses a frame without columns, as the real one does. *)
Definition stub_fit_transform (s : unit) (features : list (list Q))
    : unit * option (list (list Q)) :=
  (s, match features with [] => None | _ :: _ => Some features end).
Definition stub_transform (s : unit) (features : list (list Q))
    : option (list (list Q)) := Some features.
Definition stub_forest_fit (m : unit) (features : list (list Q))
    : unit * bool := (m, true).
Definition stub_score_samples (m : unit) (features : list (list Q))
    : option (list Q) := Some [- (7 # 10)].
Definition stub_forest_predict (m : unit) (features : list (list Q))
    : option (list Z) := Some [(-1)%Z].

End Examples.

(** ** Predicates of the further properties of the scorer *)

Module ScorerPreds.

(** The value stored for a pollutant of the air domain, if any. *)
Definition air_value (m : MetricsBundle) (pollutant : string) : option Q :=
  get_air m !! pollutant ≫= fm_value.

(** A reading that is absent, or present on both sides and not larger on
    the left. *)
Definition value_le (a b : option Q) : Prop :=
  match a, b with
  | None, _ => True
  | Some x, Some y => x <= y
  | Some _, None => False
  end.

(** The same for water quality scores, where a lower score is the higher
    risk. *)
Definition water_risk_le (a b : option Q) : Prop :=
  match a, b with
  | None, _ => True
  | Some x, Some y => y <= x
  | Some _, None => False
  end.

(** [data_quality.get("age_hours", 0)] and
    [data_quality.get("coverage", 1.0)] *)
Definition age_of (dq : DataQuality) : Q := default 0 (age_hours dq).
Definition coverage_of (dq : DataQuality) : Q := default 1 (coverage dq).

End ScorerPreds.

(** ** Predicates of the further properties of the fusion *)

Module FusionPreds.

Import DataFusionService.

(** The value a measurement contributes to a parameter, if any. *)
Definition reading_of (param : string) (meas : Measurement) : option Q :=
  match parameter meas, meas_value meas with
  | Some p, Some v => if String.eqb p param then Some v else None
  | _, _ => None
  end.

(** The ground readings of a parameter, in the order of the measurements. *)
Definition ground_values (param : string) (ms : list Measurement) : list Q :=
  omap (reading_of param) ms.

(** The column density a band contributes: present and not zero. *)
Definition satellite_value (band : option SatelliteBand) : option Q :=
  b ← band; mol ← band_value b; if Py.truthy mol then Some mol else None.

(** The conversion of the fusion from mol/m² to μg/m³. *)
Definition to_ug (mol molar_mass : Q) : Q :=
  mol * 1000000 * molar_mass / inject_Z (6022 * 10 ^ 20) * inject_Z (10 ^ 12).

Definition satellite_ug (band : option SatelliteBand) (molar_mass : Q)
    : list Q :=
  match satellite_value band with
  | Some mol => [to_ug mol molar_mass]
  | None => []
  end.

(** The band of the satellite data that belongs to a pollutant, and its
    molar mass. *)
Definition band_for (src : Sources) (pollutant : string)
    : option SatelliteBand :=
  let sentinel_data := default empty_sentinel (sentinel5p src) in
  if decide (pollutant = "no2") then s5p_no2 sentinel_data
  else if decide (pollutant = "so2") then s5p_so2 sentinel_data
  else None.

Definition molar_mass (pollutant : string) : Q :=
  if decide (pollutant = "no2") then 4601 # 100 else 6407 # 100.

(** Arithmetic mean of a list. *)
Definition mean (l : list Q) : Q := Py.sum l / Py.of_nat (length l).

(** An entry of the fused air domain built from value and weight lists. *)
Definition fused_entry (values ws : list Q) (threshold : Q) (label : string)
    : option FusedMetric :=
  match values with
  | [] => None
  | _ :: _ =>
      Some {| fm_value := Some (np_average values ws); fm_unit := "μg/m³";
              fm_threshold := Some threshold; fm_source := label |}
  end.

(** The three provenance labels. *)
Definition labels : list string :=
  ["OpenAQ"; "Fused (OpenAQ + Sentinel-5P)"; "Sentinel-5P"].

(** What every entry of a fused air domain looks like. *)
Definition well_formed_entry (pollutant : string) (e : FusedMetric) : Prop :=
  pollutant ∈ ["pm25"; "no2"; "so2"] ∧
  is_Some (fm_value e) ∧
  fm_unit e = "μg/m³" ∧
  fm_threshold e = RiskScorer.WHO_THRESHOLDS !! (pollutant +:+ "_24h") ∧
  fm_source e ∈ labels ∧
  (pollutant = "pm25" → fm_source e = "OpenAQ").


Definition sources_with (ms : list Measurement)
    (sentinel_data : option Sentinel5PData) : Sources :=
  {| openaq := Some {| measurements := Some ms |};
     sentinel5p := sentinel_data |}.

End FusionPreds.

(** ** Predicates of the further properties of the anomaly detector *)

Module DetectorPreds.

Import AnomalyDetector.

(** The columns that [_extract_features] looks for. *)
Definition feature_columns : list string :=
  ["pm25"; "pm10"; "no2"; "so2"; "o3"].

(** A sample with none of these columns and no timestamp. *)
Definition no_features (x : Sample) : Prop :=
  (∀ col, col ∈ feature_columns → sample_values x !! col = None) ∧
  sample_timestamp x = None.

(** The history of a [fit] that returned, and the history of the most
    recent such [fit] among calls and what they gave, if any. *)
Definition returned_fit (co : call * output) : option DataFrame :=
  match co with
  | (Fit historical_data, Done) => Some historical_data
  | _ => None
  end.

Definition last_returned_fit (calls : list call) (outs : list output)
    : option DataFrame :=
  last (omap returned_fit (zip calls outs)).

End DetectorPreds.

(** ** The routes: [api/routes/location.py], [api/routes/analysis.py]

    The raw data that the routes pass around is the dict built by
    [fetch_all_sources].  Of a source dict the model keeps the keys that some
    function of the repository reads. *)

(** One entry of [raw_data["sources"]]. *)
Record SourceDict := {
  sd_source : option string;
  sd_error : option string;
  sd_timestamp : option string;
  sd_measurements : option (list Measurement);
  sd_no2 : option SatelliteBand;
  sd_so2 : option SatelliteBand
}.

(** [{"timestamp": .., "location": {"lat": .., "lng": ..}, "sources": ..}] *)
Record RawReport := {
  rr_timestamp : option string;
  rr_location : option (Q * Q);
  rr_sources : option (gmap string SourceDict)
}.

(** The estimate that [PlumeTracer.trace_plume] returns under
    "source_estimate". *)
Record SourceEstimate := {
  est_lat : Q;
  est_lng : Q;
  confidence_radius_km : Q;
  probability : Q
}.

(** One element of the list returned by [_detect_plumes]; the dict of a
    missing detection has the key "detected" only. *)
Record Plume := {
  plume_detected : bool;
  plume_pollutant : option string;
  plume_intensity : option Q;
  plume_source_estimate : option SourceEstimate
}.

(** The dict returned by [_extract_sources]. *)
Record SourceInfo := {
  info_satellite : option string;
  info_ground_sensors : list string;
  info_weather : option string
}.

(** The dict returned by [_generate_human_readable]; the recommendations
    are the list of a Python set, whose order is not specified, and are kept
    as a set. *)
Record HumanReadable := {
  hr_summary : string;
  hr_reasons : list string;
  hr_recommendations : gset string
}.

(** One entry of [technical["air_quality"]]. *)
Record TechnicalMetric := {
  raw_value : Q;
  tech_unit : string;
  threshold_value : Q;
  exceedance_factor : option Q;
  data_source : string;
  measurement_timestamp : string;
  spatial_coverage : string;
  spatial_resolution_km : option Q
}.

Module PyStr.

(** [sub in s] on strings *)
Definition contains (sub s : string) : bool :=
  match String.index 0 sub s with
  | Some _ => true
  | None => false
  end.

(** [d.setdefault(k, v)] on a dict *)
Definition setdefault {A} (k : string) (v : A) (d : gmap string A)
    : gmap string A :=
  match d !! k with
  | Some _ => d
  | None => <[k := v]> d
  end.

End PyStr.

Module Routes.

(** The dict that [fuse_data] sees: the keys it reads of the sources
    "openaq" and "sentinel5p". *)
Definition fusion_input (raw_data : RawReport) : RawData :=
  {| sources :=
       (λ srcs,
          {| openaq :=
               (λ d, {| measurements := sd_measurements d |})
               <$> srcs !! "openaq";
             sentinel5p :=
               (λ d, {| s5p_no2 := sd_no2 d; s5p_so2 := sd_so2 d |})
               <$> srcs !! "sentinel5p" |})
       <$> rr_sources raw_data |}.

Definition get_sources (raw_data : RawReport) : gmap string SourceDict :=
  default ∅ (rr_sources raw_data).

Section Clock.

(** [datetime.utcnow().isoformat() + "Z"], and the age in hours that the
    [try] block of [_assess_data_quality] computes from a timestamp string:
    [None] when parsing it raises. *)
Variable utcnow_iso : string.
Variable hours_since : string → option Q.

(** [_assess_data_quality], the same in both route files. *)
Definition _assess_data_quality (raw_data : RawReport) : DataQuality :=
  let sources := get_sources raw_data in
  (* Calculate coverage (how many sources provided data) *)
  let total_sources := size sources in
  let valid_sources :=
    length (filter (λ s, sd_error s = None) (map_to_list sources).*2) in
  let coverage :=
    if (0 <? total_sources)%nat
    then Py.of_nat valid_sources / Py.of_nat total_sources
    else 0 in
  (* Calculate data age (hours) *)
  let timestamp_str := default utcnow_iso (rr_timestamp raw_data) in
  let age_hours := default 0 (hours_since timestamp_str) in
  {| coverage := Some coverage;
     age_hours := Some age_hours;
     valid_sources := Some valid_sources;
     total_sources := Some total_sources |}.

Definition _extract_timestamps (raw_data : RawReport) : gmap string string :=
  let sources := get_sources raw_data in
  let timestamps : gmap string string := ∅ in
  (* Air quality timestamp *)
  let timestamps :=
    match sources !! "openaq" ≫= sd_timestamp with
    | Some ts => <["air_quality" := ts]> timestamps
    | None =>
        match sources !! "sentinel5p" ≫= sd_timestamp with
        | Some ts => <["air_quality" := ts]> timestamps
        | None => timestamps
        end
    end in
  let now := utcnow_iso in
  let timestamps := PyStr.setdefault "air_quality" now timestamps in
  let timestamps := PyStr.setdefault "water_quality" now timestamps in
  let timestamps := PyStr.setdefault "land" now timestamps in
  let timestamps := PyStr.setdefault "meteorology" now timestamps in
  timestamps.

End Clock.

Definition no_plume : Plume :=
  {| plume_detected := false; plume_pollutant := None;
     plume_intensity := None; plume_source_estimate := None |}.

Definition _detect_plumes (metrics : MetricsBundle) : list Plume :=
  let plumes := [] in
  let air := get_air metrics in
  let plumes :=
    match air !! "so2" ≫= fm_value with
    | Some value =>
        if Py.truthy value
        then
          if Py.gt value 50
          then plumes ++ [{| plume_detected := true;
                             plume_pollutant := Some "SO2";
                             plume_intensity := Some value;
                             plume_source_estimate := None |}]
          else plumes
        else plumes
    | None => plumes
    end in
  match plumes with
  | [] => [no_plume]
  | _ :: _ => plumes
  end.

Definition _extract_sources (raw_data : RawReport) : SourceInfo :=
  let sources := get_sources raw_data in
  let source_list := [] in
  let source_list :=
    if decide (is_Some (sources !! "sentinel5p"))
    then source_list ++ ["Sentinel-5P TROPOMI"] else source_list in
  let source_list :=
    match sources !! "openaq" ≫= sd_measurements with
    | Some (_ :: _) => source_list ++ ["OpenAQ"]
    | _ => source_list
    end in
  let source_list :=
    if decide (is_Some (sources !! "cpcb"))
    then source_list ++ ["CPCB (India)"] else source_list in
  {| info_satellite :=
       if decide (is_Some (sources !! "sentinel5p"))
       then Some "Sentinel-5P TROPOMI" else None;
     info_ground_sensors := source_list;
     info_weather :=
       if decide (is_Some (sources !! "weather")) then Some "ERA5" else None |}.

Section Formatting.

(** Python's formatting of a float: [f"{x:.1f}"] and [f"{x}"]. *)
Variable format_1f : Q → string.
Variable format_float : Q → string.

Definition filler_reason : string :=
  "Data analysis completed, but no major exceedances detected.".

Definition default_recommendation : string :=
  "Continue monitoring environmental conditions".

(** One of the three air blocks of [_generate_human_readable]: the reason
    it appends, if any.  [None] on the outside is the ZeroDivisionError of
    [value / threshold]. *)
Definition air_reason (air : gmap string FusedMetric) (pollutant : string)
    (default_threshold : Q) (name limit : string)
    : option (option string) :=
  match air !! pollutant ≫= fm_value with
  | Some value =>
      if Py.truthy value
      then
        let threshold :=
          default default_threshold
            (air !! pollutant ≫= fm_threshold) in
        if Py.gt value threshold
        then
          if Qeq_bool threshold 0 then None
          else
            let exceedance := value / threshold in
            Some (Some (name +:+ " levels (" +:+ format_1f value
                        +:+ " μg/m³) exceed WHO " +:+ limit +:+ " ("
                        +:+ format_float threshold +:+ " μg/m³) by "
                        +:+ format_1f exceedance +:+ "×"))
        else Some None
      else Some None
  | None => Some None
  end.

Definition _generate_human_readable (metrics : MetricsBundle)
    (risk_result : RiskResult) : option HumanReadable :=
  let reasons := [] in
  let recommendations : list string := [] in
  let verdict := verdict risk_result in
  (* Air quality reasons *)
  let air := get_air metrics in
  pm25 ← air_reason air "pm25" 45 "PM2.5" "limit";
  let '(reasons, recommendations) :=
    match pm25 with
    | Some reason =>
        (reasons ++ [reason],
         recommendations
         ++ ["Avoid outdoor activities, especially during peak hours"]
         ++ ["Use air purifiers indoors"])
    | None => (reasons, recommendations)
    end in
  no2 ← air_reason air "no2" 200 "NO₂" "guideline";
  let reasons := reasons ++ option_list no2 in
  so2 ← air_reason air "so2" 40 "SO₂" "limit";
  let reasons := reasons ++ option_list so2 in
  (* Water quality *)
  let water := get_water metrics in
  let '(reasons, recommendations) :=
    match quality_score water with
    | Some score =>
        if Py.lt score 70
        then (reasons ++ ["Water quality score (" +:+ format_float score
                          +:+ "/100) is below recommended level"],
              recommendations ++ ["Monitor water before consumption"])
        else (reasons, recommendations)
    | None => (reasons, recommendations)
    end in
  (* Summary *)
  let summary :=
    match verdict with
    | UNSAFE => "This location is UNSAFE to inhabit."
    | MODERATE => "This location has MODERATE environmental risks."
    | SAFE => "This location appears SAFE, but continue monitoring."
    end in
  let reasons :=
    match reasons with
    | [] => reasons ++ [filler_reason]
    | _ :: _ => reasons
    end in
  Some {| hr_summary := summary;
          hr_reasons := reasons;
          hr_recommendations :=
            match recommendations with
            | [] => {[ default_recommendation ]}
            | _ :: _ => list_to_set recommendations
            end |}.

End Formatting.

Section Technical.

Variable utcnow_iso : string.

(** The entry of the technical breakdown for one air metric; entries
    without "value" are left out. *)
Definition technical_data (pollutant : string) (data : FusedMetric)
    : option TechnicalMetric :=
  value ← fm_value data;
  Some
    {| raw_value := value;
       tech_unit := fm_unit data;
       threshold_value := default 0 (fm_threshold data);
       exceedance_factor :=
         if Py.gt (default 0 (fm_threshold data)) 0
         then Some (value / default 1 (fm_threshold data))
         else None;
       data_source := fm_source data;
       measurement_timestamp := utcnow_iso;
       spatial_coverage :=
         if PyStr.contains "OpenAQ" (fm_source data) then "point" else "grid";
       spatial_resolution_km :=
         if PyStr.contains "Sentinel" (fm_source data)
         then Some (if String.eqb pollutant "no2" then 35 # 10 else 7)
         else None |}.

(** [technical["air_quality"]] of [_generate_technical_breakdown] *)
Definition air_technical (metrics : MetricsBundle)
    : gmap string TechnicalMetric :=
  map_imap technical_data (get_air metrics).

End Technical.

End Routes.

(** ** The ingestion service: [services/data_ingestion.py] *)

Module DataIngestionService.

(** What awaiting the coroutine of a source gives: the dict it returns, or
    the message of the exception it raises. *)
Inductive Outcome :=
| Returned (d : SourceDict)
| Raised (message : string).

(** [WeatherService.get_wind_data]: a placeholder without wind vectors;
    the argument is the timestamp it reports. *)
Definition get_wind_data (timestamp_iso : string) : SourceDict :=
  {| sd_source := Some "ERA5"; sd_error := None;
     sd_timestamp := Some timestamp_iso; sd_measurements := None;
     sd_no2 := None; sd_so2 := None |}.

(** [CPCBService.get_station_data]: a placeholder. *)
Definition get_station_data : SourceDict :=
  {| sd_source := Some "CPCB"; sd_error := None; sd_timestamp := None;
     sd_measurements := None; sd_no2 := None; sd_so2 := None |}.

(** [{"error": str(e), "source": source_name}] *)
Definition error_dict (source_name message : string) : SourceDict :=
  {| sd_source := Some source_name; sd_error := Some message;
     sd_timestamp := None; sd_measurements := None;
     sd_no2 := None; sd_so2 := None |}.

(** The loop [for source_name, coro in tasks] with its [try]. *)
Fixpoint collect (tasks : list (string * Outcome))
    (results : gmap string SourceDict) : gmap string SourceDict :=
  match tasks with
  | [] => results
  | (source_name, coro) :: rest =>
      collect rest
        (<[source_name :=
             match coro with
             | Returned d => d
             | Raised message => error_dict source_name message
             end]> results)
  end.

(** [fetch_all_sources]; the three coroutines are given by what awaiting
    them yields. *)
Definition fetch_all_sources
    (openaq_call sentinel5p_call weather_call : Outcome)
    (utcnow_iso : string) (lat lng : Q)
    (include_satellite include_ground include_weather : bool) : RawReport :=
  let tasks := [] in
  let tasks :=
    if include_ground then tasks ++ [("openaq", openaq_call)] else tasks in
  let tasks :=
    if include_satellite
    then tasks ++ [("sentinel5p", sentinel5p_call)] else tasks in
  let tasks :=
    if include_weather then tasks ++ [("weather", weather_call)] else tasks in
  let results := collect tasks ∅ in
  {| rr_timestamp := Some utcnow_iso;
     rr_location := Some (lat, lng);
     rr_sources := Some results |}.

End DataIngestionService.

(** ** [PlumeTracer] of [services/ml_pipeline.py] *)

Module PlumeTracer.

(** [{"wind_u": .., "wind_v": ..}], both nullable *)
Record WindData := {
  wind_u : option Q;
  wind_v : option Q
}.

Record Trace := {
  source_estimate : SourceEstimate;
  trajectory_model : string;
  trace_note : string;
  hours_traced : Z
}.

Definition trace_plume (detection_lat detection_lng : Q)
    (pollutant : string) (intensity : Q) (wind_data : WindData)
    (hours_back : Z) : Trace :=
  {| source_estimate :=
       {| est_lat := detection_lat; est_lng := detection_lng;
          confidence_radius_km := 10; probability := 1 # 2 |};
     trajectory_model := "Lagrangian backward (simplified)";
     trace_note := "Full plume tracing requires ERA5 wind data integration";
     hours_traced := hours_back |}.

End PlumeTracer.

(** ** The forecast route: [api/routes/forecast.py] *)

Module Forecast.

(** [range(start, stop, step)] for a positive step, as the loop it is. *)
Fixpoint range_loop (fuel : nat) (i stop step : Z) : list Z :=
  match fuel with
  | O => []
  | S fuel' =>
      if (i <? stop)%Z then i :: range_loop fuel' (i + step) stop step
      else []
  end.

Definition range (start stop step : Z) : list Z :=
  range_loop (Z.to_nat (stop - start)) start stop step.

Record Interval := {
  mean : Q;
  lower : Q;
  upper : Q;
  interval_confidence : Q
}.

(** One prediction; the timestamp is kept as its distance in hours from
    the time of the request. *)
Record Prediction := {
  hours_ahead : Z;
  pm25 : Interval;
  no2 : Interval
}.

Definition prediction_at (i : Z) : Prediction :=
  {| hours_ahead := i;
     pm25 := {| mean := 50 + inject_Z i * (1 # 10);
                lower := 45 + inject_Z i * (1 # 10);
                upper := 55 + inject_Z i * (1 # 10);
                interval_confidence := 85 # 100 |};
     no2 := {| mean := 30 + inject_Z i * (5 # 100);
               lower := 25 + inject_Z i * (5 # 100);
               upper := 35 + inject_Z i * (5 # 100);
               interval_confidence := 82 # 100 |} |}.

(** The predictions of [get_forecast]. *)
Definition predictions (horizon_hours : Z) : list Prediction :=
  prediction_at <$> range 0 horizon_hours 6.

End Forecast.

(** ** The two assessments, from raw data to response *)

Module Pipeline.

Import Routes.

Section Clock.

Variable utcnow_iso : string.
Variable hours_since : string → option Q.

(** Steps 3 and 4 of [get_location_assessment], the same in
    [get_detailed_analysis]: fusion, then scoring without history. *)
Definition fused_metrics (raw_data : RawReport) (lat lng : Q)
    : MetricsBundle :=
  DataFusionService.fuse_data (fusion_input raw_data) lat lng.

Definition risk_result (raw_data : RawReport) (lat lng : Q) : RiskResult :=
  RiskScorer.calculate_risk_score (fused_metrics raw_data lat lng) None
    (Some (_assess_data_quality utcnow_iso hours_since raw_data)).

(** Step 6: the plumes of the response. *)
Definition plumes (raw_data : RawReport) (lat lng : Q) : list Plume :=
  _detect_plumes (fused_metrics raw_data lat lng).

End Clock.

End Pipeline.

(** ** Predicates of the properties of the routes *)

Module RoutePreds.

Import Routes.

(** The plume that [_detect_plumes] reports for an SO2 value. *)
Definition so2_plume (value : Q) : Plume :=
  {| plume_detected := true; plume_pollutant := Some "SO2";
     plume_intensity := Some value; plume_source_estimate := None |}.

(** No entry of the sources carries an "error"; every entry carries one. *)
Definition all_valid (raw_data : RawReport) : Prop :=
  map_Forall (λ _ s, sd_error s = None) (get_sources raw_data).

Definition all_failed (raw_data : RawReport) : Prop :=
  map_Forall (λ _ s, sd_error s ≠ None) (get_sources raw_data).

(** The entry that [fetch_all_sources] stores for a source, and whether it
    is free of an "error". *)
Definition entry_of (source_name : string)
    (o : DataIngestionService.Outcome) : SourceDict :=
  match o with
  | DataIngestionService.Returned d => d
  | DataIngestionService.Raised message =>
      DataIngestionService.error_dict source_name message
  end.

Definition delivered (o : DataIngestionService.Outcome) : bool :=
  match o with
  | DataIngestionService.Returned d => bool_decide (sd_error d = None)
  | DataIngestionService.Raised _ => false
  end.

(** Whether the awaited call brought at least one measurement. *)
Definition has_measurements (o : DataIngestionService.Outcome) : bool :=
  match sd_measurements (entry_of "openaq" o) with
  | Some (_ :: _) => true
  | _ => false
  end.

(** Some pollutant that the explanation looks at has a value above the
    threshold of its own entry (or above the default where the entry
    carries none); the water quality score is below 70. *)
Definition exceeds_own_threshold (m : MetricsBundle) : Prop :=
  ∃ p dflt v, (p, dflt) ∈ [("pm25", 45); ("no2", 200); ("so2", 40)]
              ∧ get_air m !! p ≫= fm_value = Some v
              ∧ default dflt (get_air m !! p ≫= fm_threshold) < v.


Definition poor_water (m : MetricsBundle) : Prop :=
  ∃ score, quality_score (get_water m) = Some score ∧ score < 70.

(** What an entry of the technical breakdown says about the entry of the
    air domain that it was built from. *)
Definition reported_from (m : MetricsBundle) (pollutant : string)
    (t : TechnicalMetric) : Prop :=
  ∃ e, get_air m !! pollutant = Some e ∧
       fm_value e = Some (raw_value t) ∧
       data_source t = fm_source e ∧
       exceedance_factor t
       = Some (raw_value t / RiskScorer.who (pollutant +:+ "_24h")) ∧
       spatial_coverage t
       = (if decide (fm_source e = "Sentinel-5P") then "grid" else "point") ∧
       spatial_resolution_km t
       = (if decide (fm_source e = "OpenAQ") then None
          else Some (if decide (pollutant = "no2") then 35 # 10 else 7)).

(** The number of flags that are set, and of sources that delivered. *)
Definition count_true (flags : list bool) : nat :=
  length (List.filter id flags).

End RoutePreds.


(** ** Further concrete inputs *)

Module Cases.

(** Two ground readings of NO2 and a Sentinel-5P NO2 column density. *)
Definition ground_and_satellite_no2 : RawData :=
  {| sources :=
       Some {| openaq :=
                 Some {| measurements :=
                           Some [Examples.measurement "no2" 10;
                                 Examples.measurement "no2" 20] |};
               sentinel5p :=
                 Some {| s5p_no2 := Some {| band_value := Some (1 # 10000) |};
                         s5p_so2 := None |} |} |}.

(** SO2 alone, at 60 μg/m³. *)
Definition so2_60 : MetricsBundle :=
  Examples.air_only {[ "so2" := Examples.metric 60 40 "OpenAQ" ]}.

(** A history frame of ten rows, and the detector fitted on it. *)
Definition ten_rows : DataFrame :=
  {| df_len := 10;
     df_columns := {[ "pm25" := [10; 12; 11; 9; 14; 13; 10; 12; 11; 15] ]};
     df_timestamp := None |}.

Definition fitted_detector : AnomalyDetector.t unit unit :=
  (AnomalyDetector.fit unit unit Examples.stub_fit_transform
     Examples.stub_forest_fit (AnomalyDetector.init unit unit tt tt)
     ten_rows).1.

(** Ten rows without any of the feature columns. *)
Definition ten_rows_without_columns : DataFrame :=
  {| df_len := 10; df_columns := ∅; df_timestamp := None |}.

(** Data three days old from sources of which half answered. *)
Definition half_covered : DataQuality :=
  {| coverage := Some (1 # 2); age_hours := Some 72;
     valid_sources := Some 1%nat; total_sources := Some 2%nat |}.

(** A clock, and raw data whose two sources both failed. *)
Definition noon : string := "2024-01-01T12:00:00Z".

Definition no_age (timestamp_str : string) : option Q := Some 0.

Definition all_down : RawReport :=
  {| rr_timestamp := Some noon;
     rr_location := Some (0, 0);
     rr_sources :=
       Some (<["openaq" :=
                 DataIngestionService.error_dict "openaq" "timeout"]>
             {[ "weather" :=
                  DataIngestionService.error_dict "weather" "timeout" ]}) |}.

End Cases.

(** ** Facts about the numeric built-ins *)

Module PyFacts.

Lemma Qle_bool_false (a b : Q) : Qle_bool a b = false → b < a.
Proof.
  intros E. destruct (Qlt_le_dec b a) as [H | H]; [exact H |].
  apply Qle_bool_iff in H. congruence.
Qed.

(** Division by a literal becomes multiplication by its inverse, written
    as a literal, which linear arithmetic understands. *)
Ltac no_div :=
  unfold Qdiv in *;
  repeat match goal with
  | |- context [Qinv (Qmake ?n ?d)] =>
      let v := eval compute in (Qinv (Qmake n d)) in
      change (Qinv (Qmake n d)) with v
  | H : context [Qinv (Qmake ?n ?d)] |- _ =>
      let v := eval compute in (Qinv (Qmake n d)) in
      change (Qinv (Qmake n d)) with v in H
  end.

Ltac qlra := no_div; lra.

(** Turns every comparison of the goal into a hypothesis on the order. *)
Ltac py_cases :=
  unfold Py.max, Py.min, Py.gt, Py.lt, Py.ge in *;
  repeat match goal with
  | |- context [Qle_bool ?a ?b] =>
      lazymatch a with context [Qle_bool _ _] => fail | _ => idtac end;
      lazymatch b with context [Qle_bool _ _] => fail | _ => idtac end;
      let E := fresh "E" in
      destruct (Qle_bool a b) eqn:E;
      [apply Qle_bool_iff in E | apply Qle_bool_false in E];
      simpl negb; cbv iota
  end.

Lemma gt_true (a b : Q) : Py.gt a b = true ↔ b < a.
Proof. py_cases; split; intros; try easy; lra. Qed.

Lemma min_Qmin (a b : Q) : Py.min a b == Qmin a b.
Proof.
  py_cases.
  - rewrite Q.min_l; [reflexivity | exact E].
  - rewrite Q.min_r; [reflexivity | lra].
Qed.

Lemma clamp_bounds (x : Q) : 0 <= Py.max 0 (Py.min 100 x) <= 100.
Proof. py_cases; lra. Qed.

(** Rounding to the nearest integer never crosses an integer. *)
Lemma round_half_even_ge (n : Z) (x : Q) :
  inject_Z n <= x → (n <= Py.round_half_even x)%Z.
Proof.
  intros H. assert (n <= Qfloor x)%Z as Hf.
  { rewrite <- (Qfloor_Z n). by apply Qfloor_resp_le. }
  unfold Py.round_half_even.
  destruct (Qcompare _ _); [destruct (Z.even _) | |]; lia.
Qed.

Lemma round_half_even_le (n : Z) (x : Q) :
  x <= inject_Z n → (Py.round_half_even x <= n)%Z.
Proof.
  intros H. assert (Qfloor x <= n)%Z as Hf.
  { rewrite <- (Qfloor_Z n). by apply Qfloor_resp_le. }
  destruct (Z.eq_dec (Qfloor x) n) as [Heq | Hne].
  - assert (x == inject_Z n) as Hx.
    { apply Qle_antisym; [exact H |]. rewrite <- Heq. apply Qfloor_le. }
    unfold Py.round_half_even.
    destruct (Qcompare _ _) eqn:C.
    + apply Qeq_alt in C. rewrite Heq in C. lra.
    + lia.
    + apply Qgt_alt in C. rewrite Heq in C. lra.
  - unfold Py.round_half_even.
    destruct (Qcompare _ _); [destruct (Z.even _) | |]; lia.
Qed.

(** [round(x, 1)] never crosses a multiple of one tenth. *)
Lemma round1_ge (k : Z) (x : Q) :
  inject_Z k / 10 <= x → inject_Z k / 10 <= Py.round1 x.
Proof.
  intros H. unfold Py.round1.
  assert (k <= Py.round_half_even (x * 10))%Z as Hk.
  { apply round_half_even_ge. qlra. }
  rewrite Zle_Qle in Hk.
  apply Qmult_le_compat_r with (z := / 10) in Hk; [exact Hk | qlra].
Qed.

Lemma round1_le (k : Z) (x : Q) :
  x <= inject_Z k / 10 → Py.round1 x <= inject_Z k / 10.
Proof.
  intros H. unfold Py.round1.
  assert (Py.round_half_even (x * 10) <= k)%Z as Hk.
  { apply round_half_even_le. qlra. }
  rewrite Zle_Qle in Hk.
  apply Qmult_le_compat_r with (z := / 10) in Hk; [exact Hk | qlra].
Qed.

Lemma round1_bounds (x : Q) : 0 <= x <= 100 → 0 <= Py.round1 x <= 100.
Proof.
  intros [H0 H100]. split.
  - pose proof (round1_ge 0 x) as H. unfold inject_Z in H. qlra.
  - pose proof (round1_le 1000 x) as H. unfold inject_Z in H. qlra.
Qed.

End PyFacts.

(** ** The risk scorer *)

Module RiskScorerFacts.

Import RiskScorer PyFacts Examples.

Lemma composite_score_bounds m h dq : 0 <= composite_score m h dq <= 100.
Proof. unfold composite_score. apply clamp_bounds. Qed.

Lemma confidence_bounds dq m : 0 <= _calculate_confidence dq m <= 100.
Proof. unfold _calculate_confidence. apply clamp_bounds. Qed.

(** C1.  Whatever the metrics bundle, the historical trend and the
    data-quality record (also when it is omitted), the result of
    [calculate_risk_score] has its risk score and its confidence between
    0 and 100. *)
Theorem risk_score_and_confidence_in_range
    (m : MetricsBundle) (h : option (list MetricsBundle))
    (dq : option DataQuality) :
  0 <= risk_score (calculate_risk_score m h dq) <= 100 ∧
  0 <= confidence (calculate_risk_score m h dq) <= 100.
Proof.
  unfold calculate_risk_score. cbn [risk_score confidence]. split.
  - apply round1_bounds, composite_score_bounds.
  - apply round1_bounds, confidence_bounds.
Qed.

(** *** Verdict *)

Lemma verdict_of_spec (s : Q) : Spec.verdict_for s (verdict_of s).
Proof. unfold verdict_of, Spec.verdict_for. py_cases; lra. Qed.

Lemma verdict_for_unique (s : Q) (v : Verdict) :
  Spec.verdict_for s v → v = verdict_of s.
Proof.
  unfold verdict_of, Spec.verdict_for.
  py_cases; destruct v; intros; try easy; lra.
Qed.

(** C2, as the code has it.  The verdict is the step function of the
    clamped composite score before that score is rounded: UNSAFE from 67,
    MODERATE from 34 and below 67, SAFE below 34 (66.9 is MODERATE, 67.0
    UNSAFE, 33.9 SAFE, 34.0 MODERATE).  The returned risk score is this
    score rounded to one decimal, so a returned score above 67 goes with
    UNSAFE, one strictly between 34 and 67 with MODERATE and one below 34
    with SAFE. *)
Theorem verdict_steps_on_unrounded_score
    (m : MetricsBundle) (h : option (list MetricsBundle))
    (dq : option DataQuality) :
  risk_score (calculate_risk_score m h dq)
    = Py.round1 (composite_score m h (default default_data_quality dq)) ∧
  (∀ v, verdict (calculate_risk_score m h dq) = v ↔
        Spec.verdict_for
          (composite_score m h (default default_data_quality dq)) v) ∧
  (67 < risk_score (calculate_risk_score m h dq) →
     verdict (calculate_risk_score m h dq) = UNSAFE) ∧
  (34 < risk_score (calculate_risk_score m h dq) < 67 →
     verdict (calculate_risk_score m h dq) = MODERATE) ∧
  (risk_score (calculate_risk_score m h dq) < 34 →
     verdict (calculate_risk_score m h dq) = SAFE) ∧
  verdict_of (669 # 10) = MODERATE ∧ verdict_of 67 = UNSAFE ∧
  verdict_of (339 # 10) = SAFE ∧ verdict_of 34 = MODERATE.
Proof.
  unfold calculate_risk_score. cbn [risk_score verdict].
  set (s := composite_score m h (default default_data_quality dq)).
  pose proof (verdict_of_spec s) as Hs.
  pose proof (round1_le 670 s) as Hle67.
  pose proof (round1_ge 670 s) as Hge67.
  pose proof (round1_le 340 s) as Hle34.
  pose proof (round1_ge 340 s) as Hge34.
  unfold inject_Z in *.
  split; [reflexivity |]. split.
  { intros v. split.
    - intros <-. exact Hs.
    - intros Hv. symmetry. by apply verdict_for_unique. }
  repeat split; try reflexivity.
  all: intros H; destruct (verdict_of s); simpl in Hs;
    try reflexivity; exfalso; qlra.
Qed.

(** C2 fails on the returned score: PM2.5 = 77.94 μg/m³ alone, without
    history and data quality, gives the composite 66.96, hence the verdict
    MODERATE next to the returned risk score 67.0. *)
Lemma rounded_score_67_with_moderate_verdict :
  risk_score (calculate_risk_score (only_pm25 (7794 # 100)) None None) == 67 ∧
  verdict (calculate_risk_score (only_pm25 (7794 # 100)) None None)
    = MODERATE ∧
  ¬ (verdict (calculate_risk_score (only_pm25 (7794 # 100)) None None)
       = UNSAFE
     ↔ 67 <= risk_score
               (calculate_risk_score (only_pm25 (7794 # 100)) None None)).
Proof.
  assert (risk_score
            (calculate_risk_score (only_pm25 (7794 # 100)) None None) == 67)
    as E by (vm_compute; reflexivity).
  assert (verdict (calculate_risk_score (only_pm25 (7794 # 100)) None None)
          = MODERATE) as V by (vm_compute; reflexivity).
  split; [exact E |]. split; [exact V |].
  intros [_ H]. rewrite V in H. discriminate H. rewrite E. lra.
Qed.

(** *** Exposure *)

(** Two numbers with the same upper bounds are equal. *)
Lemma Qeq_upper_bounds (x y : Q) : (∀ u, x <= u ↔ y <= u) → x == y.
Proof. intros H. apply Qle_antisym; apply H, Qle_refl. Qed.

(** [foldr Qmax a l] is the least upper bound of [a] and of [l]. *)
Lemma foldr_Qmax_le_iff (a u : Q) (l : list Q) :
  foldr Qmax a l <= u ↔ a <= u ∧ Forall (λ x, x <= u) l.
Proof.
  induction l as [| x l IH]; simpl.
  - split; [intros H; split; [exact H | constructor] | intros [H _]; exact H].
  - rewrite Q.max_lub_iff, IH, Forall_cons. tauto.
Qed.

Lemma max_le_iff (a b u : Q) : Py.max a b <= u ↔ a <= u ∧ b <= u.
Proof. py_cases; split; intros; try split; lra. Qed.

Lemma exceedance_block_le_iff (m : MetricsBundle) (p key : string)
    (t acc u : Q) :
  who key = t → 0 < t →
  exceedance_block (get_air m) p key acc <= u
  ↔ acc <= u ∧ Forall (λ x, x <= u) (Spec.scored_ratio m p t).
Proof.
  intros <- Hpos. unfold exceedance_block, Spec.scored_ratio.
  destruct (get_air m !! p) as [e |]; simpl.
  2: { rewrite Forall_nil. tauto. }
  destruct (fm_value e) as [v |]; simpl.
  2: { rewrite Forall_nil. tauto. }
  apply gt_true in Hpos. rewrite Hpos, max_le_iff, Forall_singleton. tauto.
Qed.

Lemma water_le_iff (m : MetricsBundle) (acc u : Q) :
  match quality_score (get_water m) with
  | Some score => Py.max acc ((100 - score) / 100)
  | None => acc
  end <= u
  ↔ acc <= u ∧ Forall (λ x, x <= u) (Spec.water_ratio m).
Proof.
  unfold Spec.water_ratio. destruct (quality_score (get_water m)).
  - rewrite max_le_iff, Forall_singleton. tauto.
  - rewrite Forall_nil. tauto.
Qed.

Lemma exposure_max_formula (m : MetricsBundle) :
  _calculate_exposure_score m
  == Qmin 100 (Spec.max_ratio (0 :: Spec.scored_ratios m) * 50).
Proof.
  unfold _calculate_exposure_score.
  rewrite min_Qmin.
  apply Q.min_compat; [reflexivity |].
  apply Qmult_comp; [| reflexivity].
  apply Qeq_upper_bounds. intros u.
  unfold Spec.max_ratio, Spec.scored_ratios.
  rewrite water_le_iff.
  rewrite (exceedance_block_le_iff m "so2" "so2_24h" 40) by reflexivity.
  rewrite (exceedance_block_le_iff m "no2" "no2_24h" 200) by reflexivity.
  rewrite (exceedance_block_le_iff m "pm25" "pm25_24h" 45) by reflexivity.
  rewrite foldr_Qmax_le_iff, !Forall_app. tauto.
Qed.

Lemma exposure_of_single_pm25 (m : MetricsBundle) (v : Q) :
  get_air m !! "pm25" ≫= fm_value = Some v →
  get_air m !! "no2" ≫= fm_value = None →
  get_air m !! "so2" ≫= fm_value = None →
  quality_score (get_water m) = None →
  _calculate_exposure_score m == Qmin 100 (Qmax 0 (v / 45) * 50).
Proof.
  intros Hpm25 Hno2 Hso2 Hwater.
  rewrite exposure_max_formula.
  unfold Spec.scored_ratios, Spec.scored_ratio, Spec.water_ratio.
  rewrite Hpm25, Hno2, Hso2, Hwater. simpl.
  rewrite Q.max_comm. reflexivity.
Qed.

(** C4, as the code has it.  The exposure score is min(100, 50 × M), M
    being the largest of 0 and the ratios of the metrics that are present
    among: PM2.5, NO2 and SO2 of the air domain, each as value over its
    WHO 24h guideline (45, 200, 40), and the water quality score as
    (100 − score)/100.  PM2.5 = 90 with no NO2, SO2 or water quality score
    present gives 100. *)
Theorem exposure_is_capped_max_of_scored_ratios (m : MetricsBundle) :
  _calculate_exposure_score m
    == Qmin 100 (Spec.max_ratio (0 :: Spec.scored_ratios m) * 50) ∧
  (get_air m !! "pm25" ≫= fm_value = Some 90 →
   get_air m !! "no2" ≫= fm_value = None →
   get_air m !! "so2" ≫= fm_value = None →
   quality_score (get_water m) = None →
   _calculate_exposure_score m == 100) ∧
  _calculate_exposure_score (only_pm25 90) == 100.
Proof.
  split; [apply exposure_max_formula |].
  split; [| vm_compute; reflexivity].
  intros Hpm25 Hno2 Hso2 Hwater.
  rewrite (exposure_of_single_pm25 m 90) by assumption.
  vm_compute. reflexivity.
Qed.

(** C4 fails for a pollutant outside PM2.5, NO2 and SO2: PM10 = 90 μg/m³
    alone is twice its WHO 24h guideline, so the maximum ratio over the
    present metrics is 2 and the stated score 100; the code returns 0. *)
Lemma pm10_alone_is_not_scored :
  _calculate_exposure_score only_pm10 == 0 ∧
  Spec.exposure_score only_pm10 == 100 ∧
  ¬ (_calculate_exposure_score only_pm10 == Spec.exposure_score only_pm10).
Proof.
  assert (_calculate_exposure_score only_pm10 == 0) as E
    by (vm_compute; reflexivity).
  assert (Spec.exposure_score only_pm10 == 100) as S
    by (vm_compute; reflexivity).
  split; [exact E |]. split; [exact S |].
  rewrite E, S. discriminate.
Qed.

(** The running maximum starts at 0: a water quality score above 100 has a
    negative ratio and scores 0. *)
Lemma quality_above_100_scores_zero :
  _calculate_exposure_score (only_water 150) == 0.
Proof. vm_compute. reflexivity. Qed.

(** *** Duration *)

Lemma day_exceeds_Exists (items : list (string * FusedMetric)) :
  day_exceeds items = true
  ↔ Exists (λ item, Spec.exceeds_who item.1 item.2) items.
Proof.
  induction items as [| [p e] rest IH]; simpl.
  - rewrite Exists_nil. split; [discriminate | tauto].
  - rewrite Exists_cons, <- IH. unfold Spec.exceeds_who. simpl.
    destruct (fm_value e) as [v |]; [| tauto].
    destruct (WHO_THRESHOLDS !! (p +:+ "_24h")) as [t |]; [| tauto].
    destruct (Py.gt v t) eqn:G.
    + apply gt_true in G. tauto.
    + assert (¬ t < v) by (rewrite <- gt_true; congruence). tauto.
Qed.

(** The loop with [break] finds a pollutant above its guideline exactly
    when the day has one, in whatever order the dict is walked. *)
Lemma day_exceeds_high_exposure (day : MetricsBundle) :
  day_exceeds (map_to_list (get_air day)) = true ↔ Spec.high_exposure day.
Proof.
  rewrite day_exceeds_Exists, Exists_exists.
  unfold Spec.high_exposure, map_Exists. split.
  - intros [[p e] [Hin H]]. exists p, e. split; [| exact H].
    by apply elem_of_map_to_list.
  - intros (p & e & Hin & H). exists (p, e). split; [| exact H].
    by apply elem_of_map_to_list.
Qed.

Lemma count_days_filter (days : list MetricsBundle) (k : nat) :
  count_days days k = (k + length (filter Spec.high_exposure days))%nat.
Proof.
  revert k. induction days as [| d days IH]; intros k; simpl.
  - lia.
  - rewrite IH, filter_cons.
    destruct (day_exceeds (map_to_list (get_air d))) eqn:D.
    + apply day_exceeds_high_exposure in D.
      rewrite decide_True by exact D. simpl. lia.
    + rewrite decide_False; [lia |].
      rewrite <- day_exceeds_high_exposure. congruence.
Qed.

Lemma duration_share_formula (h : option (list MetricsBundle)) :
  _calculate_duration_score h == Spec.duration_score h.
Proof.
  unfold _calculate_duration_score, Spec.duration_score.
  destruct h as [trend |]; simpl default; [| reflexivity].
  destruct trend as [| d trend]; [reflexivity |].
  set (l := d :: trend).
  destruct (Nat.ltb_spec (length l) 7) as [Hlt | Hge].
  - rewrite decide_True by exact Hlt. reflexivity.
  - rewrite decide_False by lia.
    unfold Py.slice_last.
    destruct (Nat.min 30 (length l)) as [| n] eqn:Hmin; [lia |].
    rewrite count_days_filter, Nat.add_0_l.
    unfold Qdiv. ring.
Qed.

Lemma filter_length_Forall {A} (P : A → Prop) `{∀ x, Decision (P x)}
    (l : list A) :
  Forall P l → length (filter P l) = length l.
Proof.
  induction 1 as [| x l Hx _ IH]; [reflexivity |].
  rewrite filter_cons, decide_True by exact Hx. simpl. by rewrite IH.
Qed.

Lemma duration_of_short_trend (h : option (list MetricsBundle)) :
  (length (default [] h) < 7)%nat → _calculate_duration_score h = 50.
Proof.
  intros Hlen. unfold _calculate_duration_score.
  destruct h as [[| d trend] |]; try reflexivity.
  apply Nat.ltb_lt in Hlen. simpl default in Hlen. by rewrite Hlen.
Qed.

Lemma duration_of_high_week (trend : list MetricsBundle) :
  length trend = 7%nat → Forall Spec.high_exposure trend →
  _calculate_duration_score (Some trend) == 100.
Proof.
  intros Hlen Hall. rewrite duration_share_formula.
  unfold Spec.duration_score. change (default [] (Some trend)) with trend.
  destruct (decide (length trend < 7)%nat) as [Hlt | _]; [lia |].
  rewrite Hlen. cbn [Nat.min Nat.sub].
  rewrite drop_0, filter_length_Forall by exact Hall. rewrite Hlen.
  vm_compute. reflexivity.
Qed.

(** C5.  A trend of fewer than 7 entries, or none, has duration score
    exactly 50; a longer one has 100 × (number of days, among the most
    recent min(30, length), on which some air pollutant is strictly above
    its WHO 24h guideline) / min(30, length).  Seven days that are all
    above a guideline give 100. *)
Theorem duration_score_is_share_of_high_exposure_days
    (h : option (list MetricsBundle)) :
  _calculate_duration_score h == Spec.duration_score h ∧
  ((length (default [] h) < 7)%nat → _calculate_duration_score h = 50) ∧
  (length (default [] h) = 7%nat →
   Forall Spec.high_exposure (default [] h) →
   _calculate_duration_score h == 100) ∧
  _calculate_duration_score (Some (replicate 6 (only_pm25 90))) == 50 ∧
  _calculate_duration_score (Some (replicate 7 (only_pm25 90))) == 100.
Proof.
  split; [apply duration_share_formula |].
  split; [apply duration_of_short_trend |].
  split; [| split; vm_compute; reflexivity].
  destruct h as [trend |]; [apply duration_of_high_week |].
  discriminate.
Qed.

(** *** Uncertainty and confidence *)

(** C6, as the code has it.  At an age of 72 hours and coverage 1.0 the
    uncertainty penalty is min(20, (72−24)/24×20) = 20, and with at least
    two air metrics the confidence is 100 − min(30, (72−24)/24×30) = 70,
    times the coverage 1.0: 70, also in the returned result. *)
Theorem confidence_at_72_hours_full_coverage
    (m : MetricsBundle) (h : option (list MetricsBundle))
    (valid total : option nat) :
  (2 <= size (get_air m))%nat →
  _calculate_uncertainty_penalty
    {| coverage := Some 1; age_hours := Some 72;
       valid_sources := valid; total_sources := total |} == 20 ∧
  Py.min 20 ((72 - 24) / 24 * 20) == 20 ∧
  Py.min 30 ((72 - 24) / 24 * 30) == 30 ∧
  _calculate_confidence
    {| coverage := Some 1; age_hours := Some 72;
       valid_sources := valid; total_sources := total |} m == 70 ∧
  confidence
    (calculate_risk_score m h
       (Some {| coverage := Some 1; age_hours := Some 72;
                valid_sources := valid; total_sources := total |})) == 70.
Proof.
  intros Hsize. apply Nat.ltb_ge in Hsize.
  unfold calculate_risk_score. cbn [confidence default].
  unfold _calculate_confidence, _calculate_uncertainty_penalty.
  cbn [coverage age_hours default]. rewrite Hsize.
  repeat split; vm_compute; reflexivity.
Qed.

Lemma confidence_at_72_hours_full_coverage_witness :
  (2 <= size (get_air bundle_a))%nat ∧
  _calculate_uncertainty_penalty three_days_old == 20 ∧
  Py.min 20 ((72 - 24) / 24 * 20) == 20 ∧
  Py.min 30 ((72 - 24) / 24 * 30) == 30 ∧
  _calculate_confidence three_days_old bundle_a == 70 ∧
  confidence (calculate_risk_score bundle_a None (Some three_days_old))
    == 70.
Proof.
  split; [vm_compute; lia |].
  apply (confidence_at_72_hours_full_coverage
           bundle_a None (Some 3%nat) (Some 3%nat)).
  vm_compute; lia.
Defined.

(** C6 fails on the confidence: at 72 hours, coverage 1.0 and two air
    metrics it is 70, not 40, because the age deduction is capped at 30. *)
Lemma confidence_at_72_hours_is_not_40 :
  ¬ (_calculate_confidence three_days_old bundle_a == 40) ∧
  ¬ (confidence (calculate_risk_score bundle_a None (Some three_days_old))
     == 40).
Proof. split; vm_compute; discriminate. Qed.

(** *** Exposure of fused bundles *)

Lemma exposure_at_least_water_risk (m : MetricsBundle) (score : Q) :
  quality_score (get_water m) = Some score →
  Py.min 100 ((100 - score) / 100 * 50) <= _calculate_exposure_score m.
Proof.
  intros H. unfold _calculate_exposure_score. rewrite H.
  generalize (exceedance_block (get_air m) "so2" "so2_24h"
     (exceedance_block (get_air m) "no2" "no2_24h"
        (exceedance_block (get_air m) "pm25" "pm25_24h" 0))).
  intros acc. py_cases; qlra.
Qed.

(** C9.  Whatever the raw data, [fuse_data] returns a water quality score
    of 75 and a deforestation risk of 25, and the exposure score of its
    output is at least (100−75)/100 × 50 = 12.5. *)
Theorem fused_water_and_land_are_placeholders
    (raw_data : RawData) (lat lng : Q) :
  quality_score <$> water (DataFusionService.fuse_data raw_data lat lng)
    = Some (Some 75) ∧
  deforestation_risk <$> land (DataFusionService.fuse_data raw_data lat lng)
    = Some (Some 25) ∧
  (125 # 10) <= _calculate_exposure_score
                  (DataFusionService.fuse_data raw_data lat lng).
Proof.
  split; [reflexivity |]. split; [reflexivity |].
  pose proof (exposure_at_least_water_risk
                (DataFusionService.fuse_data raw_data lat lng) 75 eq_refl)
    as H.
  assert (Py.min 100 ((100 - 75) / 100 * 50) == 125 # 10) as E
    by (vm_compute; reflexivity).
  rewrite E in H. exact H.
Qed.

(** C10.  Two bundles with the same air entries for PM2.5, NO2 and SO2
    and the same water quality score have the same exposure score,
    whatever else their air domains hold. *)
Theorem exposure_depends_on_four_inputs_only (m1 m2 : MetricsBundle) :
  get_air m1 !! "pm25" = get_air m2 !! "pm25" →
  get_air m1 !! "no2" = get_air m2 !! "no2" →
  get_air m1 !! "so2" = get_air m2 !! "so2" →
  quality_score (get_water m1) = quality_score (get_water m2) →
  _calculate_exposure_score m1 = _calculate_exposure_score m2.
Proof.
  intros Hpm25 Hno2 Hso2 Hwater.
  unfold _calculate_exposure_score, exceedance_block.
  rewrite Hpm25, Hno2, Hso2, Hwater. reflexivity.
Qed.

Lemma exposure_depends_on_four_inputs_only_witness :
  get_air bundle_a !! "pm10" ≠ get_air bundle_b !! "pm10" ∧
  get_air bundle_a !! "o3" ≠ get_air bundle_b !! "o3" ∧
  _calculate_exposure_score bundle_a = _calculate_exposure_score bundle_b.
Proof.
  split; [vm_compute; discriminate |]. split; [vm_compute; discriminate |].
  apply exposure_depends_on_four_inputs_only; reflexivity.
Defined.

End RiskScorerFacts.

(** ** The fusion service *)

Module DataFusionFacts.

Import DataFusionService PyFacts Examples.

Lemma weight_ground_nonneg : 0 <= weight "ground_sensor".
Proof. vm_compute. discriminate. Qed.

Lemma weight_satellite_nonneg : 0 <= weight "satellite".
Proof. vm_compute. discriminate. Qed.

Lemma sum_nonneg (l : list Q) : Spec.nonneg l → 0 <= Py.sum l.
Proof.
  induction 1 as [| x l Hx _ IH]; simpl; [lra |].
  change (0 <= x + Py.sum l). lra.
Qed.

Lemma zip_with_mult_nonneg (l k : list Q) :
  Spec.nonneg l → Spec.nonneg k → Spec.nonneg (zip_with Qmult l k).
Proof.
  intros Hl. revert k. induction Hl as [| x l Hx _ IH]; intros k Hk.
  - constructor.
  - destruct Hk as [| y k Hy Hk]; simpl; constructor.
    + by apply Qmult_le_0_compat.
    + by apply IH.
Qed.

Lemma np_average_nonneg (values ws : list Q) :
  Spec.nonneg values → Spec.nonneg ws → 0 <= np_average values ws.
Proof.
  intros Hv Hw. unfold np_average, Qdiv.
  apply Qmult_le_0_compat.
  - by apply sum_nonneg, zip_with_mult_nonneg.
  - by apply Qinv_le_0_compat, sum_nonneg.
Qed.

Lemma from_openaq_nonneg (param : string) (ms : list Measurement)
    (values ws : list Q) :
  (∀ meas v, meas ∈ ms → parameter meas = Some param →
             meas_value meas = Some v → 0 <= v) →
  Spec.nonneg values → Spec.nonneg ws →
  Spec.nonneg (from_openaq param ms values ws).1 ∧
  Spec.nonneg (from_openaq param ms values ws).2.
Proof.
  revert values ws.
  induction ms as [| meas ms IH]; intros values ws Hms Hv Hw.
  - by split.
  - assert (∀ meas v, meas ∈ ms → parameter meas = Some param →
                      meas_value meas = Some v → 0 <= v) as Hms'.
    { intros m' v Hin. apply Hms. by right. }
    simpl. destruct (parameter meas) as [p |] eqn:Ep; [| by apply IH].
    destruct (meas_value meas) as [v |] eqn:Ev; [| by apply IH].
    destruct (String.eqb p param) eqn:Epp; [| by apply IH].
    apply String.eqb_eq in Epp. subst p.
    apply IH; [exact Hms' | |].
    + apply Forall_app. split; [exact Hv |].
      apply Forall_singleton.
      apply (Hms meas v); [by left | exact Ep | exact Ev].
    + apply Forall_app. split; [exact Hw |].
      apply Forall_singleton, weight_ground_nonneg.
Qed.

Lemma from_sentinel_nonneg (band : option SatelliteBand) (molar_mass : Q)
    (values ws : list Q) :
  (∀ b v, band = Some b → band_value b = Some v → 0 <= v) →
  0 <= molar_mass → Spec.nonneg values → Spec.nonneg ws →
  Spec.nonneg (from_sentinel band molar_mass values ws).1 ∧
  Spec.nonneg (from_sentinel band molar_mass values ws).2.
Proof.
  intros Hb Hm Hv Hw. unfold from_sentinel.
  destruct band as [b |]; [| by split].
  destruct (band_value b) as [mol |] eqn:Eb; [| by split].
  destruct (Py.truthy mol); [| by split].
  pose proof (Hb b mol eq_refl Eb) as Hmol.
  split; simpl; apply Forall_app; (split; [assumption |]);
    apply Forall_singleton.
  - unfold Qdiv.
    repeat apply Qmult_le_0_compat; try assumption;
      vm_compute; discriminate.
  - apply weight_satellite_nonneg.
Qed.

Lemma average_value_nonneg (vs ws : list Q) (u : string) (t : option Q)
    (label : string) :
  Spec.nonneg vs → Spec.nonneg ws →
  Spec.value_nonneg
    {| fm_value := Some (np_average vs ws); fm_unit := u;
       fm_threshold := t; fm_source := label |}.
Proof.
  intros Hvs Hws. eexists. split; [reflexivity |].
  by apply np_average_nonneg.
Qed.

(** The entry of a pollutant is non-negative when the readings of that
    pollutant are. *)
Lemma fuse_air_quality_nonneg (raw : RawData) (k : string)
    (e : FusedMetric) :
  Spec.readings_nonneg raw k →
  _fuse_air_quality (Spec.sources_of raw) !! k = Some e →
  Spec.value_nonneg e.
Proof.
  intros [Hground Hsat].
  unfold Spec.measurements_of in Hground. unfold Spec.band_of in Hsat.
  unfold _fuse_air_quality.
  set (src := Spec.sources_of raw) in *.
  set (ms := default [] (openaq src ≫= measurements)) in *.
  set (sentinel_data := default empty_sentinel (sentinel5p src)).
  assert (k = "no2" → ∀ b v, s5p_no2 sentinel_data = Some b →
                             band_value b = Some v → 0 <= v) as Hno2.
  { intros -> b v Hb. apply Hsat. subst sentinel_data.
    destruct (sentinel5p src) as [s |]; [exact Hb | done]. }
  assert (k = "so2" → ∀ b v, s5p_so2 sentinel_data = Some b →
                             band_value b = Some v → 0 <= v) as Hso2.
  { intros -> b v Hb. apply Hsat. subst sentinel_data.
    destruct (sentinel5p src) as [s |]; [exact Hb | done]. }
  clearbody sentinel_data. clear Hsat.
  assert (∀ p, k = p →
            Spec.nonneg (from_openaq p ms [] []).1 ∧
            Spec.nonneg (from_openaq p ms [] []).2) as Hopenaq.
  { intros p <-.
    apply (from_openaq_nonneg k ms [] [] Hground);
      apply Forall_nil_2. }
  destruct (from_openaq "pm25" ms [] []) as [v1 w1] eqn:E1.
  destruct (from_openaq "no2" ms [] []) as [v2 w2] eqn:E2.
  destruct (from_openaq "so2" ms [] []) as [v3 w3] eqn:E3.
  assert (k = "no2" →
            Spec.nonneg (from_sentinel (s5p_no2 sentinel_data)
                           (4601 # 100) v2 w2).1 ∧
            Spec.nonneg (from_sentinel (s5p_no2 sentinel_data)
                           (4601 # 100) v2 w2).2) as Hv2.
  { intros Hk. destruct (Hopenaq "no2" Hk) as [Hv Hw]. rewrite E2 in Hv, Hw.
    apply from_sentinel_nonneg; [by apply Hno2 | | exact Hv | exact Hw].
    vm_compute. discriminate. }
  assert (k = "so2" →
            Spec.nonneg (from_sentinel (s5p_so2 sentinel_data)
                           (6407 # 100) v3 w3).1 ∧
            Spec.nonneg (from_sentinel (s5p_so2 sentinel_data)
                           (6407 # 100) v3 w3).2) as Hv3.
  { intros Hk. destruct (Hopenaq "so2" Hk) as [Hv Hw]. rewrite E3 in Hv, Hw.
    apply from_sentinel_nonneg; [by apply Hso2 | | exact Hv | exact Hw].
    vm_compute. discriminate. }
  assert (k = "pm25" → Spec.nonneg v1 ∧ Spec.nonneg w1) as Hv1.
  { intros Hk. destruct (Hopenaq "pm25" Hk) as [Hv Hw].
    by rewrite E1 in Hv, Hw. }
  clear Hopenaq Hno2 Hso2 Hground E1 E2 E3.
  destruct (from_sentinel _ (4601 # 100) v2 w2) as [v2' w2'].
  destruct (from_sentinel _ (6407 # 100) v3 w3) as [v3' w3'].
  cbn [fst snd] in Hv2, Hv3.
  destruct (decide (k = "so2")) as [-> | Hne3].
  { destruct (Hv3 eq_refl) as [Hv Hw].
    destruct v1, v2', v3'; simplify_map_eq; intros;
      simplify_eq; by apply average_value_nonneg. }
  destruct (decide (k = "no2")) as [-> | Hne2].
  { destruct (Hv2 eq_refl) as [Hv Hw].
    destruct v1, v2', v3'; simplify_map_eq; intros;
      simplify_eq; by apply average_value_nonneg. }
  destruct (decide (k = "pm25")) as [-> | Hne1].
  { destruct (Hv1 eq_refl) as [Hv Hw].
    destruct v1, v2', v3'; simplify_map_eq; intros;
      simplify_eq; by apply average_value_nonneg. }
  destruct v1, v2', v3'; by simplify_map_eq.
Qed.

Lemma from_openaq_filter (param : string) (ms : list Measurement)
    (values ws : list Q) :
  from_openaq param (List.filter Spec.has_value ms) values ws
  = from_openaq param ms values ws.
Proof.
  revert values ws. induction ms as [| meas ms IH]; intros values ws.
  - reflexivity.
  - simpl. unfold Spec.has_value at 1.
    destruct (meas_value meas) as [v |] eqn:Ev; simpl.
    + rewrite Ev. destruct (parameter meas) as [p |]; [| apply IH].
      destruct (String.eqb p param); apply IH.
    + destruct (parameter meas); apply IH.
Qed.

Lemma from_sentinel_present (band : option SatelliteBand) (molar_mass : Q)
    (values ws : list Q) :
  from_sentinel (band ≫= Spec.present) molar_mass values ws
  = from_sentinel band molar_mass values ws.
Proof.
  destruct band as [b |]; [| reflexivity]. simpl. unfold Spec.present.
  destruct (band_value b) as [v |] eqn:Eb; simpl; by rewrite ?Eb.
Qed.

Lemma lookup_value_insert (m m' : gmap string FusedMetric) (k0 : string)
    (e e' : FusedMetric) :
  fm_value e = fm_value e' →
  (∀ k, m !! k ≫= fm_value = m' !! k ≫= fm_value) →
  ∀ k, <[k0 := e]> m !! k ≫= fm_value = <[k0 := e']> m' !! k ≫= fm_value.
Proof.
  intros He Hm k. destruct (decide (k0 = k)) as [-> | Hne].
  - by rewrite !lookup_insert_eq.
  - by rewrite !lookup_insert_ne.
Qed.

Lemma measurements_drop_missing (raw : RawData) :
  Spec.measurements_of (Spec.sources_of (Spec.drop_missing raw))
  = List.filter Spec.has_value (Spec.measurements_of (Spec.sources_of raw)).
Proof.
  destruct raw as [[[[[[ms |]] |] s] |]]; reflexivity.
Qed.

Lemma no2_band_drop_missing (raw : RawData) :
  s5p_no2 (default empty_sentinel
             (sentinel5p (Spec.sources_of (Spec.drop_missing raw))))
  = s5p_no2 (default empty_sentinel (sentinel5p (Spec.sources_of raw)))
    ≫= Spec.present.
Proof. destruct raw as [[[o [s |]] |]]; reflexivity. Qed.

Lemma so2_band_drop_missing (raw : RawData) :
  s5p_so2 (default empty_sentinel
             (sentinel5p (Spec.sources_of (Spec.drop_missing raw))))
  = s5p_so2 (default empty_sentinel (sentinel5p (Spec.sources_of raw)))
    ≫= Spec.present.
Proof. destruct raw as [[[o [s |]] |]]; reflexivity. Qed.

Lemma fused_value_drop_missing (raw : RawData) (k : string) :
  Spec.fused_value (Spec.drop_missing raw) k = Spec.fused_value raw k.
Proof.
  unfold Spec.fused_value, fuse_data. cbn [get_air air default].
  fold (Spec.sources_of raw). fold (Spec.sources_of (Spec.drop_missing raw)).
  unfold _fuse_air_quality.
  fold (Spec.measurements_of (Spec.sources_of raw)).
  fold (Spec.measurements_of (Spec.sources_of (Spec.drop_missing raw))).
  rewrite measurements_drop_missing, !from_openaq_filter.
  rewrite no2_band_drop_missing, so2_band_drop_missing.
  destruct (from_openaq "pm25" _ [] []) as [v1 w1].
  destruct (from_openaq "no2" _ [] []) as [v2 w2].
  destruct (from_openaq "so2" _ [] []) as [v3 w3].
  rewrite !from_sentinel_present.
  destruct (from_sentinel _ (4601 # 100) v2 w2) as [v2' w2'].
  destruct (from_sentinel _ (6407 # 100) v3 w3) as [v3' w3'].
  revert k.
  destruct v1, v2', v3'; repeat (apply lookup_value_insert; [reflexivity |]);
    reflexivity.
Qed.

(** C3, as the code has it.  For every pollutant: when no reading that
    enters its average is negative (no ground measurement of that pollutant
    with a value, and not the column density of its Sentinel-5P band), its
    fused value is non-negative; so when this holds of PM2.5, NO2 and SO2,
    every fused value is non-negative.  And, for every input, the readings
    whose value is missing contribute nothing: without them the fused
    values are the same. *)
Theorem fused_values_nonneg_when_readings_are
    (raw_data : RawData) (lat lng : Q) :
  (∀ k e, Spec.readings_nonneg raw_data k →
          get_air (fuse_data raw_data lat lng) !! k = Some e →
          ∃ v, fm_value e = Some v ∧ 0 <= v) ∧
  ((∀ k, k ∈ ["pm25"; "no2"; "so2"] → Spec.readings_nonneg raw_data k) →
   ∀ k e, get_air (fuse_data raw_data lat lng) !! k = Some e →
          ∃ v, fm_value e = Some v ∧ 0 <= v) ∧
  (∀ k, Spec.fused_value (Spec.drop_missing raw_data) k
        = Spec.fused_value raw_data k).
Proof.
  split; [| split].
  - intros k e H. apply (fuse_air_quality_nonneg raw_data k e H).
  - intros H k e Hk.
    destruct (decide (k ∈ ["pm25"; "no2"; "so2"])) as [Hin | Hout].
    + apply (fuse_air_quality_nonneg raw_data k e (H k Hin) Hk).
    + exfalso. revert Hk. cbn [fuse_data get_air air default from_option id].
      unfold _fuse_air_quality.
      destruct (from_openaq "pm25" _ [] []) as [v1 w1].
      destruct (from_openaq "no2" _ [] []) as [v2 w2].
      destruct (from_openaq "so2" _ [] []) as [v3 w3].
      destruct (from_sentinel _ (4601 # 100) v2 w2) as [v2' w2'].
      destruct (from_sentinel _ (6407 # 100) v3 w3) as [v3' w3'].
      assert (k ≠ "pm25" ∧ k ≠ "no2" ∧ k ≠ "so2") as (H1 & H2 & H3).
      { repeat split; intros ->; apply Hout;
          repeat first [apply list_elem_of_here | apply list_elem_of_further]. }
      destruct v1, v2', v3'; by simplify_map_eq.
  - apply fused_value_drop_missing.
Qed.

Lemma fused_values_nonneg_when_readings_are_witness :
  Spec.readings_nonneg pm25_beside_negative_pm10 "pm25" ∧
  (∃ e, get_air (fuse_data pm25_beside_negative_pm10 0 0) !! "pm25" = Some e
        ∧ ∃ v, fm_value e = Some v ∧ 0 <= v) ∧
  (∀ k, Spec.fused_value (Spec.drop_missing ground_with_gap) k
        = Spec.fused_value ground_with_gap k).
Proof.
  assert (Spec.readings_nonneg pm25_beside_negative_pm10 "pm25") as H.
  { split.
    - intros meas v Hin Hp Hv. vm_compute in Hin.
      repeat (apply elem_of_cons in Hin; destruct Hin as [-> | Hin]);
        [injection Hv as <- | discriminate Hp |
         by apply elem_of_nil in Hin]; vm_compute; discriminate.
    - intros band v Hband. discriminate Hband. }
  split; [exact H |].
  destruct (fused_values_nonneg_when_readings_are
              pm25_beside_negative_pm10 0 0) as (Hat & _ & _).
  destruct (fused_values_nonneg_when_readings_are ground_with_gap 0 0)
    as (_ & _ & Hdrop).
  split; [| exact Hdrop].
  eexists. split; [vm_compute; reflexivity |].
  apply (Hat "pm25" _ H). vm_compute. reflexivity.
Defined.

(** C3 fails on a negative reading: a single ground PM2.5 measurement of
    −5 is averaged like any other and the fused PM2.5 value is −5. *)
Lemma negative_reading_gives_negative_fused_value :
  ∃ v, Spec.fused_value (ground_only [measurement "pm25" (-5)]) "pm25"
       = Some v ∧ v == -5 ∧ v < 0.
Proof.
  eexists. split; [vm_compute; reflexivity |].
  split; vm_compute; reflexivity.
Qed.

(** C7, at the failing inputs.  Two ground NO2 readings and no satellite
    data are labelled "Fused (OpenAQ + Sentinel-5P)"; an NO2 value that
    comes from the satellite alone is labelled "OpenAQ" as soon as the
    ground list holds a reading of another pollutant.  A single ground
    PM2.5 reading of 50 gives the value 50 labelled "OpenAQ". *)
Theorem readings_of_one_source_labelled_fused :
  fm_source <$>
    get_air (fuse_data (ground_only [measurement "no2" 10;
                                     measurement "no2" 20]) 0 0) !! "no2"
    = Some "Fused (OpenAQ + Sentinel-5P)" ∧
  fm_source <$> get_air (fuse_data ground_pm25_satellite_no2 0 0) !! "no2"
    = Some "OpenAQ" ∧
  fm_source <$>
    get_air (fuse_data (ground_only [measurement "pm25" 50]) 0 0) !! "pm25"
    = Some "OpenAQ" ∧
  (∃ v, Spec.fused_value (ground_only [measurement "pm25" 50]) "pm25"
        = Some v ∧ v == 50).
Proof.
  split; [vm_compute; reflexivity |].
  split; [vm_compute; reflexivity |].
  split; [vm_compute; reflexivity |].
  eexists. split; vm_compute; reflexivity.
Qed.

End DataFusionFacts.

(** ** The anomaly detector *)

Module AnomalyDetectorFacts.

Import AnomalyDetector Examples.

Section Detector.

Context {StandardScaler IsolationForest : Type}.
Context (scaler_fit_transform :
           StandardScaler → list (list Q)
           → StandardScaler * option (list (list Q))).
Context (scaler_transform :
           StandardScaler → list (list Q) → option (list (list Q))).
Context (forest_fit :
           IsolationForest → list (list Q) → IsolationForest * bool).
Context (score_samples : IsolationForest → list (list Q) → option (list Q)).
Context (forest_predict :
           IsolationForest → list (list Q) → option (list Z)).

Abbreviation detector := (t StandardScaler IsolationForest).
Abbreviation fit := (fit _ _ scaler_fit_transform forest_fit).
Abbreviation predict :=
  (predict _ _ scaler_transform score_samples forest_predict).
Abbreviation run :=
  (run _ _ scaler_fit_transform scaler_transform forest_fit score_samples
       forest_predict).

Lemma fit_short_history (self : detector) (historical_data : DataFrame) :
  (df_len historical_data < 10)%nat →
  fit self historical_data
  = ({| model := model _ _ self; scaler := scaler _ _ self;
        fitted := false |}, true).
Proof.
  intros H. unfold AnomalyDetector.fit.
  apply Nat.ltb_lt in H. by rewrite H.
Qed.

Lemma predict_unfitted (self : detector) (current_data : Sample) :
  fitted _ _ self = false →
  predict self current_data = Some (neutral not_fitted_note).
Proof. intros H. unfold AnomalyDetector.predict. by rewrite H. Qed.

Lemma predict_fitted_note (self : detector) (current_data : Sample)
    (r : AnomalyResult) :
  fitted _ _ self = true →
  predict self current_data = Some r →
  note r ≠ Some not_fitted_note.
Proof.
  intros H. unfold AnomalyDetector.predict. rewrite H. simpl.
  destruct (length _ =? 0)%nat; [by intros [= <-] |].
  destruct (scaler_transform _ _) as [features_scaled |]; [| discriminate].
  simpl.
  destruct (score_samples _ _ ≫= head) as [anomaly_score |];
    [| discriminate].
  simpl.
  destruct (forest_predict _ _ ≫= head) as [label |]; [| discriminate].
  by intros [= <-].
Qed.

Lemma run_predicts_unfitted (self : detector) (samples : list Sample) :
  fitted _ _ self = false →
  run self (Predict <$> samples)
  = (self, replicate (length samples) (Result (neutral not_fitted_note))).
Proof.
  intros H. induction samples as [| x samples IH]; [reflexivity |].
  rewrite fmap_cons. cbn [AnomalyDetector.run step].
  rewrite IH, predict_unfitted by exact H. reflexivity.
Qed.

(** C8.  [fit] on fewer than 10 rows returns, without raising, with the
    detector not fitted, whatever its state was, and every [predict] that
    follows returns the neutral result: score 0, not an anomaly,
    confidence 0, with the note
    "Model not fitted - insufficient historical data".  A fitted detector
    never returns that note, so the note tells the fallback from a genuine
    verdict. *)
Theorem fit_below_ten_samples_leaves_untrained
    (self : detector) (historical_data : DataFrame) (samples : list Sample) :
  (df_len historical_data < 10)%nat →
  (fit self historical_data).2 = true ∧
  fitted _ _ (fit self historical_data).1 = false ∧
  run self (Fit historical_data :: (Predict <$> samples))
  = ((fit self historical_data).1,
     Done :: replicate (length samples) (Result (neutral not_fitted_note))) ∧
  anomaly_score (neutral not_fitted_note) = 0 ∧
  is_anomaly (neutral not_fitted_note) = false ∧
  anomaly_confidence (neutral not_fitted_note) = 0 ∧
  note (neutral not_fitted_note)
  = Some "Model not fitted - insufficient historical data" ∧
  (∀ (fitted_self : detector) (x : Sample) (r : AnomalyResult),
     fitted _ _ fitted_self = true →
     predict fitted_self x = Some r →
     note r ≠ note (neutral not_fitted_note)).
Proof.
  intros H. rewrite (fit_short_history self historical_data H).
  cbn [fst snd fitted].
  split; [reflexivity |]. split; [reflexivity |]. split.
  { cbn [AnomalyDetector.run step].
    rewrite (fit_short_history self historical_data H).
    by rewrite run_predicts_unfitted. }
  repeat split; try reflexivity.
  intros fitted_self x r Hx Hr. by eapply predict_fitted_note.
Qed.

End Detector.

Lemma fit_below_ten_samples_leaves_untrained_witness :
  (df_len nine_rows < 10)%nat ∧
  (fit unit unit stub_fit_transform stub_forest_fit
       (init unit unit tt tt) nine_rows).2 = true ∧
  fitted _ _ (fit unit unit stub_fit_transform stub_forest_fit
                  (init unit unit tt tt) nine_rows).1 = false ∧
  run unit unit stub_fit_transform stub_transform stub_forest_fit
      stub_score_samples stub_forest_predict
      (init unit unit tt tt) [Fit nine_rows; Predict sample_pm25]
  = ((fit unit unit stub_fit_transform stub_forest_fit
          (init unit unit tt tt) nine_rows).1,
     [Done; Result (neutral not_fitted_note)]).
Proof.
  split; [vm_compute; lia |].
  pose proof (fit_below_ten_samples_leaves_untrained
                stub_fit_transform stub_transform stub_forest_fit
                stub_score_samples stub_forest_predict
                (init unit unit tt tt) nine_rows [sample_pm25]
                ltac:(vm_compute; lia)) as (Hret & Hf & Hrun & _).
  split; [exact Hret |]. split; [exact Hf | exact Hrun].
Defined.

End AnomalyDetectorFacts.

(** ** Further properties of the risk scorer *)

Module RiskScorerProps.

Import RiskScorer PyFacts ScorerPreds.

Lemma max_ge_l (a b : Q) : a <= Py.max a b.
Proof. py_cases; lra. Qed.

Lemma exceedance_block_value (air : gmap string FusedMetric) (p key : string)
    (acc : Q) :
  exceedance_block air p key acc
  = match air !! p ≫= fm_value with
    | Some v => Py.max acc (if Py.gt (who key) 0 then v / who key else 0)
    | None => acc
    end.
Proof.
  unfold exceedance_block. destruct (air !! p) as [e |]; simpl; [| reflexivity].
  destruct (fm_value e); reflexivity.
Qed.

Lemma exceedance_block_ge (air : gmap string FusedMetric) (p key : string)
    (acc : Q) :
  acc <= exceedance_block air p key acc.
Proof.
  rewrite exceedance_block_value. destruct (_ ≫= _); [apply max_ge_l | lra].
Qed.

Lemma exposure_score_bounds (m : MetricsBundle) :
  0 <= _calculate_exposure_score m <= 100.
Proof.
  unfold _calculate_exposure_score.
  pose proof (exceedance_block_ge (get_air m) "pm25" "pm25_24h" 0) as H1.
  pose proof (exceedance_block_ge (get_air m) "no2" "no2_24h"
                (exceedance_block (get_air m) "pm25" "pm25_24h" 0)) as H2.
  pose proof (exceedance_block_ge (get_air m) "so2" "so2_24h"
                (exceedance_block (get_air m) "no2" "no2_24h"
                   (exceedance_block (get_air m) "pm25" "pm25_24h" 0))) as H3.
  revert H3. generalize (exceedance_block (get_air m) "so2" "so2_24h"
       (exceedance_block (get_air m) "no2" "no2_24h"
          (exceedance_block (get_air m) "pm25" "pm25_24h" 0))).
  intros acc H3.
  assert (0 <= acc) as Hacc by lra.
  destruct (quality_score (get_water m)) as [s |].
  - pose proof (max_ge_l acc ((100 - s) / 100)) as Hw.
    revert Hw. generalize (Py.max acc ((100 - s) / 100)). intros w Hw.
    py_cases; lra.
  - py_cases; lra.
Qed.

(** X1.  The exposure score lies between 0 and 100 for every bundle of
    metrics, whatever the signs and sizes of its values: the running maximum
    starts at 0 and the result is capped at 100. *)
Theorem exposure_score_in_range (m : MetricsBundle) :
  0 <= _calculate_exposure_score m <= 100.
Proof. exact (exposure_score_bounds m). Qed.

Lemma max_mono (a a' b b' : Q) : a <= a' → b <= b' → Py.max a b <= Py.max a' b'.
Proof. intros. py_cases; lra. Qed.

Lemma min_mono_r (c a b : Q) : a <= b → Py.min c a <= Py.min c b.
Proof. intros. py_cases; lra. Qed.

Lemma exceedance_block_mono (air air' : gmap string FusedMetric)
    (p key : string) (acc acc' : Q) :
  0 < who key → acc <= acc' →
  value_le (air !! p ≫= fm_value) (air' !! p ≫= fm_value) →
  exceedance_block air p key acc <= exceedance_block air' p key acc'.
Proof.
  intros Hpos Hacc Hv. rewrite !exceedance_block_value.
  apply gt_true in Hpos as Hgt. rewrite Hgt.
  destruct (air !! p ≫= fm_value) as [v |], (air' !! p ≫= fm_value) as [v' |];
    simpl in Hv; try contradiction.
  - apply max_mono; [exact Hacc |].
    unfold Qdiv. apply Qmult_le_compat_r; [exact Hv |].
    apply Qinv_le_0_compat. lra.
  - pose proof (max_ge_l acc' (v' / who key)). lra.
  - exact Hacc.
Qed.

(** X2.  The exposure score is monotone: when PM2.5, NO2 and SO2 of a
    bundle are absent or not above those of another bundle, and its water
    quality score is absent or not below the other's, its exposure score is
    not above the other's. *)
Theorem exposure_score_monotone (m1 m2 : MetricsBundle) :
  value_le (air_value m1 "pm25") (air_value m2 "pm25") →
  value_le (air_value m1 "no2") (air_value m2 "no2") →
  value_le (air_value m1 "so2") (air_value m2 "so2") →
  water_risk_le (quality_score (get_water m1)) (quality_score (get_water m2)) →
  _calculate_exposure_score m1 <= _calculate_exposure_score m2.
Proof.
  intros Hpm25 Hno2 Hso2 Hwater. unfold _calculate_exposure_score.
  apply min_mono_r.
  apply Qmult_le_compat_r; [| lra].
  assert (exceedance_block (get_air m1) "so2" "so2_24h"
            (exceedance_block (get_air m1) "no2" "no2_24h"
               (exceedance_block (get_air m1) "pm25" "pm25_24h" 0))
          <= exceedance_block (get_air m2) "so2" "so2_24h"
               (exceedance_block (get_air m2) "no2" "no2_24h"
                  (exceedance_block (get_air m2) "pm25" "pm25_24h" 0))) as H.
  { repeat apply exceedance_block_mono; try reflexivity; try assumption. lra. }
  revert H. generalize (exceedance_block (get_air m1) "so2" "so2_24h"
            (exceedance_block (get_air m1) "no2" "no2_24h"
               (exceedance_block (get_air m1) "pm25" "pm25_24h" 0))).
  generalize (exceedance_block (get_air m2) "so2" "so2_24h"
               (exceedance_block (get_air m2) "no2" "no2_24h"
                  (exceedance_block (get_air m2) "pm25" "pm25_24h" 0))).
  intros a2 a1 H.
  destruct (quality_score (get_water m1)) as [s1 |],
           (quality_score (get_water m2)) as [s2 |];
    simpl in Hwater; try contradiction.
  - apply max_mono; [exact H |]. unfold Qdiv.
    apply Qmult_le_compat_r; [lra | vm_compute; discriminate].
  - pose proof (max_ge_l a2 ((100 - s2) / 100)). lra.
  - exact H.
Qed.

Lemma exposure_score_monotone_witness :
  value_le (air_value (Examples.only_pm25 30) "pm25")
           (air_value (Examples.only_pm25 60) "pm25") ∧
  _calculate_exposure_score (Examples.only_pm25 30)
  <= _calculate_exposure_score (Examples.only_pm25 60).
Proof.
  assert (value_le (air_value (Examples.only_pm25 30) "pm25")
                   (air_value (Examples.only_pm25 60) "pm25")) as H
    by (vm_compute; discriminate).
  split; [exact H |].
  apply (exposure_score_monotone
           (Examples.only_pm25 30) (Examples.only_pm25 60) H);
    exact I.
Defined.

Lemma of_nat_le (a b : nat) : (a <= b)%nat → Py.of_nat a <= Py.of_nat b.
Proof. intros H. unfold Py.of_nat. rewrite <- Zle_Qle. lia. Qed.

Lemma of_nat_pos (a : nat) : (0 < a)%nat → 0 < Py.of_nat a.
Proof.
  intros H. unfold Py.of_nat. change 0 with (inject_Z 0).
  rewrite <- Zlt_Qlt. lia.
Qed.

Lemma count_days_bounds (days : list MetricsBundle) (k : nat) :
  (k <= count_days days k <= k + length days)%nat.
Proof.
  revert k. induction days as [| d days IH]; intros k; simpl; [lia |].
  destruct (day_exceeds _).
  - specialize (IH (S k)). lia.
  - specialize (IH k). lia.
Qed.

Lemma slice_last_length {A} (n : nat) (l : list A) :
  (0 < n <= length l)%nat → length (Py.slice_last n l) = n.
Proof.
  intros H. unfold Py.slice_last. destruct n as [| n]; [lia |].
  rewrite length_drop. lia.
Qed.

Lemma duration_score_bounds (h : option (list MetricsBundle)) :
  0 <= _calculate_duration_score h <= 100.
Proof.
  unfold _calculate_duration_score.
  destruct h as [[| d trend] |]; try lra.
  set (l := d :: trend).
  destruct (Nat.ltb_spec (length l) 7) as [Hlt | Hge]; [lra |].
  set (n := Nat.min 30 (length l)).
  assert (0 < n <= length l)%nat as Hn by (subst n; lia).
  pose proof (count_days_bounds (Py.slice_last n l) 0) as Hc.
  rewrite slice_last_length in Hc by exact Hn.
  revert Hc. generalize (count_days (Py.slice_last n l) 0). intros c Hc.
  pose proof (of_nat_le c n ltac:(lia)) as Hle.
  pose proof (of_nat_le 0 c ltac:(lia)) as H0.
  pose proof (of_nat_pos n ltac:(lia)) as Hpos.
  change (Py.of_nat 0) with 0 in H0.
  revert Hle H0 Hpos. generalize (Py.of_nat c), (Py.of_nat n). intros x y Hle H0 Hpos.
  assert (0 <= x / y <= 1) as [Hq0 Hq1].
  { split.
    - apply Qle_shift_div_l; lra.
    - apply Qle_shift_div_r; lra. }
  lra.
Qed.

(** X3.  The duration score lies between 0 and 100 for every history,
    also for none. *)
Theorem duration_score_in_range (h : option (list MetricsBundle)) :
  0 <= _calculate_duration_score h <= 100.
Proof. exact (duration_score_bounds h). Qed.

Lemma duration_score_unfold (trend : list MetricsBundle) :
  _calculate_duration_score (Some trend)
  = if (length trend <? 7)%nat then 50
    else (Py.of_nat
            (count_days
               (Py.slice_last (Nat.min 30 (length trend)) trend) 0)
          / Py.of_nat (Nat.min 30 (length trend))) * 100.
Proof. destruct trend; reflexivity. Qed.

(** X4.  The duration score reads the last 30 entries of the history
    only: entries before them do not change it. *)
Theorem duration_score_reads_last_30 (older recent : list MetricsBundle) :
  (30 <= length recent)%nat →
  _calculate_duration_score (Some (older ++ recent))
  = _calculate_duration_score (Some recent).
Proof.
  intros Hlen. rewrite !duration_score_unfold.
  assert (length (older ++ recent) = length older + length recent)%nat as Happ
    by apply length_app.
  destruct (Nat.ltb_spec (length (older ++ recent)) 7); [lia |].
  destruct (Nat.ltb_spec (length recent) 7); [lia |].
  rewrite !Nat.min_l by lia.
  unfold Py.slice_last.
  rewrite Happ, drop_app_ge by lia.
  replace (length older + length recent - 30 - length older)%nat
    with (length recent - 30)%nat by lia.
  reflexivity.
Qed.

Lemma duration_score_reads_last_30_witness :
  _calculate_duration_score
    (Some ([Examples.only_pm25 90] ++ replicate 30 (Examples.only_pm25 10)))
  = _calculate_duration_score (Some (replicate 30 (Examples.only_pm25 10))).
Proof.
  apply (duration_score_reads_last_30
           [Examples.only_pm25 90] (replicate 30 (Examples.only_pm25 10))).
  vm_compute. lia.
Defined.

Lemma uncertainty_penalty_bounds (dq : DataQuality) :
  0 <= _calculate_uncertainty_penalty dq <= 100 ∧
  (0 <= coverage_of dq → _calculate_uncertainty_penalty dq <= 50).
Proof.
  unfold _calculate_uncertainty_penalty, coverage_of.
  generalize (default 0 (age_hours dq)), (default 1 (coverage dq)).
  intros a c. split; [| intros Hc]; py_cases; qlra.
Qed.

(** X5.  The uncertainty penalty lies between 0 and 100, and is at most 50
    (20 for the age, 30 for the coverage) when the coverage is not
    negative. *)
Theorem uncertainty_penalty_in_range (dq : DataQuality) :
  0 <= _calculate_uncertainty_penalty dq <= 100 ∧
  (0 <= coverage_of dq → _calculate_uncertainty_penalty dq <= 50).
Proof. exact (uncertainty_penalty_bounds dq). Qed.

Lemma uncertainty_penalty_cases (dq : DataQuality) :
  (age_of dq <= 24 → 1 # 2 <= coverage_of dq →
   _calculate_uncertainty_penalty dq == 0) ∧
  (24 < age_of dq → 0 < _calculate_uncertainty_penalty dq) ∧
  (coverage_of dq < 1 # 2 → 15 < _calculate_uncertainty_penalty dq).
Proof.
  unfold _calculate_uncertainty_penalty, coverage_of, age_of.
  generalize (default 0 (age_hours dq)), (default 1 (coverage dq)).
  intros a c. repeat split; intros; py_cases; qlra.
Qed.

(** X6.  The uncertainty penalty is 0 exactly when the data is at most 24
    hours old and the coverage is at least 0.5; a coverage below 0.5 costs
    at least 15.  (The bound is not strict: computed in floating point, a
    coverage one step below 0.5 costs exactly 15.) *)
Theorem uncertainty_penalty_zero_iff (dq : DataQuality) :
  (_calculate_uncertainty_penalty dq == 0
   ↔ age_of dq <= 24 ∧ 1 # 2 <= coverage_of dq) ∧
  (coverage_of dq < 1 # 2 → 15 <= _calculate_uncertainty_penalty dq).
Proof.
  destruct (uncertainty_penalty_cases dq) as (Hzero & Hage & Hcov).
  split; [| intros H; apply Qlt_le_weak, Hcov, H]. split.
  - intros H. split.
    + destruct (Qlt_le_dec 24 (age_of dq)) as [Hlt | Hle]; [| exact Hle].
      specialize (Hage Hlt). lra.
    + destruct (Qlt_le_dec (coverage_of dq) (1 # 2)) as [Hlt | Hle];
        [| exact Hle].
      specialize (Hcov Hlt). lra.
  - intros [Ha Hc]. by apply Hzero.
Qed.

Lemma composite_score_unclamped
    (m : MetricsBundle) (h : option (list MetricsBundle)) (dq : DataQuality) :
  composite_score m h dq
  == (6 # 10) * _calculate_exposure_score m
     + (3 # 10) * _calculate_duration_score h
     + (1 # 10) * _calculate_uncertainty_penalty dq.
Proof.
  unfold composite_score.
  pose proof (exposure_score_bounds m) as He.
  pose proof (duration_score_bounds h) as Hd.
  pose proof (uncertainty_penalty_bounds dq) as [Hp _].
  revert He Hd Hp.
  generalize (_calculate_exposure_score m), (_calculate_duration_score h),
    (_calculate_uncertainty_penalty dq).
  intros e d p He Hd Hp. py_cases; lra.
Qed.

(** X7.  The clamp of the risk score to 0..100 never acts: the composite
    score is the weighted sum 0.6 × exposure + 0.3 × duration + 0.1 ×
    uncertainty penalty itself. *)
Theorem composite_score_is_never_clamped
    (m : MetricsBundle) (h : option (list MetricsBundle)) (dq : DataQuality) :
  composite_score m h dq
  == (6 # 10) * _calculate_exposure_score m
     + (3 # 10) * _calculate_duration_score h
     + (1 # 10) * _calculate_uncertainty_penalty dq.
Proof. exact (composite_score_unclamped m h dq). Qed.

Lemma confidence_coverage_bounds (dq : DataQuality) (m : MetricsBundle) :
  0 <= coverage_of dq <= 1 →
  49 * coverage_of dq <= _calculate_confidence dq m <= 100 * coverage_of dq ∧
  ((size (get_air m) < 2)%nat →
   _calculate_confidence dq m <= 70 * coverage_of dq).
Proof.
  unfold _calculate_confidence, coverage_of.
  generalize (default 0 (age_hours dq)), (default 1 (coverage dq)).
  intros a c [Hc0 Hc1].
  assert (∀ x, 0 <= x <= 100 → Py.max 0 (Py.min 100 x) == x) as Hclamp.
  { intros x Hx. py_cases; lra. }
  assert (∃ r, 0 <= r <= 30 ∧
               (if Py.gt a 24 then 100 - Py.min 30 ((a - 24) / 24 * 30) else 100)
               == 100 - r) as (r & Hr & Er).
  { destruct (Py.gt a 24) eqn:G.
    - exists (Py.min 30 ((a - 24) / 24 * 30)). split; [| reflexivity].
      apply gt_true in G. py_cases; qlra.
    - exists 0. split; lra. }
  assert (0 <= r * c) as Hrc by (apply Qmult_le_0_compat; lra).
  assert (0 <= (30 - r) * c) as Hrc' by (apply Qmult_le_0_compat; lra).
  destruct (Nat.ltb_spec (size (get_air m)) 2) as [Hs | Hs].
  - rewrite Hclamp; rewrite Er; [| lra]. split; [lra |]. intros _. lra.
  - rewrite Hclamp; rewrite Er; [| lra]. split; [lra | intros; lia].
Qed.

(** The factor that the age leaves of the confidence, and the clamp. *)
Lemma age_factor_antitone (a1 a2 : Q) :
  a2 <= a1 →
  70 <= (if Py.gt a1 24 then 100 - Py.min 30 ((a1 - 24) / 24 * 30) else 100)
  ∧ (if Py.gt a1 24 then 100 - Py.min 30 ((a1 - 24) / 24 * 30) else 100)
    <= (if Py.gt a2 24 then 100 - Py.min 30 ((a2 - 24) / 24 * 30) else 100)
  ∧ (if Py.gt a2 24 then 100 - Py.min 30 ((a2 - 24) / 24 * 30) else 100)
    <= 100.
Proof. intros H. py_cases; repeat split; qlra. Qed.

Lemma clamp_monotone (x y : Q) :
  x <= y → Py.max 0 (Py.min 100 x) <= Py.max 0 (Py.min 100 y).
Proof. intros H. py_cases; lra. Qed.

(** X8.  The confidence follows the coverage and the age: of two
    data-quality records for the same metrics, the one with the coverage
    that is not lower (and not negative) and the age that is not higher has
    the confidence that is not lower; with fewer than two air metrics and a
    coverage of at most 1 the confidence is at most 70. *)
Theorem confidence_tracks_coverage (dq1 dq2 : DataQuality)
    (m : MetricsBundle) :
  0 <= coverage_of dq1 <= coverage_of dq2 →
  age_of dq2 <= age_of dq1 →
  _calculate_confidence dq1 m <= _calculate_confidence dq2 m ∧
  ((size (get_air m) < 2)%nat → coverage_of dq2 <= 1 →
   _calculate_confidence dq2 m <= 70).
Proof.
  unfold _calculate_confidence, coverage_of, age_of.
  generalize (default 0 (age_hours dq1)), (default 1 (coverage dq1)),
    (default 0 (age_hours dq2)), (default 1 (coverage dq2)).
  intros a1 c1 a2 c2 [Hc0 Hc] Ha.
  destruct (age_factor_antitone a1 a2 Ha) as (H70 & Hx & H100).
  revert H70 Hx H100.
  generalize
    (if Py.gt a1 24 then 100 - Py.min 30 ((a1 - 24) / 24 * 30) else 100),
    (if Py.gt a2 24 then 100 - Py.min 30 ((a2 - 24) / 24 * 30) else 100).
  intros x1 x2 H70 Hx H100.
  assert (x1 * c1 <= x2 * c2) as Hprod.
  { apply Qle_trans with (x2 * c1).
    - apply Qmult_le_compat_r; [exact Hx | exact Hc0].
    - rewrite !(Qmult_comm x2). apply Qmult_le_compat_r; [exact Hc | lra]. }
  assert (c2 <= 1 → x2 * c2 <= 100) as Hcap.
  { intros Hc1. apply Qle_trans with (100 * c2).
    - apply Qmult_le_compat_r; lra.
    - lra. }
  revert Hprod Hcap. generalize (x1 * c1), (x2 * c2). intros p1 p2 Hprod Hcap.
  split.
  - apply clamp_monotone. destruct (size (get_air m) <? 2)%nat; lra.
  - intros Hs Hc1. apply Nat.ltb_lt in Hs. rewrite Hs.
    specialize (Hcap Hc1). py_cases; lra.
Qed.

Lemma confidence_tracks_coverage_witness :
  0 <= coverage_of Cases.half_covered
    <= coverage_of Examples.three_days_old ∧
  _calculate_confidence Cases.half_covered Examples.bundle_a
  <= _calculate_confidence Examples.three_days_old Examples.bundle_a.
Proof.
  assert (0 <= coverage_of Cases.half_covered
            <= coverage_of Examples.three_days_old) as H
    by (split; vm_compute; discriminate).
  split; [exact H |].
  apply (confidence_tracks_coverage
           Cases.half_covered Examples.three_days_old Examples.bundle_a H).
  vm_compute. discriminate.
Defined.

End RiskScorerProps.

(** ** Further properties of the fusion service *)

Module DataFusionProps.

Import DataFusionService PyFacts FusionPreds.

Lemma ground_values_cons (param : string) (meas : Measurement)
    (ms : list Measurement) :
  ground_values param (meas :: ms)
  = match reading_of param meas with
    | Some v => v :: ground_values param ms
    | None => ground_values param ms
    end.
Proof. reflexivity. Qed.

Lemma from_openaq_spec (param : string) (ms : list Measurement)
    (values ws : list Q) :
  from_openaq param ms values ws
  = (values ++ ground_values param ms,
     ws ++ replicate (length (ground_values param ms))
             (weight "ground_sensor")).
Proof.
  revert values ws. induction ms as [| meas ms IH]; intros values ws.
  - simpl. by rewrite !app_nil_r.
  - rewrite ground_values_cons. cbn [from_openaq]. unfold reading_of.
    destruct (parameter meas) as [p |]; [| apply IH].
    destruct (meas_value meas) as [v |]; [| apply IH].
    destruct (String.eqb p param); [| apply IH].
    rewrite IH. cbn [length replicate]. by rewrite <- !app_assoc.
Qed.

Lemma from_sentinel_spec (band : option SatelliteBand) (mm : Q)
    (values ws : list Q) :
  from_sentinel band mm values ws
  = (values ++ satellite_ug band mm,
     ws ++ replicate (length (satellite_ug band mm)) (weight "satellite")).
Proof.
  unfold from_sentinel, satellite_ug, satellite_value.
  destruct band as [b |]; simpl; [| by rewrite !app_nil_r].
  destruct (band_value b) as [mol |]; simpl; [| by rewrite !app_nil_r].
  destruct (Py.truthy mol); simpl; [reflexivity | by rewrite !app_nil_r].
Qed.

(** The values and weights that the fusion averages for a pollutant. *)
Lemma fuse_air_quality_lookup (src : Sources) (p : string) :
  _fuse_air_quality src !! p
  = let ms := Spec.measurements_of src in
    let gv := ground_values p ms in
    let gw := replicate (length gv) (weight "ground_sensor") in
    let sv := satellite_ug (band_for src p) (molar_mass p) in
    let sw := replicate (length sv) (weight "satellite") in
    if decide (p = "pm25") then fused_entry gv gw 45 "OpenAQ"
    else if decide (p = "no2")
    then fused_entry (gv ++ sv) (gw ++ sw) 200 (provenance (gv ++ sv) ms)
    else if decide (p = "so2")
    then fused_entry (gv ++ sv) (gw ++ sw) 40 (provenance (gv ++ sv) ms)
    else None.
Proof.
  unfold _fuse_air_quality. fold (Spec.measurements_of src).
  rewrite !from_openaq_spec, !from_sentinel_spec. cbn [app].
  cbv zeta.
  set (ms := Spec.measurements_of src).
  destruct (decide (p = "pm25")) as [-> | Hpm25].
  { unfold fused_entry.
    destruct (ground_values "pm25" ms),
      (ground_values "no2" ms ++ _), (ground_values "so2" ms ++ _);
      by simplify_map_eq. }
  destruct (decide (p = "no2")) as [-> | Hno2].
  { unfold fused_entry, band_for, molar_mass. simpl.
    destruct (ground_values "pm25" ms),
      (ground_values "no2" ms ++ _), (ground_values "so2" ms ++ _);
      by simplify_map_eq. }
  destruct (decide (p = "so2")) as [-> | Hso2].
  { unfold fused_entry, band_for, molar_mass. simpl.
    destruct (ground_values "pm25" ms),
      (ground_values "no2" ms ++ _), (ground_values "so2" ms ++ _);
      by simplify_map_eq. }
  destruct (ground_values "pm25" ms),
    (ground_values "no2" ms ++ _), (ground_values "so2" ms ++ _);
    by simplify_map_eq.
Qed.

Lemma provenance_is_label (values : list Q) (ms : list Measurement) :
  provenance values ms ∈ labels.
Proof.
  unfold provenance, labels.
  destruct (1 <? length values)%nat; [set_solver |].
  destruct ms; set_solver.
Qed.

Lemma get_air_fuse_data (raw_data : RawData) (lat lng : Q) :
  get_air (fuse_data raw_data lat lng)
  = _fuse_air_quality (Spec.sources_of raw_data).
Proof. reflexivity. Qed.

Lemma fused_entry_well_formed (raw_data : RawData) (lat lng : Q) :
  map_Forall well_formed_entry (get_air (fuse_data raw_data lat lng)).
Proof.
  intros k e. rewrite get_air_fuse_data, fuse_air_quality_lookup. cbv zeta.
  unfold fused_entry, well_formed_entry, labels.
  repeat case_decide; subst;
    try match goal with
    | |- context [match ?l with [] => _ | _ => _ end] => destruct l
    end; intros [= <-]; simpl;
    (split; [set_solver |]); (split; [by eexists |]);
    (split; [reflexivity |]); (split; [reflexivity |]);
    (split; [try apply provenance_is_label; set_solver | try done]).
Qed.

(** X9.  Every entry of the fused air domain belongs to PM2.5, NO2 or SO2,
    carries a value, the unit μg/m³, the WHO 24h guideline of its pollutant
    as threshold and one of the three provenance labels; the label of PM2.5
    is always "OpenAQ". *)
Theorem fused_entries_are_well_formed (raw_data : RawData) (lat lng : Q) :
  map_Forall well_formed_entry (get_air (fuse_data raw_data lat lng)).
Proof. exact (fused_entry_well_formed raw_data lat lng). Qed.

Lemma fused_entries_are_well_formed_witness :
  ∃ e, get_air (fuse_data Examples.ground_pm25_satellite_no2 0 0) !! "no2"
       = Some e ∧ well_formed_entry "no2" e.
Proof.
  eexists. split; [vm_compute; reflexivity |].
  apply (fused_entries_are_well_formed
           Examples.ground_pm25_satellite_no2 0 0 "no2").
  vm_compute. reflexivity.
Defined.

(** X10.  The fused air domain has a PM2.5 entry exactly when some ground
    measurement of PM2.5 carries a value, an NO2 or SO2 entry exactly when
    some ground measurement carries a value or the satellite band carries a
    column density other than 0, and no entry for any other pollutant. *)
Theorem fused_pollutant_present_iff_read (raw_data : RawData) (lat lng : Q) :
  (is_Some (get_air (fuse_data raw_data lat lng) !! "pm25")
   ↔ ground_values "pm25"
       (Spec.measurements_of (Spec.sources_of raw_data)) ≠ []) ∧
  (∀ p, p = "no2" ∨ p = "so2" →
     (is_Some (get_air (fuse_data raw_data lat lng) !! p)
      ↔ ground_values p (Spec.measurements_of (Spec.sources_of raw_data))
        ≠ []
        ∨ is_Some (satellite_value
                     (band_for (Spec.sources_of raw_data) p)))) ∧
  (∀ p, p ∉ ["pm25"; "no2"; "so2"] →
     get_air (fuse_data raw_data lat lng) !! p = None).
Proof.
  rewrite get_air_fuse_data.
  split; [| split].
  - rewrite fuse_air_quality_lookup. cbv zeta. simpl. unfold fused_entry.
    destruct (ground_values _ _); split; intros H; try done.
    all: by destruct H.
  - intros p Hp. rewrite fuse_air_quality_lookup. cbv zeta.
    unfold fused_entry, satellite_ug.
    destruct Hp as [-> | ->]; simpl;
      destruct (ground_values _ _), (satellite_value _); simpl;
      split; intros H; try done; try (by destruct H as [H' | [? H']]);
      try (right; by eexists); try (by left).
  - intros p Hp. rewrite fuse_air_quality_lookup. cbv zeta.
    repeat case_decide; subst; try reflexivity; set_solver.
Qed.

Lemma weight_ground : weight "ground_sensor" = 5 # 10.
Proof. reflexivity. Qed.

Lemma weight_satellite : weight "satellite" = 4 # 10.
Proof. reflexivity. Qed.

Lemma sum_cons (x : Q) (l : list Q) : Py.sum (x :: l) = x + Py.sum l.
Proof. reflexivity. Qed.

Lemma sum_app (a b : list Q) : Py.sum (a ++ b) == Py.sum a + Py.sum b.
Proof.
  induction a as [| x a IH]; [simpl; change (Py.sum []) with 0; lra |].
  rewrite <- app_comm_cons, !sum_cons, IH. lra.
Qed.

Lemma sum_replicate (n : nat) (w : Q) :
  Py.sum (replicate n w) == Py.of_nat n * w.
Proof.
  induction n as [| n IH]; [reflexivity |].
  cbn [replicate]. rewrite sum_cons, IH. unfold Py.of_nat.
  rewrite Nat2Z.inj_succ, <- Z.add_1_r, inject_Z_plus. simpl inject_Z. ring.
Qed.

Lemma sum_weighted_replicate (vs : list Q) (w : Q) :
  Py.sum (zip_with Qmult vs (replicate (length vs) w)) == w * Py.sum vs.
Proof.
  induction vs as [| v vs IH]; [change (Py.sum []) with 0; simpl; ring |].
  cbn [length replicate zip_with]. rewrite !sum_cons, IH. ring.
Qed.

(** The weighted average of ground readings and satellite values. *)
Lemma np_average_ground_satellite (gv sv : list Q) (wg ws : Q) :
  np_average (gv ++ sv)
    (replicate (length gv) wg ++ replicate (length sv) ws)
  == (wg * Py.sum gv + ws * Py.sum sv)
     / (Py.of_nat (length gv) * wg + Py.of_nat (length sv) * ws).
Proof.
  unfold np_average.
  rewrite zip_with_app by (by rewrite length_replicate).
  rewrite !sum_app, !sum_weighted_replicate, !sum_replicate. reflexivity.
Qed.

Lemma of_nat_length_pos {A} (l : list A) : l ≠ [] → 0 < Py.of_nat (length l).
Proof.
  intros H. destruct l; [done |]. unfold Py.of_nat.
  change 0 with (inject_Z 0). rewrite <- Zlt_Qlt. simpl length. lia.
Qed.

(** X11.  Without a satellite value for the pollutant, the fused value is
    the arithmetic mean of the ground readings of that pollutant. *)
Theorem ground_only_fusion_is_the_mean
    (raw_data : RawData) (p : string) (v : Q) :
  satellite_value (band_for (Spec.sources_of raw_data) p) = None →
  Spec.fused_value raw_data p = Some v →
  v == mean (ground_values p
               (Spec.measurements_of (Spec.sources_of raw_data))).
Proof.
  intros Hsat. unfold Spec.fused_value.
  rewrite get_air_fuse_data, fuse_air_quality_lookup. cbv zeta.
  unfold satellite_ug. rewrite Hsat. cbn [length replicate].
  rewrite !app_nil_r.
  set (gv := ground_values p _).
  assert (∀ t label, fused_entry gv (replicate (length gv)
                        (weight "ground_sensor")) t label ≫= fm_value
                     = Some v → v == mean gv) as Hentry.
  { intros t label. unfold fused_entry.
    destruct gv as [| x gv'] eqn:E; [discriminate |]. rewrite <- E.
    intros [= <-].
    pose proof (np_average_ground_satellite gv [] (weight "ground_sensor") 0)
      as H.
    rewrite app_nil_r in H. cbn [length replicate] in H.
    rewrite app_nil_r in H. rewrite H. unfold mean.
    change (Py.sum []) with 0. rewrite weight_ground.
    assert (0 < Py.of_nat (length gv)) as Hn
      by (apply of_nat_length_pos; by rewrite E).
    change (Py.of_nat 0) with 0. field. lra. }
  repeat case_decide; try discriminate; apply Hentry.
Qed.

Lemma ground_only_fusion_is_the_mean_witness :
  ∃ v, Spec.fused_value Examples.ground_with_gap "pm25" = Some v ∧
       v == mean (ground_values "pm25"
                    (Spec.measurements_of
                       (Spec.sources_of Examples.ground_with_gap))) ∧
       v == 40.
Proof.
  eexists. split; [vm_compute; reflexivity |].
  split; [| vm_compute; reflexivity].
  apply (ground_only_fusion_is_the_mean Examples.ground_with_gap "pm25");
    vm_compute; reflexivity.
Defined.

(** X12.  With a satellite value for NO2 or SO2, the fused value weights
    every ground reading with 0.5 and the converted column density with
    0.4: it is (5 × sum of the ground readings + 4 × satellite value in
    μg/m³) / (5 × number of ground readings + 4). *)
Theorem fusion_weights_ground_and_satellite
    (raw_data : RawData) (p : string) (mol v : Q) :
  satellite_value (band_for (Spec.sources_of raw_data) p) = Some mol →
  Spec.fused_value raw_data p = Some v →
  v == (5 * Py.sum (ground_values p
                      (Spec.measurements_of (Spec.sources_of raw_data)))
        + 4 * to_ug mol (molar_mass p))
       / (5 * Py.of_nat
                (length (ground_values p
                   (Spec.measurements_of (Spec.sources_of raw_data))))
          + 4).
Proof.
  intros Hsat. unfold Spec.fused_value.
  rewrite get_air_fuse_data, fuse_air_quality_lookup. cbv zeta.
  unfold satellite_ug. rewrite Hsat. cbn [length replicate].
  set (gv := ground_values p _).
  assert (0 <= Py.of_nat (length gv)) as Hn.
  { unfold Py.of_nat. change 0 with (inject_Z 0). rewrite <- Zle_Qle. lia. }
  assert (∀ t label,
            fused_entry (gv ++ [to_ug mol (molar_mass p)])
              (replicate (length gv) (weight "ground_sensor")
               ++ [weight "satellite"]) t label ≫= fm_value = Some v →
            v == (5 * Py.sum gv + 4 * to_ug mol (molar_mass p))
                 / (5 * Py.of_nat (length gv) + 4)) as Hentry.
  { intros t label. unfold fused_entry.
    destruct (gv ++ _) as [| x l] eqn:E;
      [by apply app_eq_nil in E as [_ ?] |].
    rewrite <- E. intros [= <-].
    pose proof (np_average_ground_satellite gv [to_ug mol (molar_mass p)]
                  (weight "ground_sensor") (weight "satellite")) as H.
    cbn [length replicate] in H. rewrite H.
    rewrite weight_ground, weight_satellite, sum_cons.
    change (Py.sum []) with 0. change (Py.of_nat 1) with 1.
    field. lra. }
  unfold band_for in Hsat.
  repeat case_decide; try discriminate; try apply Hentry.
  all: subst; simpl in Hsat; try discriminate.
Qed.

Lemma fusion_weights_ground_and_satellite_witness :
  ∃ v, Spec.fused_value Cases.ground_and_satellite_no2 "no2" = Some v ∧
       v == (5 * (10 + 20) + 4 * to_ug (1 # 10000) (4601 # 100))
            / (5 * 2 + 4).
Proof.
  eexists. split; [vm_compute; reflexivity |].
  etransitivity;
    [apply (fusion_weights_ground_and_satellite
              Cases.ground_and_satellite_no2 "no2" (1 # 10000))
    |]; vm_compute; reflexivity.
Defined.

Lemma satellite_value_zero (b : SatelliteBand) (z : Q) :
  band_value b = Some z → z == 0 → satellite_value (Some b) = None.
Proof.
  intros Hb Hz. unfold satellite_value. simpl. rewrite Hb. simpl.
  unfold Py.truthy. apply Qeq_bool_iff in Hz. by rewrite Hz.
Qed.

(** X13.  A satellite column density that equals 0 is treated like a
    missing one, for NO2 and for SO2. *)
Theorem zero_column_density_is_ignored
    (ms : list Measurement) (z : Q) (other : option SatelliteBand) :
  z == 0 →
  _fuse_air_quality
    (sources_with ms (Some {| s5p_no2 := Some {| band_value := Some z |};
                              s5p_so2 := other |}))
  = _fuse_air_quality
      (sources_with ms (Some {| s5p_no2 := None; s5p_so2 := other |})) ∧
  _fuse_air_quality
    (sources_with ms (Some {| s5p_no2 := other;
                              s5p_so2 := Some {| band_value := Some z |} |}))
  = _fuse_air_quality
      (sources_with ms (Some {| s5p_no2 := other; s5p_so2 := None |})).
Proof.
  intros Hz.
  pose proof (satellite_value_zero {| band_value := Some z |} z eq_refl Hz)
    as Hsat.
  split; apply map_eq; intros p; rewrite !fuse_air_quality_lookup; cbv zeta;
    unfold band_for, satellite_ug; cbn [sources_with sentinel5p default
      s5p_no2 s5p_so2 from_option id];
    repeat case_decide; try reflexivity; by rewrite Hsat.
Qed.

Lemma zero_column_density_is_ignored_witness :
  _fuse_air_quality
    (sources_with [Examples.measurement "no2" 10]
       (Some {| s5p_no2 := Some {| band_value := Some (0 # 5) |};
                s5p_so2 := None |}))
  = _fuse_air_quality
      (sources_with [Examples.measurement "no2" 10]
         (Some {| s5p_no2 := None; s5p_so2 := None |})).
Proof.
  apply (zero_column_density_is_ignored
           [Examples.measurement "no2" 10] (0 # 5) None).
  reflexivity.
Defined.

Lemma sum_Permutation (l k : list Q) : l ≡ₚ k → Py.sum l == Py.sum k.
Proof.
  induction 1 as [| x l k _ IH | x y l | l k j _ IH1 _ IH2].
  - reflexivity.
  - rewrite !sum_cons, IH. reflexivity.
  - rewrite !sum_cons. ring.
  - by rewrite IH1.
Qed.






End DataFusionProps.

(** ** Further properties of the anomaly detector *)

Module AnomalyDetectorProps.

Import AnomalyDetector DetectorPreds.

Lemma extract_features_row_empty (x : Sample) :
  _extract_features (DataFrame_of_row x) = [] ↔ no_features x.
Proof.
  unfold _extract_features, DataFrame_of_row, no_features, feature_columns.
  cbn [df_columns df_timestamp omap list_omap].
  rewrite !lookup_fmap.
  split.
  - intros H. split.
    + intros col Hcol.
      destruct (sample_timestamp x); simpl in H;
        [apply app_eq_nil in H as [_ H]; discriminate H |].
      destruct (sample_values x !! "pm25") eqn:E1; [discriminate |].
      destruct (sample_values x !! "pm10") eqn:E2; [discriminate |].
      destruct (sample_values x !! "no2") eqn:E3; [discriminate |].
      destruct (sample_values x !! "so2") eqn:E4; [discriminate |].
      destruct (sample_values x !! "o3") eqn:E5; [discriminate |].
      repeat (apply elem_of_cons in Hcol as [-> | Hcol]; [assumption |]).
      by apply elem_of_nil in Hcol.
    + destruct (sample_timestamp x); [| reflexivity].
      simpl in H. apply app_eq_nil in H as [_ H]. discriminate H.
  - intros [Hcols ->]. simpl.
    rewrite !Hcols by set_solver. reflexivity.
Qed.

Section Detector.

Context {StandardScaler IsolationForest : Type}.
Context (scaler_fit_transform :
           StandardScaler → list (list Q)
           → StandardScaler * option (list (list Q))).
Context (scaler_transform :
           StandardScaler → list (list Q) → option (list (list Q))).
Context (forest_fit :
           IsolationForest → list (list Q) → IsolationForest * bool).
Context (score_samples : IsolationForest → list (list Q) → option (list Q)).
Context (forest_predict :
           IsolationForest → list (list Q) → option (list Z)).

Abbreviation detector := (t StandardScaler IsolationForest).
Abbreviation fit := (fit _ _ scaler_fit_transform forest_fit).
Abbreviation predict :=
  (predict _ _ scaler_transform score_samples forest_predict).
Abbreviation run :=
  (run _ _ scaler_fit_transform scaler_transform forest_fit score_samples
       forest_predict).

(** X15.  What a fitted detector predicts: for a sample with none of the
    five pollutant columns and no timestamp the neutral result with the
    note "No features available", without a call of scikit-learn; for
    every other sample an exception of the scaler goes through, and every
    dict that is returned is without note, with threshold −0.5 and with a
    confidence that is the absolute value of the anomaly score, hence not
    negative. *)
Theorem predict_of_fitted_detector (self : detector) (x : Sample) :
  fitted _ _ self = true →
  (no_features x → predict self x = Some (neutral "No features available")) ∧
  (¬ no_features x →
   (scaler_transform (scaler _ _ self)
      (_extract_features (DataFrame_of_row x)) = None →
    predict self x = None) ∧
   (∀ r, predict self x = Some r →
         note r = None ∧
         anomaly_threshold r = Some (- (1 # 2)) ∧
         anomaly_confidence r = Qabs (anomaly_score r) ∧
         0 <= anomaly_confidence r)).
Proof.
  intros Hfit. unfold AnomalyDetector.predict. rewrite Hfit. cbn [negb].
  split.
  - intros Hno. apply extract_features_row_empty in Hno. by rewrite Hno.
  - intros Hsome. rewrite <- extract_features_row_empty in Hsome.
    destruct (_extract_features (DataFrame_of_row x)) as [| c cs] eqn:E;
      [done |].
    cbn [length Nat.eqb]. split; [by intros -> |].
    intros r.
    destruct (scaler_transform _ _) as [features_scaled |];
      [| discriminate].
    cbn [mbind option_bind].
    destruct (score_samples _ _ ≫= head) as [score |]; [| discriminate].
    cbn [mbind option_bind].
    destruct (forest_predict _ _ ≫= head) as [label |]; [| discriminate].
    cbn [mbind option_bind]. intros [= <-].
    cbn [note anomaly_threshold anomaly_confidence anomaly_score].
    repeat split. apply Qabs_nonneg.
Qed.

Lemma fit_flag (self : detector) (historical_data : DataFrame) :
  fitted _ _ (fit self historical_data).1
  = if (fit self historical_data).2
    then negb (df_len historical_data <? 10)%nat
    else fitted _ _ self.
Proof.
  unfold AnomalyDetector.fit.
  destruct (df_len historical_data <? 10)%nat; [reflexivity |].
  destruct (scaler_fit_transform _ _) as [scaler' [features_scaled |]];
    [| reflexivity].
  by destruct (forest_fit _ _) as [model' []].
Qed.

Lemma run_app (self : detector) (calls calls' : list call) :
  run self (calls ++ calls')
  = ((run (run self calls).1 calls').1,
     (run self calls).2 ++ (run (run self calls).1 calls').2).
Proof.
  revert self. induction calls as [| c calls IH]; intros self.
  - simpl. by destruct (run self calls').
  - rewrite <- app_comm_cons. cbn [AnomalyDetector.run].
    destruct (step _ _ _ _ _ _ _ self c) as [self' out].
    rewrite IH. destruct (run self' calls) as [s1 o1].
    simpl. by destruct (run s1 calls') as [s2 o2].
Qed.

Lemma run_length (self : detector) (calls : list call) :
  length (run self calls).2 = length calls.
Proof.
  revert self. induction calls as [| c calls IH]; intros self; [done |].
  cbn [AnomalyDetector.run].
  destruct (step _ _ _ _ _ _ _ self c) as [self' out].
  specialize (IH self'). destruct (run self' calls) as [s1 o1].
  simpl in *. by rewrite IH.
Qed.

(** X16.  After any sequence of calls the detector is fitted exactly when
    the history of the last [fit] that returned had at least ten rows; a
    [fit] that raised and every [predict] leave the flag as it was, and
    without a [fit] that returned the flag is the one the detector started
    with. *)
Theorem fitted_flag_follows_last_fit (self : detector) (calls : list call) :
  fitted _ _ (run self calls).1
  = from_option (λ h, negb (df_len h <? 10)%nat) (fitted _ _ self)
      (last_returned_fit calls (run self calls).2).
Proof.
  induction calls as [| c calls IH] using rev_ind; [done |].
  rewrite run_app. cbn [fst snd].
  unfold last_returned_fit in *.
  rewrite zip_with_app by (by rewrite run_length).
  rewrite omap_app.
  set (s1 := (run self calls).1) in *.
  destruct c as [h | x]; cbn [AnomalyDetector.run step].
  - pose proof (fit_flag s1 h) as Hflag.
    destruct (fit s1 h) as [s2 returned]. cbn [fst snd] in *.
    destruct returned; cbn [zip_with omap list_omap returned_fit].
    + by rewrite last_snoc.
    + rewrite app_nil_r, Hflag. exact IH.
  - destruct (predict s1 x) as [r |];
      cbn [from_option zip_with omap list_omap returned_fit fst snd];
      by rewrite app_nil_r.
Qed.

End Detector.

Lemma fitted_flag_follows_last_fit_witness :
  fitted _ _
    (run unit unit Examples.stub_fit_transform Examples.stub_transform
       Examples.stub_forest_fit Examples.stub_score_samples
       Examples.stub_forest_predict (init unit unit tt tt)
       [Fit Cases.ten_rows; Fit Cases.ten_rows_without_columns;
        Predict Examples.sample_pm25]).1 = true ∧
  take 2
    (run unit unit Examples.stub_fit_transform Examples.stub_transform
       Examples.stub_forest_fit Examples.stub_score_samples
       Examples.stub_forest_predict (init unit unit tt tt)
       [Fit Cases.ten_rows; Fit Cases.ten_rows_without_columns;
        Predict Examples.sample_pm25]).2 = [Done; Raised].
Proof.
  split; [| vm_compute; reflexivity].
  rewrite (fitted_flag_follows_last_fit
             Examples.stub_fit_transform Examples.stub_transform
             Examples.stub_forest_fit Examples.stub_score_samples
             Examples.stub_forest_predict).
  vm_compute. reflexivity.
Defined.

Lemma predict_of_fitted_detector_witness :
  fitted _ _ Cases.fitted_detector = true ∧
  ∃ r, predict unit unit Examples.stub_transform Examples.stub_score_samples
         Examples.stub_forest_predict Cases.fitted_detector
         Examples.sample_pm25 = Some r ∧
       note r = None ∧ anomaly_confidence r == 7 # 10.
Proof.
  split; [reflexivity |].
  destruct (predict_of_fitted_detector
              Examples.stub_transform Examples.stub_score_samples
              Examples.stub_forest_predict Cases.fitted_detector
              Examples.sample_pm25 eq_refl) as [_ H].
  destruct H as [_ H].
  - intros [Hno _]. specialize (Hno "pm25" ltac:(apply list_elem_of_here)).
    vm_compute in Hno. discriminate Hno.
  - eexists. split; [vm_compute; reflexivity |].
    split; [| vm_compute; reflexivity].
    apply (H _ ltac:(vm_compute; reflexivity)).
Defined.

End AnomalyDetectorProps.

(** ** Properties of the routes *)

Module RoutesProps.

Import RiskScorer PyFacts ScorerPreds Routes RoutePreds RiskScorerProps.

Lemma truthy_of_pos (v : Q) : 0 < v → Py.truthy v = true.
Proof.
  intros H. unfold Py.truthy. destruct (Qeq_bool v 0) eqn:E; [| reflexivity].
  apply Qeq_bool_iff in E. lra.
Qed.

(** The plumes are decided by the SO2 value alone. *)
Lemma detect_plumes_cases (m : MetricsBundle) :
  _detect_plumes m
  = match air_value m "so2" with
    | Some value => if Py.gt value 50 then [so2_plume value] else [no_plume]
    | None => [no_plume]
    end.
Proof.
  unfold _detect_plumes, air_value.
  destruct (get_air m !! "so2" ≫= fm_value) as [v |]; [| reflexivity].
  destruct (Py.gt v 50) eqn:G.
  - apply gt_true in G. rewrite truthy_of_pos by lra. reflexivity.
  - by destruct (Py.truthy v).
Qed.

Lemma exposure_at_least_so2 (m : MetricsBundle) (v : Q) :
  air_value m "so2" = Some v →
  Py.min 100 (v / 40 * 50) <= _calculate_exposure_score m.
Proof.
  unfold air_value. intros Hv. unfold _calculate_exposure_score.
  rewrite (exceedance_block_value (get_air m) "so2"), Hv.
  change (who "so2_24h") with 40. change (Py.gt 40 0) with true. cbv iota.
  generalize (exceedance_block (get_air m) "no2" "no2_24h"
                (exceedance_block (get_air m) "pm25" "pm25_24h" 0)).
  intros acc.
  destruct (quality_score (get_water m)) as [s |]; py_cases; qlra.
Qed.

(** X17.  A detected plume excludes the verdict SAFE: whenever
    [_detect_plumes] reports a plume as detected, the risk score of the same
    metrics is at least 37.5 and the verdict is not SAFE, whatever the
    history and the data quality. *)
Theorem detected_plume_excludes_safe_verdict
    (m : MetricsBundle) (h : option (list MetricsBundle))
    (dq : option DataQuality) (p : Plume) :
  p ∈ _detect_plumes m → plume_detected p = true →
  verdict (calculate_risk_score m h dq) ≠ SAFE ∧
  (375 # 10) <= risk_score (calculate_risk_score m h dq).
Proof.
  intros Hin Hdet. rewrite detect_plumes_cases in Hin.
  destruct (air_value m "so2") as [v |] eqn:Ev.
  2: { apply list_elem_of_singleton in Hin. by subst. }
  destruct (Py.gt v 50) eqn:G.
  2: { apply list_elem_of_singleton in Hin. by subst. }
  apply gt_true in G.
  pose proof (exposure_at_least_so2 m v Ev) as He.
  assert (625 # 10 <= _calculate_exposure_score m) as He'.
  { revert He. py_cases; intros; qlra. }
  clear He.
  unfold calculate_risk_score. cbn [verdict risk_score].
  set (dq' := default default_data_quality dq).
  pose proof (composite_score_unclamped m h dq') as Hc.
  pose proof (duration_score_bounds h) as Hd.
  pose proof (uncertainty_penalty_bounds dq') as [Hp _].
  assert (375 # 10 <= composite_score m h dq') as Hs by lra.
  split.
  - pose proof (RiskScorerFacts.verdict_of_spec (composite_score m h dq')) as Hv.
    destruct (verdict_of _); simpl in Hv; try discriminate. lra.
  - pose proof (round1_ge 375 (composite_score m h dq')) as Hr.
    unfold inject_Z in Hr. revert Hr Hs. generalize (composite_score m h dq').
    intros s Hr Hs. assert (375 / 10 <= s) as Hs' by qlra.
    specialize (Hr Hs'). qlra.
Qed.

Lemma detected_plume_excludes_safe_verdict_witness :
  so2_plume 60 ∈ _detect_plumes Cases.so2_60 ∧
  verdict (calculate_risk_score Cases.so2_60 None None) ≠ SAFE ∧
  (375 # 10) <= risk_score (calculate_risk_score Cases.so2_60 None None).
Proof.
  assert (so2_plume 60 ∈ _detect_plumes Cases.so2_60) as H
    by (vm_compute; apply list_elem_of_here).
  split; [exact H |].
  apply (detected_plume_excludes_safe_verdict
           Cases.so2_60 None None (so2_plume 60) H eq_refl).
Defined.

Section Clock.

Context (utcnow_iso : string) (hours_since : string → option Q).

Abbreviation assess := (_assess_data_quality utcnow_iso hours_since).
Abbreviation risk_result := (Pipeline.risk_result utcnow_iso hours_since).

Lemma valid_sources_le (sources : gmap string SourceDict) :
  (length (filter (λ s, sd_error s = None) (map_to_list sources).*2)
   <= size sources)%nat.
Proof.
  etrans; [apply length_filter |].
  by rewrite length_fmap, length_map_to_list.
Qed.

Lemma filter_length_all {A} (P : A → Prop) `{∀ x, Decision (P x)}
    (l : list A) :
  length (filter P l) = length l ↔ Forall P l.
Proof.
  induction l as [| x l IH]; [by split |].
  rewrite filter_cons, Forall_cons. pose proof (length_filter P l).
  case_decide; simpl; split; try (intros [? ?]); try intros ?;
    try tauto; try lia.
  - split; [done |]. apply IH. lia.
  - f_equal. by apply IH.
Qed.

Lemma filter_length_none {A} (P : A → Prop) `{∀ x, Decision (P x)}
    (l : list A) :
  length (filter P l) = 0%nat ↔ Forall (λ x, ¬ P x) l.
Proof.
  induction l as [| x l IH]; [by split |].
  rewrite filter_cons, Forall_cons.
  case_decide; simpl; split; try (intros [? ?]); try intros ?;
    try tauto; try lia.
Qed.

Lemma Forall_values {A} (P : A → Prop) (m : gmap string A) :
  Forall P (map_to_list m).*2 ↔ map_Forall (λ _, P) m.
Proof.
  rewrite Forall_fmap, map_Forall_to_list. unfold uncurry.
  apply Forall_proper; [| done]. by intros [k x].
Qed.

Lemma Qdiv_eq_iff (x y k : Q) : 0 < y → (x / y == k ↔ x == k * y).
Proof.
  intros Hy. split; intros H.
  - rewrite <- H. field. lra.
  - rewrite H. field. lra.
Qed.

Lemma of_nat_eq (a b : nat) : Py.of_nat a == Py.of_nat b ↔ a = b.
Proof.
  unfold Py.of_nat. rewrite inject_Z_injective. lia.
Qed.

Lemma assessed_coverage_share (raw_data : RawReport) :
  ∃ c v t,
    coverage (assess raw_data) = Some c ∧
    valid_sources (assess raw_data) = Some v ∧
    total_sources (assess raw_data) = Some t ∧
    t = size (get_sources raw_data) ∧ (v <= t)%nat ∧
    0 <= c <= 1 ∧
    (c == 1 ↔ (0 < t)%nat ∧ all_valid raw_data) ∧
    (c == 0 ↔ all_failed raw_data).
Proof.
  unfold _assess_data_quality, all_valid, all_failed.
  set (sources := get_sources raw_data).
  pose proof (valid_sources_le sources) as Hle.
  pose proof (filter_length_all (λ s, sd_error s = None)
                (map_to_list sources).*2) as Hall.
  pose proof (filter_length_none (λ s, sd_error s = None)
                (map_to_list sources).*2) as Hnone.
  rewrite Forall_values in Hall, Hnone.
  rewrite length_fmap, length_map_to_list in Hall.
  revert Hle Hall Hnone.
  generalize (length (filter (λ s, sd_error s = None)
                        (map_to_list sources).*2)).
  intros v Hle Hall Hnone.
  eexists _, v, (size sources). cbn [coverage valid_sources total_sources].
  do 5 (split; [reflexivity || exact Hle |]).
  destruct (Nat.ltb_spec 0 (size sources)) as [Hpos | Hzero].
  - pose proof (of_nat_pos (size sources) Hpos) as Ht.
    pose proof (of_nat_le v (size sources) Hle) as Hv.
    pose proof (of_nat_le 0 v ltac:(lia)) as Hv0.
    change (Py.of_nat 0) with 0 in Hv0.
    split; [split; [apply Qle_shift_div_l | apply Qle_shift_div_r]; lra |].
    rewrite !Qdiv_eq_iff by exact Ht. rewrite Qmult_1_l, Qmult_0_l.
    change 0 with (Py.of_nat 0). rewrite !of_nat_eq, Hall, Hnone. tauto.
  - assert (size sources = 0%nat) as Hsize by lia.
    apply map_size_empty_iff in Hsize. rewrite Hsize.
    split; [lra |]. split.
    + split; [intros H; discriminate H |].
      rewrite map_size_empty. intros [H _]. lia.
    + split; [intros _; apply map_Forall_empty | reflexivity].
Qed.

(** X18.  The data quality that the routes assess: the total is the number
    of sources in the raw data, the valid ones are among them, and the
    coverage is a share between 0 and 1, which is 1 exactly when there is a
    source and none carries an error, and 0 exactly when every source
    carries an error (also when there is no source). *)
Theorem assessed_coverage_is_a_share (raw_data : RawReport) :
  ∃ c v t,
    coverage (assess raw_data) = Some c ∧
    valid_sources (assess raw_data) = Some v ∧
    total_sources (assess raw_data) = Some t ∧
    t = size (get_sources raw_data) ∧ (v <= t)%nat ∧
    0 <= c <= 1 ∧
    (c == 1 ↔ (0 < t)%nat ∧ all_valid raw_data) ∧
    (c == 0 ↔ all_failed raw_data).
Proof. exact (assessed_coverage_share raw_data). Qed.

Lemma assessed_coverage_bounds (raw_data : RawReport) :
  0 <= coverage_of (assess raw_data) <= 1.
Proof.
  destruct (assessed_coverage_share raw_data)
    as (c & v & t & Hc & _ & _ & _ & _ & Hb & _).
  unfold coverage_of. by rewrite Hc.
Qed.

(** X19.  In both routes, where the metrics come from the fusion and no
    history is passed, the risk score lies between 22.5 and 80 whatever the
    raw data and the clock: the placeholder water score keeps the exposure
    at 12.5 or more, the duration score is 50 and the penalty at most 50. *)
Theorem assessed_risk_score_between_22_and_80
    (raw_data : RawReport) (lat lng : Q) :
  225 # 10 <= risk_score (risk_result raw_data lat lng) <= 80.
Proof.
  unfold Pipeline.risk_result, calculate_risk_score.
  cbn [risk_score default from_option id].
  set (m := Pipeline.fused_metrics raw_data lat lng).
  set (dq := assess raw_data).
  pose proof (composite_score_unclamped m None dq) as Hc.
  pose proof (exposure_score_bounds m) as [_ He100].
  pose proof (RiskScorerFacts.exposure_at_least_water_risk m 75 eq_refl)
    as He.
  assert (Py.min 100 ((100 - 75) / 100 * 50) == 125 # 10) as E
    by (vm_compute; reflexivity).
  rewrite E in He. clear E.
  destruct (uncertainty_penalty_bounds dq) as [[Hp0 _] Hp50].
  specialize (Hp50 (proj1 (assessed_coverage_bounds raw_data))).
  change (_calculate_duration_score None) with 50 in Hc.
  revert Hc. generalize (composite_score m None dq). intros s Hs.
  revert He He100 Hp0 Hp50 Hs.
  generalize (_calculate_exposure_score m),
    (_calculate_uncertainty_penalty dq).
  intros e p He He100 Hp0 Hp50 Hs.
  pose proof (round1_ge 225 s) as Hlo. pose proof (round1_le 800 s) as Hhi.
  unfold inject_Z in *. split.
  - assert (225 / 10 <= s) as H by qlra. specialize (Hlo H). qlra.
  - assert (s <= 800 / 10) as H by qlra. specialize (Hhi H). qlra.
Qed.

(** X20.  When every source of the raw data carries an error (or there is
    no source), the routes report the confidence 0. *)
Theorem confidence_is_zero_when_all_sources_failed
    (raw_data : RawReport) (lat lng : Q) :
  all_failed raw_data →
  confidence (risk_result raw_data lat lng) == 0.
Proof.
  intros Hfailed.
  unfold Pipeline.risk_result, calculate_risk_score.
  cbn [confidence default from_option id].
  set (m := Pipeline.fused_metrics raw_data lat lng).
  destruct (assessed_coverage_share raw_data)
    as (c & v & t & Hc & _ & _ & _ & _ & Hb & _ & Hzero).
  apply Hzero in Hfailed.
  destruct (confidence_coverage_bounds (assess raw_data) m
              (assessed_coverage_bounds raw_data)) as [[Hlo Hhi] _].
  unfold coverage_of in Hlo, Hhi. rewrite Hc in Hlo, Hhi.
  cbn [default from_option id] in Hlo, Hhi.
  revert Hlo Hhi. generalize (_calculate_confidence (assess raw_data) m).
  intros x Hlo Hhi.
  pose proof (round1_ge 0 x) as Hge. pose proof (round1_le 0 x) as Hle.
  unfold inject_Z in *.
  assert (0 / 10 <= x) as H1 by qlra. assert (x <= 0 / 10) as H2 by qlra.
  specialize (Hge H1). specialize (Hle H2). qlra.
Qed.

End Clock.

Lemma confidence_is_zero_when_all_sources_failed_witness :
  all_failed Cases.all_down ∧
  confidence (Pipeline.risk_result Cases.noon Cases.no_age
                Cases.all_down 0 0) == 0.
Proof.
  assert (all_failed Cases.all_down) as H.
  { apply map_Forall_insert_2; [discriminate |].
    apply map_Forall_singleton. discriminate. }
  split; [exact H |].
  apply (confidence_is_zero_when_all_sources_failed
           Cases.noon Cases.no_age Cases.all_down 0 0 H).
Defined.

Lemma setdefault_lookup {A} (k k' : string) (v : A) (d : gmap string A) :
  PyStr.setdefault k v d !! k'
  = if decide (k = k') then Some (default v (d !! k)) else d !! k'.
Proof.
  unfold PyStr.setdefault. destruct (d !! k) eqn:E; case_decide; subst;
    by simplify_map_eq.
Qed.

(** X21.  The timestamps of a response have exactly the four keys
    "air_quality", "water_quality", "land" and "meteorology"; the air
    quality timestamp is the one of OpenAQ if present, else the one of
    Sentinel-5P if present, else the current time, and the other three are
    the current time. *)
Theorem extracted_timestamps_are_complete
    (utcnow_iso : string) (raw_data : RawReport) (key : string) :
  _extract_timestamps utcnow_iso raw_data !! key
  = if decide (key = "air_quality")
    then Some (default
                 (default utcnow_iso
                    (get_sources raw_data !! "sentinel5p" ≫= sd_timestamp))
                 (get_sources raw_data !! "openaq" ≫= sd_timestamp))
    else if decide (key = "water_quality" ∨ key = "land"
                    ∨ key = "meteorology")
    then Some utcnow_iso
    else None.
Proof.
  unfold _extract_timestamps. rewrite !setdefault_lookup.
  destruct (get_sources raw_data !! "openaq" ≫= sd_timestamp) as [t1 |],
    (get_sources raw_data !! "sentinel5p" ≫= sd_timestamp) as [t2 |];
    cbn [default from_option id];
    repeat case_decide; subst; simplify_map_eq; try done;
    exfalso; intuition congruence.
Qed.

Section Fetch.

Import DataIngestionService.

Context (openaq_call sentinel5p_call weather_call : Outcome).
Context (utcnow_iso : string) (lat lng : Q).
Context (include_satellite include_ground include_weather : bool).

Abbreviation fetched :=
  (fetch_all_sources openaq_call sentinel5p_call weather_call utcnow_iso
     lat lng include_satellite include_ground include_weather).

Lemma fetched_lookup (name : string) :
  get_sources fetched !! name
  = if decide (name = "openaq")
    then if include_ground then Some (entry_of "openaq" openaq_call)
         else None
    else if decide (name = "sentinel5p")
    then if include_satellite
         then Some (entry_of "sentinel5p" sentinel5p_call) else None
    else if decide (name = "weather")
    then if include_weather then Some (entry_of "weather" weather_call)
         else None
    else None.
Proof.
  unfold fetch_all_sources, get_sources. cbn [rr_sources default from_option id].
  destruct include_ground, include_satellite, include_weather;
    cbn [app collect]; fold (entry_of "openaq" openaq_call);
    fold (entry_of "sentinel5p" sentinel5p_call);
    fold (entry_of "weather" weather_call);
    repeat case_decide; by simplify_map_eq.
Qed.

Lemma delivered_spec (name : string) (o : Outcome) :
  delivered o = true ↔ sd_error (entry_of name o) = None.
Proof.
  destruct o as [d | msg]; simpl.
  - by rewrite bool_decide_eq_true.
  - split; discriminate.
Qed.

Lemma valid_insert (k : string) (d : SourceDict)
    (m : gmap string SourceDict) :
  m !! k = None →
  length (filter (λ s, sd_error s = None) (map_to_list (<[k := d]> m)).*2)
  = ((if decide (sd_error d = None) then 1 else 0)
     + length (filter (λ s, sd_error s = None) (map_to_list m).*2))%nat.
Proof.
  intros Hk. rewrite (map_to_list_insert m k d Hk).
  rewrite fmap_cons, filter_cons. cbn [snd]. by case_decide.
Qed.

(** X22.  The raw data of [fetch_all_sources] has an entry for exactly the
    enabled sources, whether their calls return or raise; the assessed total
    is the number of enabled sources and the assessed valid count the number
    of enabled sources whose call returned a dict without "error". *)
Theorem fetched_sources_are_the_enabled_ones
    (hours_since : string → option Q) :
  dom (get_sources fetched)
  = (if include_ground then {["openaq"]} else ∅)
    ∪ (if include_satellite then {["sentinel5p"]} else ∅)
    ∪ (if include_weather then {["weather"]} else ∅) ∧
  total_sources (_assess_data_quality utcnow_iso hours_since fetched)
  = Some (count_true [include_ground; include_satellite; include_weather]) ∧
  valid_sources (_assess_data_quality utcnow_iso hours_since fetched)
  = Some (count_true [include_ground && delivered openaq_call;
                      include_satellite && delivered sentinel5p_call;
                      include_weather && delivered weather_call]).
Proof.
  unfold _assess_data_quality. cbn [total_sources valid_sources].
  unfold fetch_all_sources, get_sources. cbn [rr_sources default from_option id].
  pose proof (delivered_spec "openaq" openaq_call) as Ho.
  pose proof (delivered_spec "sentinel5p" sentinel5p_call) as Hs.
  pose proof (delivered_spec "weather" weather_call) as Hw.
  destruct include_ground, include_satellite, include_weather;
    cbn [app collect andb count_true List.filter id length];
    fold (entry_of "openaq" openaq_call);
    fold (entry_of "sentinel5p" sentinel5p_call);
    fold (entry_of "weather" weather_call);
    (split; [rewrite ?dom_insert_L, ?dom_empty_L; set_solver |]);
    (split; [by rewrite ?map_size_insert_None, ?map_size_empty
                  by (by simplify_map_eq) |]);
    rewrite ?valid_insert by (by simplify_map_eq);
    rewrite ?map_to_list_empty; cbn [fmap list_fmap filter list_filter length];
    f_equal;
    destruct (delivered openaq_call), (delivered sentinel5p_call),
      (delivered weather_call);
    repeat case_decide; cbn; try reflexivity;
    exfalso; intuition (try discriminate; auto).
Qed.

Lemma fetched_openaq :
  get_sources fetched !! "openaq"
  = if include_ground then Some (entry_of "openaq" openaq_call) else None.
Proof. rewrite fetched_lookup. by repeat case_decide. Qed.

Lemma fetched_sentinel5p :
  get_sources fetched !! "sentinel5p"
  = if include_satellite then Some (entry_of "sentinel5p" sentinel5p_call)
    else None.
Proof. rewrite fetched_lookup. by repeat case_decide. Qed.

Lemma fetched_weather :
  get_sources fetched !! "weather"
  = if include_weather then Some (entry_of "weather" weather_call) else None.
Proof. rewrite fetched_lookup. by repeat case_decide. Qed.

Lemma fetched_cpcb : get_sources fetched !! "cpcb" = None.
Proof. rewrite fetched_lookup. by repeat case_decide. Qed.

Lemma decide_is_Some_if {A B} (b : bool) (x : A) (y z : B) :
  (if decide (is_Some (if b then Some x else None)) then y else z)
  = if b then y else z.
Proof.
  destruct b; case_decide as H; try reflexivity.
  - exfalso. apply H. by eexists.
  - by destruct H.
Qed.

(** X23.  The sources reported for fetched data: the satellite and the
    weather entries follow the flags; the list of ground sensors holds
    "Sentinel-5P TROPOMI" when the satellite is enabled, "OpenAQ" when the
    ground sensors are enabled and returned at least one measurement, and
    never "CPCB (India)". *)
Theorem extracted_sources_of_fetched_data :
  info_satellite (_extract_sources fetched)
  = (if include_satellite then Some "Sentinel-5P TROPOMI" else None) ∧
  info_weather (_extract_sources fetched)
  = (if include_weather then Some "ERA5" else None) ∧
  info_ground_sensors (_extract_sources fetched)
  = (if include_satellite then ["Sentinel-5P TROPOMI"] else [])
    ++ (if include_ground && has_measurements openaq_call
        then ["OpenAQ"] else []).
Proof.
  unfold _extract_sources.
  cbn [info_satellite info_weather info_ground_sensors].
  rewrite fetched_openaq, fetched_sentinel5p, fetched_weather, fetched_cpcb.
  rewrite !decide_is_Some_if.
  split; [reflexivity |]. split; [reflexivity |].
  rewrite decide_False by (by intros [? ?]).
  unfold has_measurements.
  destruct include_ground, include_satellite; cbn [mbind option_bind andb app];
    try reflexivity;
    by destruct (sd_measurements _) as [[| ? ?] |].
Qed.

End Fetch.

End RoutesProps.

(** ** Properties of the analysis route *)

Module AnalysisProps.

Import RiskScorer PyFacts ScorerPreds FusionPreds Routes RoutePreds.
Import RiskScorerProps DataFusionProps RoutesProps.

Lemma list_to_set_cons_non_empty (x : string) (l : list string) :
  list_to_set (C := gset string) (x :: l) ≠ ∅.
Proof.
  apply (non_empty_inhabited_L x). rewrite list_to_set_cons.
  apply elem_of_union_l, elem_of_singleton. reflexivity.
Qed.

Section Formatting.

Context (format_1f format_float : Q → string).

Abbreviation air_reason := (air_reason format_1f format_float).
Abbreviation human_readable :=
  (_generate_human_readable format_1f format_float).

(** The threshold that the explanation reads for a pollutant. *)
Lemma air_reason_cases (air : gmap string FusedMetric) (p : string)
    (dflt : Q) (name limit : string) :
  0 < default dflt (air !! p ≫= fm_threshold) →
  (∀ rest, name +:+ rest ≠ filler_reason) →
  ∃ reason,
    air_reason air p dflt name limit = Some reason ∧
    (is_Some reason
     ↔ ∃ v, air !! p ≫= fm_value = Some v
            ∧ default dflt (air !! p ≫= fm_threshold) < v) ∧
    (∀ s, reason = Some s → s ≠ filler_reason).
Proof.
  intros Ht Hname. unfold Routes.air_reason.
  set (t := default dflt (air !! p ≫= fm_threshold)) in *.
  destruct (air !! p ≫= fm_value) as [v |].
  2: { exists None. split; [reflexivity |]. split; [| done].
       split; [by intros [? ?] | by intros (? & ? & _)]. }
  destruct (Py.truthy v) eqn:Tv.
  2: { exists None. split; [reflexivity |]. split; [| done].
       split; [by intros [? ?] |]. intros (v' & [= <-] & Hv).
       unfold Py.truthy in Tv. apply negb_false_iff, Qeq_bool_iff in Tv. lra. }
  destruct (Py.gt v t) eqn:G.
  2: { exists None. split; [reflexivity |]. split; [| done].
       split; [by intros [? ?] |]. intros (v' & [= <-] & Hv).
       apply gt_true in Hv. congruence. }
  assert (Qeq_bool t 0 = false) as ->.
  { destruct (Qeq_bool t 0) eqn:E; [| reflexivity].
    apply Qeq_bool_iff in E. lra. }
  eexists (Some _). split; [reflexivity |]. split.
  - split; [| by eexists]. intros _. exists v. split; [reflexivity |].
    by apply gt_true.
  - intros s [= <-]. apply Hname.
Qed.

Lemma pm25_name (rest : string) : "PM2.5" +:+ rest ≠ filler_reason.
Proof. discriminate. Qed.

Lemma no2_name (rest : string) : "NO₂" +:+ rest ≠ filler_reason.
Proof. discriminate. Qed.

Lemma so2_name (rest : string) : "SO₂" +:+ rest ≠ filler_reason.
Proof. discriminate. Qed.

(** The explanation of a bundle whose three scored pollutants, where
    present, carry positive thresholds. *)
Lemma human_readable_cases (m : MetricsBundle) (rr : RiskResult) :
  0 < default 45 (get_air m !! "pm25" ≫= fm_threshold) →
  0 < default 200 (get_air m !! "no2" ≫= fm_threshold) →
  0 < default 40 (get_air m !! "so2" ≫= fm_threshold) →
  ∃ hr,
    human_readable m rr = Some hr ∧
    hr_reasons hr ≠ [] ∧
    hr_recommendations hr ≠ ∅ ∧
    (filler_reason ∈ hr_reasons hr → hr_reasons hr = [filler_reason]) ∧
    (filler_reason ∈ hr_reasons hr
     ↔ ¬ exceeds_own_threshold m ∧ ¬ poor_water m) ∧
    ("Monitor water before consumption" ∈ hr_recommendations hr
     ↔ poor_water m).
Proof.
  intros H1 H2 H3. unfold Routes._generate_human_readable.
  destruct (air_reason_cases (get_air m) "pm25" 45 "PM2.5" "limit" H1
              pm25_name) as (r1 & -> & Hr1 & Hf1).
  destruct (air_reason_cases (get_air m) "no2" 200 "NO₂" "guideline" H2
              no2_name) as (r2 & -> & Hr2 & Hf2).
  destruct (air_reason_cases (get_air m) "so2" 40 "SO₂" "limit" H3
              so2_name) as (r3 & -> & Hr3 & Hf3).
  cbn [mbind option_bind].
  assert (exceeds_own_threshold m
          ↔ is_Some r1 ∨ is_Some r2 ∨ is_Some r3) as Hex.
  { unfold exceeds_own_threshold. split.
    - intros (p & dflt & v & Hin & Hv & Hlt).
      repeat (apply elem_of_cons in Hin as [[= -> ->] | Hin]);
        [left; apply Hr1 | right; left; apply Hr2 | right; right; apply Hr3 |
         by apply elem_of_nil in Hin]; by exists v.
    - intros [H | [H | H]];
        [apply Hr1 in H as (v & ? & ?); exists "pm25", 45, v
        | apply Hr2 in H as (v & ? & ?); exists "no2", 200, v
        | apply Hr3 in H as (v & ? & ?); exists "so2", 40, v];
        (split; [| done]).
      + apply list_elem_of_here.
      + apply list_elem_of_further, list_elem_of_here.
      + do 2 apply list_elem_of_further. apply list_elem_of_here. }
  assert (∀ score, Py.lt score 70 = true ↔ score < 70) as Hlt.
  { intros score. unfold Py.lt. rewrite negb_true_iff. split.
    - apply Qle_bool_false.
    - intros H. destruct (Qle_bool 70 score) eqn:E; [| reflexivity].
      apply Qle_bool_iff in E. lra. }
  assert (poor_water m
          ↔ match quality_score (get_water m) with
            | Some score => Py.lt score 70 = true
            | None => False
            end) as Hw.
  { unfold poor_water. destruct (quality_score (get_water m)) as [score |].
    - rewrite Hlt. split; [by intros (? & [= <-] & ?) | by exists score].
    - split; [by intros (? & [=] & _) | done]. }
  clear Hr1 Hr2 Hr3 H1 H2 H3 Hlt. revert Hex Hw.
  destruct (quality_score (get_water m)) as [score |];
    [destruct (Py.lt score 70) |];
    destruct r1 as [s1 |], r2 as [s2 |], r3 as [s3 |];
    intros Hex Hw; cbn [app option_list];
    eexists; (split; [reflexivity |]);
    cbn [hr_reasons hr_recommendations app option_list option_rect];
    (split; [discriminate |]);
    (split; [first [apply non_empty_singleton_L
                   | apply list_to_set_cons_non_empty] |]).
  all: rewrite Hex, Hw; clear Hex Hw.
  all: split;
    [ intros Hin; apply list_elem_of_In in Hin; simpl in Hin;
      repeat match goal with H : _ ∨ _ |- _ => destruct H end;
      first [ by exfalso; eapply Hf1 | by exfalso; eapply Hf2
            | by exfalso; eapply Hf3 | discriminate | done ] |].
  all: split.
  (* the filler reason *)
  all: try (split;
    [ intros Hin; apply list_elem_of_In in Hin; simpl in Hin;
      repeat match goal with H : _ ∨ _ |- _ => destruct H end;
      first [ by exfalso; eapply Hf1 | by exfalso; eapply Hf2
            | by exfalso; eapply Hf3 | discriminate | done
            | split; [by intros [[? [=]] | [[? [=]] | [? [=]]]]
                     | first [done | by intros []]] ]
    | intros [Hno Hnw];
      first [ apply list_elem_of_here
            | exfalso; apply Hnw; reflexivity
            | exfalso; apply Hno;
              first [ by left; eexists | by right; left; eexists
                    | by right; right; eexists ] ] ]; fail).
  (* the advice on water *)
  all: split;
    [ intros Hin;
      first [ reflexivity
            | exfalso;
              first [ apply elem_of_singleton in Hin; discriminate Hin
                    | apply elem_of_list_to_set, list_elem_of_In in Hin;
                      simpl in Hin; intuition discriminate ] ]
    | intros Hp;
      first [ by apply elem_of_list_to_set, list_elem_of_In; simpl; tauto
            | discriminate Hp | destruct Hp ] ].
Qed.




End Formatting.

(** The explanation in the analysis route, where the metrics are the output
    of the fusion. *)
Lemma exposure_at_most_50 (m : MetricsBundle) :
  _calculate_exposure_score m <= 50
  ↔ Forall (λ x, x <= 1) (Spec.scored_ratios m).
Proof.
  unfold _calculate_exposure_score, Spec.scored_ratios.
  rewrite !Forall_app.
  rewrite <- (and_True (Forall _ (Spec.water_ratio m))).
  assert (∀ x, Py.min 100 (x * 50) <= 50 ↔ x <= 1) as ->.
  { intros x. py_cases; split; intros; lra. }
  rewrite RiskScorerFacts.water_le_iff.
  rewrite (RiskScorerFacts.exceedance_block_le_iff m "so2" "so2_24h" 40)
    by reflexivity.
  rewrite (RiskScorerFacts.exceedance_block_le_iff m "no2" "no2_24h" 200)
    by reflexivity.
  rewrite (RiskScorerFacts.exceedance_block_le_iff m "pm25" "pm25_24h" 45)
    by reflexivity.
  assert (0 <= 1) by lra. tauto.
Qed.

Lemma fused_threshold (raw_data : RawData) (lat lng : Q) (p : string)
    (t : Q) :
  (p, t) ∈ [("pm25", 45); ("no2", 200); ("so2", 40)] →
  default t (get_air (DataFusionService.fuse_data raw_data lat lng) !! p
             ≫= fm_threshold) = t.
Proof.
  intros Hin.
  destruct (get_air (DataFusionService.fuse_data raw_data lat lng) !! p)
    as [e |] eqn:E; [| reflexivity].
  apply fused_entry_well_formed in E as (_ & _ & _ & Ht & _).
  cbn [mbind option_bind]. rewrite Ht. clear Ht.
  repeat (apply elem_of_cons in Hin as [[= -> ->] | Hin]);
    [reflexivity .. | by apply elem_of_nil in Hin].
Qed.

Lemma Qlt_iff_not_le (a b : Q) : a < b ↔ ¬ b <= a.
Proof. split; [apply Qlt_not_le | apply Qnot_le_lt]. Qed.

Lemma Qdiv_le_1 (v t : Q) : 0 < t → (v / t <= 1 ↔ v <= t).
Proof.
  intros Ht. split; intros H.
  - assert (v / t * t <= 1 * t) as H0 by (apply Qmult_le_compat_r; lra).
    assert (v / t * t == v) as E by (field; lra).
    rewrite E in H0. lra.
  - apply Qle_shift_div_r; lra.
Qed.

Lemma scored_ratio_le_1 (m : MetricsBundle) (p : string) (t : Q) :
  0 < t →
  Forall (λ x, x <= 1) (Spec.scored_ratio m p t)
  ↔ ∀ v, get_air m !! p ≫= fm_value = Some v → v <= t.
Proof.
  intros Ht. unfold Spec.scored_ratio.
  destruct (get_air m !! p ≫= fm_value) as [v |].
  - rewrite Forall_singleton, Qdiv_le_1 by exact Ht. split.
    + by intros H v' [= <-].
    + intros H. by apply H.
  - split; [by intros _ ? [=] | constructor].
Qed.

Lemma fused_exceedance_iff (raw_data : RawData) (lat lng : Q) :
  exceeds_own_threshold (DataFusionService.fuse_data raw_data lat lng)
  ↔ 50 < _calculate_exposure_score
           (DataFusionService.fuse_data raw_data lat lng).
Proof.
  set (m := DataFusionService.fuse_data raw_data lat lng).
  rewrite Qlt_iff_not_le, exposure_at_most_50. unfold Spec.scored_ratios.
  rewrite !Forall_app, !scored_ratio_le_1 by lra.
  assert (Forall (λ x, x <= 1) (Spec.water_ratio m)) as Hw.
  { apply Forall_singleton. vm_compute. discriminate. }
  unfold exceeds_own_threshold. split.
  - intros (p & dflt & v & Hin & Hv & Hlt) (H1 & H2 & H3 & _).
    unfold m in Hlt. rewrite (fused_threshold _ _ _ _ _ Hin) in Hlt.
    repeat (apply elem_of_cons in Hin as [[= -> ->] | Hin]);
      [specialize (H1 v Hv) | specialize (H2 v Hv) | specialize (H3 v Hv) |
       by apply elem_of_nil in Hin]; lra.
  - intros Hno.
    destruct (get_air m !! "pm25" ≫= fm_value) as [v1 |] eqn:E1.
    1: destruct (Qlt_le_dec 45 v1) as [Hlt | Hle].
    1: { exists "pm25", 45, v1. split; [apply list_elem_of_here |].
         split; [exact E1 |]. unfold m.
         rewrite fused_threshold; [exact Hlt | apply list_elem_of_here]. }
    all: destruct (get_air m !! "no2" ≫= fm_value) as [v2 |] eqn:E2.
    all: try destruct (Qlt_le_dec 200 v2) as [Hlt2 | Hle2].
    all: try (exists "no2", 200, v2;
              split; [apply list_elem_of_further, list_elem_of_here |];
              split; [exact E2 |]; unfold m;
              rewrite fused_threshold;
              [exact Hlt2 | apply list_elem_of_further, list_elem_of_here];
              fail).
    all: destruct (get_air m !! "so2" ≫= fm_value) as [v3 |] eqn:E3.
    all: try destruct (Qlt_le_dec 40 v3) as [Hlt3 | Hle3].
    all: try (exists "so2", 40, v3;
              split; [do 2 apply list_elem_of_further;
                      apply list_elem_of_here |];
              split; [exact E3 |]; unfold m;
              rewrite fused_threshold;
              [exact Hlt3 | do 2 apply list_elem_of_further;
                            apply list_elem_of_here];
              fail).
    all: exfalso; apply Hno; repeat split; try exact Hw;
      intros ? [= <-]; assumption.
Qed.

Section Analysis.

Context (format_1f format_float : Q → string).
Context (utcnow_iso : string) (hours_since : string → option Q).

Abbreviation human_readable :=
  (_generate_human_readable format_1f format_float).
Abbreviation fused_metrics := Pipeline.fused_metrics.
Abbreviation risk_result := (Pipeline.risk_result utcnow_iso hours_since).

(** X25.  On the output of the fusion the explanation never fails,
    whatever the raw data and the risk result: it has at least one reason
    and one recommendation, never recommends to monitor the water (the
    placeholder score is 75), and its only reason is the sentence on no
    major exceedances exactly when the exposure score is at most 50. *)
Theorem fused_metrics_are_always_explained
    (raw_data : RawReport) (lat lng : Q) (rr : RiskResult) :
  ∃ hr,
    human_readable (fused_metrics raw_data lat lng) rr = Some hr ∧
    hr_reasons hr ≠ [] ∧
    hr_recommendations hr ≠ ∅ ∧
    ("Monitor water before consumption" ∉ hr_recommendations hr) ∧
    (hr_reasons hr = [filler_reason]
     ↔ (_calculate_exposure_score (fused_metrics raw_data lat lng) <= 50)).
Proof.
  unfold Pipeline.fused_metrics.
  set (raw := fusion_input raw_data).
  destruct (human_readable_cases format_1f format_float
              (DataFusionService.fuse_data raw lat lng) rr)
    as (hr & -> & Hreasons & Hrecs & Honly & Hfiller & Hwater).
  1-3: rewrite fused_threshold; [reflexivity |].
  1: apply list_elem_of_here.
  1: apply list_elem_of_further, list_elem_of_here.
  1: do 2 apply list_elem_of_further; apply list_elem_of_here.
  assert (¬ poor_water (DataFusionService.fuse_data raw lat lng)) as Hw.
  { intros (score & [= <-] & Hs). lra. }
  exists hr. split; [reflexivity |]. split; [exact Hreasons |].
  split; [exact Hrecs |]. split; [by rewrite Hwater |].
  assert (hr_reasons hr = [filler_reason] ↔ filler_reason ∈ hr_reasons hr)
    as ->.
  { split; [intros ->; apply list_elem_of_here | exact Honly]. }
  rewrite Hfiller, fused_exceedance_iff, Qlt_iff_not_le.
  split; [| by intros H; split; [intros H' |]].
  intros [H _]. destruct (Qlt_le_dec 50 (_calculate_exposure_score
    (DataFusionService.fuse_data raw lat lng))) as [Hlt | Hle];
    [| exact Hle].
  exfalso. apply H. intros Hle. lra.
Qed.

(** X26.  In the analysis route the verdict and the explanation agree: with
    the verdict UNSAFE the reasons do not hold the sentence on no major
    exceedances, and with the verdict SAFE that sentence is the only
    reason. *)
Theorem verdict_and_explanation_agree (raw_data : RawReport) (lat lng : Q) :
  ∃ hr,
    human_readable (fused_metrics raw_data lat lng)
      (risk_result raw_data lat lng) = Some hr ∧
    (verdict (risk_result raw_data lat lng) = UNSAFE
     → filler_reason ∉ hr_reasons hr) ∧
    (verdict (risk_result raw_data lat lng) = SAFE
     → hr_reasons hr = [filler_reason]).
Proof.
  unfold Pipeline.risk_result, calculate_risk_score.
  cbn [verdict default from_option id].
  generalize (_assess_data_quality utcnow_iso hours_since raw_data)
    (assessed_coverage_bounds utcnow_iso hours_since raw_data).
  intros dq [Hcov _].
  match goal with
  | |- context [human_readable _ ?r] => generalize r
  end.
  intros rr. unfold Pipeline.fused_metrics.
  set (raw := fusion_input raw_data).
  set (m := DataFusionService.fuse_data raw lat lng).
  destruct (human_readable_cases format_1f format_float m rr)
    as (hr & -> & _ & _ & Honly & Hfiller & _).
  1-3: unfold m; rewrite fused_threshold; [reflexivity |].
  1: apply list_elem_of_here.
  1: apply list_elem_of_further, list_elem_of_here.
  1: do 2 apply list_elem_of_further; apply list_elem_of_here.
  assert (¬ poor_water m) as Hw.
  { intros (score & [= <-] & Hs). lra. }
  exists hr. split; [reflexivity |].
  pose proof (RiskScorerFacts.verdict_of_spec (composite_score m None dq))
    as Hv.
  pose proof (composite_score_unclamped m None dq) as Hc.
  destruct (uncertainty_penalty_bounds dq) as [[Hp0 _] Hp50].
  specialize (Hp50 Hcov).
  change (_calculate_duration_score None) with 50 in Hc.
  pose proof (fused_exceedance_iff raw lat lng) as Hex. fold m in Hex.
  split; intros E; rewrite E in Hv; simpl in Hv.
  - rewrite Hfiller, Hex. intros [Hno _]. apply Hno. lra.
  - apply Honly, Hfiller. split; [| exact Hw]. rewrite Hex. lra.
Qed.

End Analysis.

Section Technical.

Context (utcnow_iso : string).

(** X27.  The technical breakdown of fused metrics has an entry for
    exactly the pollutants of the fused air domain; each reports the fused
    value and its provenance label, the exceedance factor value / WHO 24h
    guideline, the coverage "grid" for the label "Sentinel-5P" and "point"
    for the two labels that name OpenAQ, and a spatial resolution (3.5 km
    for NO2, 7 km otherwise) unless the label is "OpenAQ". *)
Theorem technical_breakdown_of_fused_metrics
    (raw_data : RawReport) (lat lng : Q) :
  dom (air_technical utcnow_iso (Pipeline.fused_metrics raw_data lat lng))
  = dom (get_air (Pipeline.fused_metrics raw_data lat lng)) ∧
  map_Forall (reported_from (Pipeline.fused_metrics raw_data lat lng))
    (air_technical utcnow_iso (Pipeline.fused_metrics raw_data lat lng)).
Proof.
  unfold Pipeline.fused_metrics, air_technical.
  set (m := DataFusionService.fuse_data (fusion_input raw_data) lat lng).
  pose proof (fused_entry_well_formed (fusion_input raw_data) lat lng)
    as Hwf. fold m in Hwf.
  split.
  - apply set_eq. intros p. rewrite !elem_of_dom, map_lookup_imap.
    destruct (get_air m !! p) as [e |] eqn:E; cbn [mbind option_bind].
    + apply Hwf in E as (_ & [v Hv] & _). unfold technical_data. rewrite Hv.
      split; intros _; by eexists.
    + split; by intros [? ?].
  - intros p t. rewrite map_lookup_imap.
    destruct (get_air m !! p) as [e |] eqn:E; cbn [mbind option_bind];
      [| discriminate].
    pose proof (Hwf p e E) as (Hp & [v Hv] & _ & Ht & Hs & _).
    unfold technical_data. rewrite Hv, Ht. cbn [mbind option_bind].
    intros [= <-]. exists e. split; [exact E |]. cbn.
    split; [exact Hv |]. split; [reflexivity |].
    unfold labels in Hs.
    repeat (apply elem_of_cons in Hp as [-> | Hp]);
      [| | | by apply elem_of_nil in Hp];
      repeat (apply elem_of_cons in Hs as [-> | Hs]);
      try (by apply elem_of_nil in Hs); repeat split; reflexivity.
Qed.

End Technical.

End AnalysisProps.

(** ** Properties of the forecast route *)

Module ForecastProps.

Import Forecast.

Lemma range_loop_by_6 (fuel : nat) (i stop : Z) :
  (stop - i <= Z.of_nat fuel)%Z →
  range_loop fuel i stop 6
  = (λ k : nat, (i + 6 * Z.of_nat k)%Z)
    <$> seq 0 (Z.to_nat ((stop - i + 5) / 6)).
Proof.
  revert i. induction fuel as [| fuel IH]; intros i Hfuel.
  - assert ((stop - i + 5) / 6 <= 0)%Z as H.
    { apply Z.lt_succ_r, Z.div_lt_upper_bound; lia. }
    by replace (Z.to_nat ((stop - i + 5) / 6)) with 0%nat by lia.
  - cbn [range_loop]. destruct (Z.ltb_spec i stop) as [Hlt | Hge].
    + rewrite IH by lia.
      replace (stop - i + 5)%Z with (stop - (i + 6) + 5 + 1 * 6)%Z by lia.
      rewrite Z.div_add by lia.
      assert (0 <= (stop - (i + 6) + 5) / 6)%Z as H
        by (apply Z.div_pos; lia).
      replace (Z.to_nat ((stop - (i + 6) + 5) / 6 + 1))
        with (S (Z.to_nat ((stop - (i + 6) + 5) / 6))) by lia.
      cbn [seq fmap list_fmap]. f_equal; [f_equal; lia |].
      rewrite <- fmap_S_seq, <- list_fmap_compose.
      apply list_fmap_ext. intros _ k _. simpl. lia.
    + assert ((stop - i + 5) / 6 <= 0)%Z as H.
      { apply Z.lt_succ_r, Z.div_lt_upper_bound; lia. }
      by replace (Z.to_nat ((stop - i + 5) / 6)) with 0%nat by lia.
Qed.

Lemma predictions_by_6 (h : Z) :
  predictions h
  = (λ k : nat, prediction_at (6 * Z.of_nat k))
    <$> seq 0 (Z.to_nat ((h + 5) / 6)).
Proof.
  unfold predictions, range. rewrite range_loop_by_6 by lia.
  rewrite <- list_fmap_compose, Z.sub_0_r. reflexivity.
Qed.

(** X28.  For a horizon between 1 and 168 hours, as the route validates
    it, the forecast has one prediction every 6 hours from 0 up to, but not
    including, the horizon: between 1 and 28 of them, each with a mean
    strictly between its lower and its upper bound, and not below the base
    value (50 for PM2.5, 30 for NO2). *)
Theorem forecast_has_a_point_every_six_hours (horizon_hours : Z) :
  (1 <= horizon_hours <= 168)%Z →
  hours_ahead <$> predictions horizon_hours
  = (λ k : nat, (6 * Z.of_nat k)%Z)
    <$> seq 0 (Z.to_nat ((horizon_hours + 5) / 6)) ∧
  (1 <= length (predictions horizon_hours) <= 28)%nat ∧
  Forall (λ p, (0 <= hours_ahead p < horizon_hours)%Z ∧
               lower (pm25 p) < mean (pm25 p) < upper (pm25 p) ∧
               50 <= mean (pm25 p) ∧
               lower (no2 p) < mean (no2 p) < upper (no2 p) ∧
               30 <= mean (no2 p))
    (predictions horizon_hours).
Proof.
  intros Hh. rewrite predictions_by_6.
  assert (1 <= (horizon_hours + 5) / 6 <= 28)%Z as Hn.
  { split; [apply Z.div_le_lower_bound; lia |].
    apply Z.lt_succ_r, Z.div_lt_upper_bound; lia. }
  split; [| split].
  - rewrite <- list_fmap_compose. reflexivity.
  - rewrite length_fmap, length_seq. lia.
  - apply Forall_fmap, Forall_forall. intros k Hk.
    apply elem_of_seq in Hk. cbn.
    assert (6 * ((horizon_hours + 5) / 6) <= horizon_hours + 5)%Z
      by (apply Z.mul_div_le; lia).
    split; [lia |].
    assert (0 <= inject_Z (6 * Z.of_nat k)) as Hk0.
    { change 0 with (inject_Z 0). rewrite <- Zle_Qle. lia. }
    revert Hk0. generalize (inject_Z (6 * Z.of_nat k)). intros q Hq.
    split; [split; lra |]. split; [lra |]. split; [split; lra | lra].
Qed.

Lemma forecast_has_a_point_every_six_hours_witness :
  (1 <= length (predictions 48) <= 28)%nat ∧
  hours_ahead <$> predictions 48 = [0; 6; 12; 18; 24; 30; 36; 42]%Z.
Proof.
  destruct (forecast_has_a_point_every_six_hours 48 ltac:(lia))
    as (Hhours & Hlen & _).
  split; [exact Hlen | rewrite Hhours; reflexivity].
Defined.

End ForecastProps.
